(** * FoodSaver DZ backend: booking lifecycle and inventory consistency

    A shallow embedding of the Express/Mongoose backend: the Offer, Booking,
    Store and Review models with their schema validators and middleware, and
    the booking, offer and review controllers that drive them.

    Conventions of the embedding.
    - A collection is the list of its documents in insertion order; [findOne]
      returns the first match, as a query without a sort does.
    - A JavaScript [Number] that counts items or money is an integer ([Z]);
      the rating of a review and an average are rationals ([Q]).  A [Date]
      is its millisecond count.  A path of a request body is absent or of
      the type of its schema path.
    - A document carries the paths of its schema that the embedded code
      reads or writes.  A path that a controller assigns but the schema does
      not declare is not stored.
    - Reference paths ([offer], [user], [seller], [store]) are stored as the
      [_id] of the referenced document.  A query of the booking or review
      model runs the [pre(/^find/)] hook of its schema, which populates its
      reference paths: in the document the query returns, such a path is the
      referenced document and no [ObjectId] (see [Ref]).  The users that
      bookings and reviews refer to exist; no handler deletes a user.
    - [save()] runs the schema validators, then the [pre('save')] hooks,
      writes, then runs the [post('save')] hooks.  On a new document a path
      set by the caller counts as modified; a path filled by its default
      does not.
    - [findByIdAndUpdate] and [updateMany] write the listed paths directly:
      they run no save hook, and they validate only under [runValidators],
      and then only the listed paths, with [this] not bound to the stored
      document.
    - An error passed to [next] or thrown inside a handler ends the request;
      what was written before stays written.  Error messages are kept
      without the identifiers interpolated into them. *)

From Stdlib Require Import ZArith List String Ascii Bool Lia QArith Qround.
Import ListNotations.
Open Scope string_scope.
Open Scope Z_scope.

Definition ObjectId := nat.
Definition Date := Z.

(** ** References

    The value of a reference path in a document that a query has returned:
    the stored [ObjectId], or the referenced document when the query
    populated the path. *)

Inductive Ref :=
| Unpopulated (i : ObjectId)
| Populated (i : ObjectId).

(** [ref.toString() === s], for [s] the string of an [ObjectId], as in
    [booking.user.toString() !== req.user.id].  The [toString()] of an
    [ObjectId] is its hexadecimal string; that of a populated document is
    the rendering of the whole document, which is the string of no
    [ObjectId]. *)
Definition toString_is (r : Ref) (s : ObjectId) : bool :=
  match r with
  | Unpopulated i => Nat.eqb i s
  | Populated _ => false
  end.

(** [ref._id]: the [_id] of the populated document; an [ObjectId] is its
    own [_id].  A query or an update that is handed a document where it
    expects an [ObjectId] casts it in this way. *)
Definition Ref_id (r : Ref) : ObjectId :=
  match r with
  | Unpopulated i => i
  | Populated i => i
  end.

(** ** Collections *)

Section Collection.
Context {doc : Type}.
Variable key : doc -> ObjectId.

Definition findOne (filter : doc -> bool) (c : list doc) : option doc :=
  List.find filter c.

Definition findById (id : ObjectId) (c : list doc) : option doc :=
  findOne (fun d => Nat.eqb (key d) id) c.

Fixpoint findOneAndUpdate (filter : doc -> bool) (update : doc -> doc)
         (c : list doc) : list doc :=
  match c with
  | [] => []
  | d :: c' =>
      if filter d then update d :: c'
      else d :: findOneAndUpdate filter update c'
  end.

Definition findByIdAndUpdate (id : ObjectId) (update : doc -> doc)
           (c : list doc) : list doc :=
  findOneAndUpdate (fun d => Nat.eqb (key d) id) update c.

Definition updateMany (filter : doc -> bool) (update : doc -> doc)
           (c : list doc) : list doc :=
  List.map (fun d => if filter d then update d else d) c.

Definition deleteMany (filter : doc -> bool) (c : list doc) : list doc :=
  List.filter (fun d => negb (filter d)) c.
End Collection.

(** ** Documents *)

Inductive BookingStatus :=
| pending | confirmed | completed | cancelled | expired | rejected.

Definition status_eqb (a b : BookingStatus) : bool :=
  match a, b with
  | pending, pending | confirmed, confirmed | completed, completed
  | cancelled, cancelled | expired, expired | rejected, rejected => true
  | _, _ => false
  end.

(** The [enum] of the [status] path, as the strings the requests carry. *)
Definition status_name (s : BookingStatus) : string :=
  match s with
  | pending => "pending" | confirmed => "confirmed"
  | completed => "completed" | cancelled => "cancelled"
  | expired => "expired" | rejected => "rejected"
  end.

Definition status_enum : list BookingStatus :=
  [pending; confirmed; completed; cancelled; expired; rejected].

Definition status_of_string (s : string) : option BookingStatus :=
  List.find (fun st => String.eqb (status_name st) s) status_enum.

Module Offer.
Record doc := mk {
  _id : ObjectId;
  seller : ObjectId;
  store : ObjectId;
  title : string;
  originalPrice : Z;
  discountedPrice : Z;
  quantity : Z;
  availableQuantity : Z;
  pickupStart : Date;
  pickupEnd : Date;
  isActive : bool;
  rating : option Q
}.

Definition set_availableQuantity (v : Z) (o : doc) : doc :=
  mk (_id o) (seller o) (store o) (title o) (originalPrice o)
     (discountedPrice o) (quantity o) v (pickupStart o) (pickupEnd o)
     (isActive o) (rating o).

Definition set_rating (v : option Q) (o : doc) : doc :=
  mk (_id o) (seller o) (store o) (title o) (originalPrice o)
     (discountedPrice o) (quantity o) (availableQuantity o) (pickupStart o)
     (pickupEnd o) (isActive o) v.
End Offer.

Module Booking.
Record doc := mk {
  _id : ObjectId;
  offer : ObjectId;
  user : ObjectId;
  seller : ObjectId;
  quantity : Z;
  totalPrice : Z;
  status : BookingStatus;
  pickupCode : string;
  pickupTime : Date;
  rating : option Z;
  cancellationReason : option string;
  cancelledBy : option string
}.

Definition set_status (v : BookingStatus) (b : doc) : doc :=
  mk (_id b) (offer b) (user b) (seller b) (quantity b) (totalPrice b) v
     (pickupCode b) (pickupTime b) (rating b) (cancellationReason b)
     (cancelledBy b).

Definition set_cancelledBy (v : option string) (b : doc) : doc :=
  mk (_id b) (offer b) (user b) (seller b) (quantity b) (totalPrice b)
     (status b) (pickupCode b) (pickupTime b) (rating b)
     (cancellationReason b) v.

Definition set_cancellationReason (v : option string) (b : doc) : doc :=
  mk (_id b) (offer b) (user b) (seller b) (quantity b) (totalPrice b)
     (status b) (pickupCode b) (pickupTime b) (rating b) v (cancelledBy b).
End Booking.

Module Notification.
Record doc := mk { user : ObjectId; title : string; type : string }.
End Notification.

Module Store.
Record doc := mk { _id : ObjectId; owner : ObjectId; rating : option Q }.

Definition set_rating (v : option Q) (s : doc) : doc :=
  mk (_id s) (owner s) v.
End Store.

(** A review as the aggregations read it from the collection.  [isApproved]
    is no path of the review schema: no write through the model sets it, and
    the [$match] of [calculateAverageRating], which is not cast, reads it
    from the stored document as it is. *)
Module Review.
Record doc := mk {
  _id : ObjectId;
  user : ObjectId;
  store : ObjectId;
  offer : ObjectId;
  rating : Q;
  isApproved : bool;
  isDeleted : bool
}.
End Review.

(** ** The database *)

Record DB := mkDB {
  offers : list Offer.doc;
  bookings : list Booking.doc;
  stores : list Store.doc;
  reviews : list Review.doc;
  notifications : list Notification.doc;
  nextId : ObjectId
}.

Definition with_offers (v : list Offer.doc) (db : DB) : DB :=
  mkDB v (bookings db) (stores db) (reviews db) (notifications db) (nextId db).

Definition with_bookings (v : list Booking.doc) (db : DB) : DB :=
  mkDB (offers db) v (stores db) (reviews db) (notifications db) (nextId db).

Definition with_stores (v : list Store.doc) (db : DB) : DB :=
  mkDB (offers db) (bookings db) v (reviews db) (notifications db) (nextId db).

Definition with_reviews (v : list Review.doc) (db : DB) : DB :=
  mkDB (offers db) (bookings db) (stores db) v (notifications db) (nextId db).

(** [Notification.create]: the notification is appended; every call in the
    controllers passes the required paths and a [type] of the enum. *)
Definition Notification_create (n : Notification.doc) (db : DB) : DB :=
  mkDB (offers db) (bookings db) (stores db) (reviews db)
       (notifications db ++ [n]) (nextId db).

(** ** Requests and responses *)

Record ReqUser := mkUser { id : ObjectId; role : string }.

Inductive Response (A : Type) :=
| Json (status : nat) (data : A)
| ErrorResponse (message : string) (statusCode : nat)
| ValidationError (message : string).
Arguments Json {A} status data.
Arguments ErrorResponse {A} message statusCode.
Arguments ValidationError {A} message.

Definition isError {A} (r : Response A) : bool :=
  match r with Json _ _ => false | _ => true end.

(** ** Validation *)

(** The message of the first validator that fails. *)
Definition first_error (checks : list (bool * string)) : option string :=
  option_map snd (List.find (fun c => negb (fst c)) checks).

(** [required]. *)
Definition required {A} (v : option A) : bool :=
  match v with Some _ => true | None => false end.

(** Any other validator: it runs on a path that has a value. *)
Definition check {A} (v : option A) (p : A -> bool) : bool :=
  match v with Some x => p x | None => true end.

Definition or_else {A} (v : option A) (d : A) : A :=
  match v with Some x => x | None => d end.

(** [l.includes(s)], and the [enum] validator. *)
Definition includes (l : list string) (s : string) : bool :=
  existsb (String.eqb s) l.

(** ** Booking model (models/Booking) *)

Definition characters : string := "ABCDEFGHJKLMNPQRSTUVWXYZ23456789".

(** [s.charAt(i)]: the empty string when [i] is out of range. *)
Definition charAt (s : string) (i : Z) : string :=
  if i <? 0 then ""
  else match String.get (Z.to_nat i) s with
       | Some c => String c EmptyString
       | None => ""
       end.

(** [Math.floor(Math.random() * characters.length)] for a draw [r]. *)
Definition random_index (r : Q) : Z :=
  Qfloor (r * inject_Z (Z.of_nat (String.length characters))).

(** The inner [for] loop: [n] more characters appended to [code]. *)
Fixpoint draw_code (n : nat) (rnd : list Q) (code : string)
  : option (string * list Q) :=
  match n with
  | O => Some (code, rnd)
  | S n' =>
      match rnd with
      | [] => None
      | r :: rnd' =>
          draw_code n' rnd' (code ++ charAt characters (random_index r))
      end
  end.

(** [Booking.generatePickupCode]: [rnd] is the sequence of values that
    [Math.random()] yields, [fuel] bounds the iterations of the [while]
    loop; [None] stands for a call that has not returned within them. *)
Fixpoint generatePickupCode (fuel : nat) (rnd : list Q)
         (bs : list Booking.doc) : option (string * list Q) :=
  match fuel with
  | O => None
  | S fuel' =>
      match draw_code 6 rnd "" with
      | None => None
      | Some (code, rnd') =>
          match findOne (fun b => String.eqb (Booking.pickupCode b) code) bs with
          | None => Some (code, rnd')
          | Some _ => generatePickupCode fuel' rnd' bs
          end
      end
  end.

(** What [Math.random()] guarantees of a draw. *)
Definition unit_interval (r : Q) : Prop := (0 <= r)%Q /\ (r < 1)%Q.

(** JavaScript truthiness of an optional string and of an optional number,
    and [x || d] on numbers. *)
Definition truthy_string (s : option string) : bool :=
  match s with
  | Some v => negb (String.eqb v "")
  | None => false
  end.

Definition truthy_number (n : option Z) : bool :=
  match n with
  | Some v => negb (v =? 0)
  | None => false
  end.

Definition or_default (n : option Z) (d : Z) : Z :=
  match n with
  | Some v => if v =? 0 then d else v
  | None => d
  end.

(** [$avg] of a non-empty group of integers, and of rationals. *)
Definition average (l : list Z) : Q :=
  (inject_Z (fold_right Z.add 0%Z l) / inject_Z (Z.of_nat (List.length l)))%Q.

Definition sum_Q (l : list Q) : Q := fold_right Qplus 0%Q l.

Definition avg (l : list Q) : Q :=
  (sum_Q l / inject_Z (Z.of_nat (List.length l)))%Q.

(** [$inc: { availableQuantity: d }] on the offer [offerId]. *)
Definition inc_availableQuantity (offerId : ObjectId) (d : Z) (db : DB) : DB :=
  with_offers
    (findByIdAndUpdate Offer._id offerId
       (fun o => Offer.set_availableQuantity (Offer.availableQuantity o + d) o)
       (offers db))
    db.

(** [Offer.getAverageRating] (models/Offer): the offer joined with its
    bookings, those with [rating > 0] averaged; 0 when the pipeline yields
    no group. *)
Definition booking_ratings (offerId : ObjectId) (bs : list Booking.doc) : list Z :=
  flat_map
    (fun b =>
       if Nat.eqb (Booking.offer b) offerId then
         match Booking.rating b with
         | Some r => if 0 <? r then [r] else []
         | None => []
         end
       else [])
    bs.

Definition Offer_getAverageRating (offerId : ObjectId) (db : DB) : DB :=
  let group :=
    match findById Offer._id offerId (offers db) with
    | Some _ => booking_ratings offerId (bookings db)
    | None => []
    end in
  let rating :=
    match group with
    | [] => 0%Q
    | _ => average group
    end in
  with_offers
    (findByIdAndUpdate Offer._id offerId (Offer.set_rating (Some rating))
       (offers db))
    db.

(** [Offer.getAverageRating(doc.offer)] as the post-save hook of a booking
    calls it.  On a booking that a query returned, [doc.offer] is the
    populated offer: the [$match: { _id: offerId }] of the pipeline is not
    cast and matches no offer, and the update that follows, which is cast,
    writes the rating 0. *)
Definition Offer_getAverageRating_of (offerId : Ref) (db : DB) : DB :=
  match offerId with
  | Unpopulated i => Offer_getAverageRating i db
  | Populated i =>
      with_offers
        (findByIdAndUpdate Offer._id i (Offer.set_rating (Some 0%Q)) (offers db))
        db
  end.

(** [bookingSchema.pre('save')]; the updates cast [this.offer] to its
    [_id]. *)
Definition Booking_pre_save (isNew isModified_status : bool)
           (this : Booking.doc) (db : DB) : DB :=
  let db1 :=
    if isNew
    then inc_availableQuantity (Booking.offer this) (- Booking.quantity this) db
    else db in
  if isModified_status && status_eqb (Booking.status this) cancelled
  then inc_availableQuantity (Booking.offer this) (Booking.quantity this) db1
  else db1.

(** [bookingSchema.post('save')]; [offer] is [doc.offer]. *)
Definition Booking_post_save (offer : Ref) (doc : Booking.doc) (db : DB) : DB :=
  if status_eqb (Booking.status doc) completed
     && truthy_number (Booking.rating doc)
  then Offer_getAverageRating_of offer db
  else db.

(** The paths of the body of [addBooking], other than [quantity] and
    [status], that the booking schema declares and the controller does not
    overwrite.  [reviewedAt] and [createdAt], dates without a validator, are
    left out; the body sets no [_id]. *)
Record BodyRest := mkBodyRest {
  rest_rating : option Z;
  rest_review : option string;
  rest_cancellationReason : option string;
  rest_cancelledBy : option string;
  rest_paymentStatus : option string;
  rest_paymentMethod : option string
}.

(** The [enum]s of [cancelledBy], [paymentStatus] and [paymentMethod]. *)
Definition cancelledBy_enum : list string := ["user"; "seller"; "system"].
Definition paymentStatus_enum : list string :=
  ["pending"; "completed"; "refunded"; "failed"].
Definition paymentMethod_enum : list string :=
  ["cash"; "card"; "wallet"; "other"].

Definition BodyRest_validate (rest : BodyRest) : option string :=
  first_error
    [ (check (rest_rating rest) (fun r => 1 <=? r), "Rating must be at least 1");
      (check (rest_rating rest) (fun r => r <=? 5), "Rating cannot be more than 5");
      (check (rest_review rest) (fun t => (String.length t <=? 500)%nat),
       "Review cannot be more than 500 characters");
      (check (rest_cancelledBy rest) (includes cancelledBy_enum),
       "cancelledBy is not a valid enum value");
      (check (rest_paymentStatus rest) (includes paymentStatus_enum),
       "paymentStatus is not a valid enum value");
      (check (rest_paymentMethod rest) (includes paymentMethod_enum),
       "paymentMethod is not a valid enum value") ].

(** The validators of the paths a client supplies to [Booking.create]:
    [quantity] is required with [min: 1]; [status], when given, must be of
    the enum and otherwise defaults to [pending]; then those of the other
    paths of the body.  The paths that [addBooking] fills in pass theirs. *)
Definition Booking_validate (quantity : option Z) (status : option string)
           (rest : BodyRest) : string + (Z * BookingStatus) :=
  match quantity with
  | None => inl "Please specify the quantity"
  | Some q =>
      if q <? 1 then inl "Quantity must be at least 1"
      else
        match
          match status with
          | None => inr pending
          | Some s =>
              match status_of_string s with
              | Some st => inr st
              | None => inl "status is not a valid enum value"
              end
          end
        with
        | inl message => inl message
        | inr st =>
            match BodyRest_validate rest with
            | Some message => inl message
            | None => inr (q, st)
            end
        end
  end.

(** [Booking.create(req.body)]: a new document is validated, the save hooks
    run with [isNew], and a path set by the caller counts as modified.  The
    pickup code handed over by [addBooking] was just checked to be absent,
    so the unique index on [pickupCode] does not reject the insert.  The
    [offer] of the new document is the [ObjectId] cast from the body. *)
Definition Booking_create (offer user seller : ObjectId) (quantity : option Z)
           (totalPrice : Z) (status : option string) (pickupCode : string)
           (pickupTime : Date) (rest : BodyRest) (db : DB)
  : DB * (string + Booking.doc) :=
  match Booking_validate quantity status rest with
  | inl message => (db, inl message)
  | inr (q, st) =>
      let doc :=
        Booking.mk (nextId db) offer user seller q totalPrice st pickupCode
                   pickupTime (rest_rating rest) (rest_cancellationReason rest)
                   (rest_cancelledBy rest) in
      let db1 :=
        Booking_pre_save true
          (match status with Some _ => true | None => false end) doc db in
      let db2 :=
        mkDB (offers db1) (bookings db1 ++ [doc]) (stores db1) (reviews db1)
             (notifications db1) (S (nextId db1)) in
      (Booking_post_save (Unpopulated offer) doc db2, inr doc)
  end.

(** Document validation of a booking that a query returned, as [save()]
    runs it: the validators of the paths of the document, here those of the
    embedding; [status] is of its enum. *)
Definition Booking_doc_validate (b : Booking.doc) : option string :=
  first_error
    [ (1 <=? Booking.quantity b, "Quantity must be at least 1");
      (check (Booking.rating b) (fun r => 1 <=? r), "Rating must be at least 1");
      (check (Booking.rating b) (fun r => r <=? 5), "Rating cannot be more than 5");
      (check (Booking.cancelledBy b) (includes cancelledBy_enum),
       "cancelledBy is not a valid enum value") ].

(** [booking.save()] on a document that a query returned and whose [status]
    was assigned; [offer] is its [offer] path as the query returned it. *)
Definition Booking_save (isModified_status : bool) (offer : Ref)
           (this : Booking.doc) (db : DB) : string + DB :=
  match Booking_doc_validate this with
  | Some message => inl message
  | None =>
      let db1 := Booking_pre_save false isModified_status this db in
      let db2 :=
        with_bookings
          (findByIdAndUpdate Booking._id (Booking._id this) (fun _ => this)
             (bookings db1))
          db1 in
      inr (Booking_post_save offer this db2)
  end.

(** [bookingSchema.pre(/^find/, populateReferences)]: the [offer], [user]
    and [seller] paths of a booking as [find], [findOne] and [findById]
    return it. *)
Module Found.
Record booking := mk { offer : Ref; user : Ref; seller : Ref }.
End Found.

Definition populateReferences (b : Booking.doc) : Found.booking :=
  Found.mk (Populated (Booking.offer b)) (Populated (Booking.user b))
           (Populated (Booking.seller b)).

(** ** Booking controller (controllers/bookingController) *)

(** The request of [addBooking]: [req.params.offerId], [req.user], the time
    of the call, and [req.body]: [quantity], [status] and the other paths
    of a client ([BodyRest]).  The paths [offer], [user], [seller],
    [totalPrice], [pickupCode] and [pickupTime] of the body are overwritten
    by the controller before [Booking.create(req.body)]. *)
Record AddBookingReq := mkAddBookingReq {
  add_offerId : ObjectId;
  add_user : ReqUser;
  add_quantity : option Z;
  add_status : option string;
  add_now : Date;
  add_rest : BodyRest
}.

Definition open_status (s : BookingStatus) : bool :=
  status_eqb s pending || status_eqb s confirmed.

(** [Booking.findOne({ user, offer, status: { $in: ['pending','confirmed'] } })] *)
Definition existingBooking (userId offerId : ObjectId) (bs : list Booking.doc)
  : option Booking.doc :=
  findOne
    (fun b =>
       Nat.eqb (Booking.user b) userId && Nat.eqb (Booking.offer b) offerId
       && open_status (Booking.status b))
    bs.

(** [addBooking].  [Offer.findById] populates nothing, so [offer.seller] is
    an [ObjectId].  The confirmation e-mail is sent inside a [try] whose
    failure is only logged; it leaves the database and the response alone
    and is not part of the embedding. *)
Definition addBooking (fuel : nat) (rnd : list Q) (req : AddBookingReq)
           (db : DB) : option (DB * Response Booking.doc) :=
  match findById Offer._id (add_offerId req) (offers db) with
  | None => Some (db, ErrorResponse "No offer with the id" 404%nat)
  | Some offer =>
      if negb (Offer.isActive offer) || (Offer.availableQuantity offer <=? 0)
      then Some (db, ErrorResponse "This offer is no longer available" 400%nat)
      else if Offer.pickupEnd offer <? add_now req
      then Some (db, ErrorResponse "The pickup time for this offer has passed" 400%nat)
      else
        let seller := Offer.seller offer in
        let totalPrice :=
          Offer.discountedPrice offer * or_default (add_quantity req) 1 in
        if Nat.eqb (id (add_user req)) (Offer.seller offer)
        then Some (db, ErrorResponse "You cannot book your own offer" 400%nat)
        else
          match existingBooking (id (add_user req)) (add_offerId req) (bookings db) with
          | Some _ =>
              Some (db, ErrorResponse "You already have a booking for this offer" 400%nat)
          | None =>
              match generatePickupCode fuel rnd (bookings db) with
              | None => None
              | Some (pickupCode, _) =>
                  match Booking_create (add_offerId req) (id (add_user req))
                          seller (add_quantity req) totalPrice (add_status req)
                          pickupCode (Offer.pickupStart offer) (add_rest req)
                          db with
                  | (db1, inl message) => Some (db1, ValidationError message)
                  | (db1, inr booking) =>
                      Some (Notification_create
                              (Notification.mk (Offer.seller offer)
                                 "New Booking!" "booking_created") db1,
                            Json 201%nat booking)
                  end
              end
          end
  end.

(** The request of [updateBooking]: [req.params.id], [req.user], and the
    paths [status] and [cancellationReason] that the controller reads from
    [req.body]. *)
Record UpdateBookingReq := mkUpdateBookingReq {
  upd_id : ObjectId;
  upd_user : ReqUser;
  upd_status : option string;
  upd_cancellationReason : option string
}.

Definition validTransitions (s : BookingStatus) : list string :=
  match s with
  | pending => ["confirmed"; "cancelled"]
  | confirmed => ["completed"; "cancelled"]
  | completed => []
  | cancelled => []
  | expired => []
  | rejected => []
  end.

(** [updateObj]: the paths [updateBooking] collects.  [cancelledAt] and
    [completedAt] are assigned too, but the schema declares neither. *)
Record UpdateObj := mkUpdateObj {
  set_status : option string;
  set_cancelledBy : option string;
  set_cancellationReason : option string
}.

(** The update validators that [runValidators: true] runs on the paths of
    [updateObj]; the result is the update to apply. *)
Definition Booking_update_validate (u : UpdateObj)
  : string + (Booking.doc -> Booking.doc) :=
  match
    match set_status u with
    | None => inr (fun b : Booking.doc => b)
    | Some s =>
        match status_of_string s with
        | Some st => inr (Booking.set_status st)
        | None => inl "status is not a valid enum value"
        end
    end
  with
  | inl message => inl message
  | inr f_status =>
      match set_cancelledBy u with
      | Some c =>
          if includes cancelledBy_enum c then
            inr (fun b =>
                   let b1 := Booking.set_cancelledBy (Some c) (f_status b) in
                   match set_cancellationReason u with
                   | Some r => Booking.set_cancellationReason (Some r) b1
                   | None => b1
                   end)
          else inl "cancelledBy is not a valid enum value"
      | None =>
          inr (fun b =>
                 match set_cancellationReason u with
                 | Some r => Booking.set_cancellationReason (Some r) (f_status b)
                 | None => f_status b
                 end)
      end
  end.

(** The guard of [getBooking], [updateBooking] and [deleteBooking] on the
    booking that [Booking.findById] returned:
    [booking.user.toString() !== req.user.id &&
     booking.seller.toString() !== req.user.id &&
     req.user.role !== 'admin'] is the case in which the request is
    refused. *)
Definition authorized (u : ReqUser) (b : Booking.doc) : bool :=
  let booking := populateReferences b in
  toString_is (Found.user booking) (id u)
  || toString_is (Found.seller booking) (id u)
  || String.eqb (role u) "admin".

(** The final step of [updateBooking]:
    [Booking.findByIdAndUpdate(id, updateObj, { new: true, runValidators: true })]. *)
Definition updateBooking_write (bid : ObjectId) (u : UpdateObj) (db : DB)
  : DB * Response (option Booking.doc) :=
  match Booking_update_validate u with
  | inl message => (db, ValidationError message)
  | inr f =>
      let db1 := with_bookings (findByIdAndUpdate Booking._id bid f (bookings db)) db in
      (db1, Json 200%nat (findById Booking._id bid (bookings db1)))
  end.

Definition updateBooking (req : UpdateBookingReq) (db : DB)
  : DB * Response (option Booking.doc) :=
  match findById Booking._id (upd_id req) (bookings db) with
  | None => (db, ErrorResponse "No booking with the id" 404%nat)
  | Some stored =>
      let booking := populateReferences stored in
      if negb (authorized (upd_user req) stored)
      then (db, ErrorResponse "User is not authorized to update this booking" 401%nat)
      else
        match upd_status req with
        | Some status =>
            if String.eqb status "" then
              updateBooking_write (upd_id req) (mkUpdateObj None None None) db
            else if negb (includes (validTransitions (Booking.status stored)) status)
            then (db, ErrorResponse "Invalid status transition" 400%nat)
            else if String.eqb status "cancelled" then
              let cancelledBy :=
                if String.eqb (role (upd_user req)) "admin" then "admin"
                else if toString_is (Found.user booking) (id (upd_user req))
                     then "user" else "seller" in
              let reason :=
                if truthy_string (upd_cancellationReason req)
                then upd_cancellationReason req else None in
              let db1 :=
                if toString_is (Found.seller booking) (id (upd_user req))
                then Notification_create
                       (Notification.mk (Ref_id (Found.user booking))
                          "Booking Cancelled" "booking_cancelled") db
                else db in
              updateBooking_write (upd_id req)
                (mkUpdateObj (Some status) (Some cancelledBy) reason) db1
            else if String.eqb status "completed" then
              let db1 :=
                Notification_create
                  (Notification.mk (Ref_id (Found.user booking))
                     "Order Picked Up" "booking_completed") db in
              updateBooking_write (upd_id req)
                (mkUpdateObj (Some status) None None) db1
            else
              updateBooking_write (upd_id req)
                (mkUpdateObj (Some status) None None) db
        | None =>
            updateBooking_write (upd_id req) (mkUpdateObj None None None) db
        end
  end.

Record CompleteReq := mkCompleteReq { cmp_code : string; cmp_user : ReqUser }.

(** [completeBookingWithCode]; the guard is
    [booking.seller.toString() !== req.user.id] on the booking that
    [Booking.findOne] returned. *)
Definition completeBookingWithCode (req : CompleteReq) (db : DB)
  : DB * Response unit :=
  match
    findOne
      (fun b => String.eqb (Booking.pickupCode b) (cmp_code req)
                && open_status (Booking.status b))
      (bookings db)
  with
  | None => (db, ErrorResponse "Invalid or expired pickup code" 404%nat)
  | Some stored =>
      let booking := populateReferences stored in
      if negb (toString_is (Found.seller booking) (id (cmp_user req)))
      then (db, ErrorResponse "You are not authorized to complete this booking" 401%nat)
      else
        match
          Booking_save true (Found.offer booking)
            (Booking.set_status completed stored) db
        with
        | inl message => (db, ValidationError message)
        | inr db1 =>
            (Notification_create
               (Notification.mk (Ref_id (Found.user booking))
                  "Order Picked Up" "booking_completed") db1,
             Json 200%nat tt)
        end
  end.

(** ** Offer model (models/Offer) *)

(** The custom validators of [discountedPrice] and [pickupEnd].  [this] is
    the document under validation when a document is saved; under an update
    validator [this] is not the document, the path read from it is
    [undefined], and a comparison with [undefined] is [false]. *)
Definition discountedPrice_validator (this_originalPrice : option Z)
           (value : Z) : bool :=
  match this_originalPrice with
  | Some originalPrice => value <? originalPrice
  | None => false
  end.

Definition pickupEnd_validator (this_pickupStart : option Date)
           (value : Date) : bool :=
  match this_pickupStart with
  | Some pickupStart => pickupStart <? value
  | None => false
  end.

Definition rating_in_range (r : Q) : bool :=
  Qle_bool 1 r && Qle_bool r 5.

(** The request body of the offer routes, on the paths of the embedding.
    The paths left out ([description], [images], [category], [location])
    are taken to pass their validators. *)
Record OfferBody := mkOfferBody {
  body_seller : option ObjectId;
  body_store : option ObjectId;
  body_title : option string;
  body_originalPrice : option Z;
  body_discountedPrice : option Z;
  body_quantity : option Z;
  body_availableQuantity : option Z;
  body_pickupStart : option Date;
  body_pickupEnd : option Date;
  body_isActive : option bool;
  body_rating : option Q
}.

(** Document validation of a new offer ([Offer.create]). *)
Definition Offer_validate (b : OfferBody) : option string :=
  first_error
    [ (truthy_string (body_title b), "Please add a title");
      (check (body_title b) (fun t => (String.length t <=? 100)%nat),
       "Title cannot be more than 100 characters");
      (required (body_originalPrice b), "Please add the original price");
      (check (body_originalPrice b) (fun p => 0 <=? p), "Price cannot be negative");
      (required (body_discountedPrice b), "Please add the discounted price");
      (check (body_discountedPrice b)
         (discountedPrice_validator (body_originalPrice b)),
       "Discounted price must be less than original price");
      (required (body_quantity b), "Please add the available quantity");
      (check (body_quantity b) (fun q => 1 <=? q), "Quantity must be at least 1");
      (required (body_pickupStart b), "Please add a pickup start time");
      (required (body_pickupEnd b), "Please add a pickup end time");
      (check (body_pickupEnd b) (pickupEnd_validator (body_pickupStart b)),
       "Pickup end time must be after pickup start time");
      (required (body_seller b), "seller is required");
      (required (body_store b), "store is required");
      (check (body_rating b) rating_in_range, "Rating must be between 1 and 5") ].

(** Update validation ([runValidators: true]): the validators of the paths
    present in the update, and of those only. *)
Definition Offer_update_validate (b : OfferBody) : option string :=
  first_error
    [ (check (body_title b) (fun t => negb (String.eqb t "")), "Please add a title");
      (check (body_title b) (fun t => (String.length t <=? 100)%nat),
       "Title cannot be more than 100 characters");
      (check (body_originalPrice b) (fun p => 0 <=? p), "Price cannot be negative");
      (check (body_discountedPrice b) (discountedPrice_validator None),
       "Discounted price must be less than original price");
      (check (body_quantity b) (fun q => 1 <=? q), "Quantity must be at least 1");
      (check (body_pickupEnd b) (pickupEnd_validator None),
       "Pickup end time must be after pickup start time");
      (check (body_rating b) rating_in_range, "Rating must be between 1 and 5") ].

(** Document validation of an offer that a query returned, as [save()]
    runs it: the validators of the paths of the document, with [this] the
    document. *)
Definition Offer_doc_validate (o : Offer.doc) : option string :=
  first_error
    [ (negb (String.eqb (Offer.title o) ""), "Please add a title");
      ((String.length (Offer.title o) <=? 100)%nat,
       "Title cannot be more than 100 characters");
      (0 <=? Offer.originalPrice o, "Price cannot be negative");
      (discountedPrice_validator (Some (Offer.originalPrice o))
         (Offer.discountedPrice o),
       "Discounted price must be less than original price");
      (1 <=? Offer.quantity o, "Quantity must be at least 1");
      (pickupEnd_validator (Some (Offer.pickupStart o)) (Offer.pickupEnd o),
       "Pickup end time must be after pickup start time");
      (check (Offer.rating o) rating_in_range, "Rating must be between 1 and 5") ].

(** The paths of the body written over those of the stored offer. *)
Definition Offer_apply (b : OfferBody) (o : Offer.doc) : Offer.doc :=
  Offer.mk (Offer._id o)
    (or_else (body_seller b) (Offer.seller o))
    (or_else (body_store b) (Offer.store o))
    (or_else (body_title b) (Offer.title o))
    (or_else (body_originalPrice b) (Offer.originalPrice o))
    (or_else (body_discountedPrice b) (Offer.discountedPrice o))
    (or_else (body_quantity b) (Offer.quantity o))
    (or_else (body_availableQuantity b) (Offer.availableQuantity o))
    (or_else (body_pickupStart b) (Offer.pickupStart o))
    (or_else (body_pickupEnd b) (Offer.pickupEnd o))
    (or_else (body_isActive b) (Offer.isActive o))
    (match body_rating b with Some r => Some r | None => Offer.rating o end).

(** [Offer.create(req.body)]: validation, the insert, then the
    [post('save')] hook, which calls [getAverageRating] without awaiting it;
    the call is run here right after the insert.  Once validation has
    passed every required path is present, so the fallbacks of [or_else]
    are never taken for them; [isActive] and [availableQuantity] fall back
    to their schema defaults. *)
Definition Offer_create (b : OfferBody) (db : DB) : DB * (string + Offer.doc) :=
  match Offer_validate b with
  | Some message => (db, inl message)
  | None =>
      let quantity := or_else (body_quantity b) 0 in
      let doc :=
        Offer.mk (nextId db)
          (or_else (body_seller b) O) (or_else (body_store b) O)
          (or_else (body_title b) "")
          (or_else (body_originalPrice b) 0)
          (or_else (body_discountedPrice b) 0)
          quantity
          (or_else (body_availableQuantity b) quantity)
          (or_else (body_pickupStart b) 0)
          (or_else (body_pickupEnd b) 0)
          (or_else (body_isActive b) true)
          (body_rating b) in
      let db1 :=
        mkDB (offers db ++ [doc]) (bookings db) (stores db) (reviews db)
             (notifications db) (S (nextId db)) in
      (Offer_getAverageRating (Offer._id doc) db1, inr doc)
  end.

(** [offer.remove()]: [offerSchema.pre('remove')] deletes the bookings of the
    offer, the offer is removed, and [post('remove')] calls
    [getAverageRating] on the removed offer. *)
Definition Offer_remove (this : Offer.doc) (db : DB) : DB :=
  let db1 :=
    with_bookings
      (deleteMany (fun b => Nat.eqb (Booking.offer b) (Offer._id this))
         (bookings db))
      db in
  let db2 :=
    with_offers
      (deleteMany (fun o => Nat.eqb (Offer._id o) (Offer._id this)) (offers db1))
      db1 in
  Offer_getAverageRating (Offer._id this) db2.

(** ** Offer controller (controllers/offerController) *)

Record OfferReq := mkOfferReq {
  offer_param : ObjectId;
  offer_user : ReqUser;
  offer_body : OfferBody
}.

Definition with_seller_store (seller store : ObjectId) (b : OfferBody) : OfferBody :=
  mkOfferBody (Some seller) (Some store) (body_title b) (body_originalPrice b)
    (body_discountedPrice b) (body_quantity b) (body_availableQuantity b)
    (body_pickupStart b) (body_pickupEnd b) (body_isActive b) (body_rating b).

Definition with_availableQuantity (v : option Z) (b : OfferBody) : OfferBody :=
  mkOfferBody (body_seller b) (body_store b) (body_title b)
    (body_originalPrice b) (body_discountedPrice b) (body_quantity b) v
    (body_pickupStart b) (body_pickupEnd b) (body_isActive b) (body_rating b).

(** [createOffer]; [offer_param] is [req.params.storeId]. *)
Definition createOffer (req : OfferReq) (db : DB) : DB * Response Offer.doc :=
  let body :=
    with_seller_store (id (offer_user req)) (offer_param req) (offer_body req) in
  match
    findOne
      (fun s => Nat.eqb (Store._id s) (offer_param req)
                && Nat.eqb (Store.owner s) (id (offer_user req)))
      (stores db)
  with
  | None => (db, ErrorResponse "No store found with id" 404%nat)
  | Some store =>
      let body := with_availableQuantity (body_quantity body) body in
      match Offer_create body db with
      | (db1, inl message) => (db1, ValidationError message)
      | (db1, inr offer) =>
          (Notification_create
             (Notification.mk (id (offer_user req))
                "New Offer Available!" "new_offer") db1,
           Json 201%nat offer)
      end
  end.

Definition offer_owner_or_admin (u : ReqUser) (o : Offer.doc) : bool :=
  Nat.eqb (Offer.seller o) (id u) || String.eqb (role u) "admin".

(** [updateOffer]; [offer_param] is [req.params.id]. *)
Definition updateOffer (req : OfferReq) (db : DB)
  : DB * Response (option Offer.doc) :=
  match findById Offer._id (offer_param req) (offers db) with
  | None => (db, ErrorResponse "No offer with the id" 404%nat)
  | Some offer =>
      if negb (offer_owner_or_admin (offer_user req) offer)
      then (db, ErrorResponse "User is not authorized to update this offer" 401%nat)
      else
        let body :=
          if truthy_number (body_quantity (offer_body req)) then
            let quantityDiff :=
              or_else (body_quantity (offer_body req)) 0 - Offer.quantity offer in
            with_availableQuantity
              (Some (Z.max 0 (Offer.availableQuantity offer + quantityDiff)))
              (offer_body req)
          else offer_body req in
        match Offer_update_validate body with
        | Some message => (db, ValidationError message)
        | None =>
            let db1 :=
              with_offers
                (findByIdAndUpdate Offer._id (offer_param req)
                   (Offer_apply body) (offers db))
                db in
            (db1, Json 200%nat (findById Offer._id (offer_param req) (offers db1)))
        end
  end.

(** The [Booking.updateMany] of [deleteOffer]: no validator runs, so
    ['admin'] is written although the enum of [cancelledBy] lacks it. *)
Definition cancelBookings (offerId : ObjectId) (u : ReqUser)
           (bs : list Booking.doc) : list Booking.doc :=
  updateMany
    (fun b => Nat.eqb (Booking.offer b) offerId && open_status (Booking.status b))
    (fun b =>
       Booking.set_cancellationReason (Some "Offer was deleted by the seller")
         (Booking.set_cancelledBy
            (Some (if String.eqb (role u) "admin" then "admin" else "seller"))
            (Booking.set_status cancelled b)))
    bs.

(** [deleteOffer]; [offer_param] is [req.params.id].  The handler awaits
    two writes, one after the other: [Booking.updateMany], then
    [offer.remove()].  [deleteOffer_writes] gives the database as each of
    them leaves it, in that order, and the response; [deleteOffer] is the
    database the request leaves behind. *)
Definition deleteOffer_writes (req : OfferReq) (db : DB)
  : list DB * Response unit :=
  match findById Offer._id (offer_param req) (offers db) with
  | None => ([], ErrorResponse "No offer with the id" 404%nat)
  | Some offer =>
      if negb (offer_owner_or_admin (offer_user req) offer)
      then ([], ErrorResponse "User is not authorized to delete this offer" 401%nat)
      else
        let db1 :=
          with_bookings
            (cancelBookings (Offer._id offer) (offer_user req) (bookings db)) db in
        let db2 := Offer_remove offer db1 in
        ([db1; db2], Json 200%nat tt)
  end.

Definition deleteOffer (req : OfferReq) (db : DB) : DB * Response unit :=
  (List.last (fst (deleteOffer_writes req db)) db,
   snd (deleteOffer_writes req db)).

(** ** Rating aggregation (models/Review, models/Store, reviewController) *)

Inductive RatedType := store_type | offer_type.

Definition review_target (type : RatedType) (r : Review.doc) : ObjectId :=
  match type with
  | store_type => Review.store r
  | offer_type => Review.offer r
  end.

(** A [$match] followed by the [$group] of the rating pipelines: no group
    when no review matches, else [(nRating, avgRating)]. *)
Definition group_ratings (matched : list Review.doc) : option (Z * Q) :=
  match matched with
  | [] => None
  | _ => Some (Z.of_nat (List.length matched),
               avg (List.map Review.rating matched))
  end.

(** The [$match] of [calculateAverageRating]: [{ [type]: id, isApproved: true }]. *)
Definition approved_reviews (type : RatedType) (target : ObjectId)
           (rs : list Review.doc) : list Review.doc :=
  List.filter
    (fun r => Nat.eqb (review_target type r) target && Review.isApproved r) rs.

(** The [$match] of [Review.calcAverageRatings]:
    [{ store: storeId, isDeleted: { $ne: true } }]. *)
Definition undeleted_reviews (storeId : ObjectId) (rs : list Review.doc)
  : list Review.doc :=
  List.filter
    (fun r => Nat.eqb (Review.store r) storeId && negb (Review.isDeleted r)) rs.

(** [Store.getAverageRating]: the store joined with its reviews, those with
    [rating > 0] averaged; 0 when the pipeline yields no group. *)
Definition Store_getAverageRating (storeId : ObjectId) (db : DB) : DB :=
  let group :=
    match findById Store._id storeId (stores db) with
    | Some _ =>
        List.map Review.rating
          (List.filter
             (fun r => Nat.eqb (Review.store r) storeId
                       && negb (Qle_bool (Review.rating r) 0))
             (reviews db))
    | None => []
    end in
  let rating :=
    match group with
    | [] => 0%Q
    | _ => avg group
    end in
  with_stores
    (findByIdAndUpdate Store._id storeId (Store.set_rating (Some rating))
       (stores db))
    db.

(** [Review.calcAverageRatings(storeId)]: written with [findByIdAndUpdate],
    hence without validation; [ratingCount] is no path of the store schema. *)
Definition calcAverageRatings (storeId : ObjectId) (db : DB) : DB :=
  let rating :=
    match group_ratings (undeleted_reviews storeId (reviews db)) with
    | Some (_, avgRating) => avgRating
    | None => 0%Q
    end in
  with_stores
    (findByIdAndUpdate Store._id storeId (Store.set_rating (Some rating))
       (stores db))
    db.




(** The values [calculateAverageRating] assigns to [obj.rating] and
    [obj.ratingCount] before it saves [obj]. *)
Definition assigned_rating (type : RatedType) (target : ObjectId)
           (rs : list Review.doc) : Q * Z :=
  match group_ratings (approved_reviews type target rs) with
  | Some (nRating, avgRating) => (avgRating, nRating)
  | None => (0%Q, 0)
  end.

(** [obj.save()] inside [calculateAverageRating], [obj] being the store or
    offer with [rating] assigned.  The document is validated: a failure is
    caught and logged by the caller and nothing is written.  On success
    [rating] is written, and the [post('save')] hook calls
    [getAverageRating].  [ratingCount] is no schema path.  Of a store the
    embedding carries [rating] only, against [min: 1] and [max: 5]; its
    other paths are taken to pass their validators. *)
Definition Store_save_rating (storeId : ObjectId) (rating : Q) (db : DB) : DB :=
  if rating_in_range rating then
    Store_getAverageRating storeId
      (with_stores
         (findByIdAndUpdate Store._id storeId (Store.set_rating (Some rating))
            (stores db))
         db)
  else db.

Definition Offer_save_rating (obj : Offer.doc) (rating : Q) (db : DB) : DB :=
  match Offer_doc_validate (Offer.set_rating (Some rating) obj) with
  | Some _ => db
  | None =>
      Offer_getAverageRating (Offer._id obj)
        (with_offers
           (findByIdAndUpdate Offer._id (Offer._id obj)
              (Offer.set_rating (Some rating)) (offers db))
           db)
  end.

(** [calculateAverageRating(id, type)] of the review controller. *)
Definition calculateAverageRating (target : ObjectId) (type : RatedType)
           (db : DB) : DB :=
  match type with
  | store_type =>
      match findById Store._id target (stores db) with
      | None => db
      | Some _ =>
          Store_save_rating target
            (fst (assigned_rating type target (reviews db))) db
      end
  | offer_type =>
      match findById Offer._id target (offers db) with
      | None => db
      | Some obj =>
          Offer_save_rating obj
            (fst (assigned_rating type target (reviews db))) db
      end
  end.



(** ** Auxiliary notions of the statements *)

(** A string made of characters of the pickup-code alphabet only. *)
Definition alphabet_only (code : string) : Prop :=
  forall c, In c (list_ascii_of_string code) ->
            In c (list_ascii_of_string characters).

(** The available quantity stored for an offer, if the offer exists. *)
Definition availableQuantity_of (offerId : ObjectId) (db : DB) : option Z :=
  option_map Offer.availableQuantity (findById Offer._id offerId (offers db)).

(** The status stored for a booking, if the booking exists. *)
Definition status_of (bookingId : ObjectId) (db : DB) : option BookingStatus :=
  option_map Booking.status (findById Booking._id bookingId (bookings db)).

(** The transitions of the booking state machine. *)
Definition allowed_transition (from to : BookingStatus) : Prop :=
  (from = pending /\ (to = confirmed \/ to = cancelled))
  \/ (from = confirmed /\ (to = completed \/ to = cancelled)).

(** ** Sample data *)

(** An offer of seller 10 in store 20: 5 items put up, [avail] of them left,
    sold at 80 instead of 100, to be picked up between 1000 and 2000. *)
Definition bread (avail : Z) : Offer.doc :=
  Offer.mk 1%nat 10%nat 20%nat "Bread" 100 80 5 avail 1000 2000 true None.

(** A booking of 2 items of [bread] by user 11. *)
Definition reservation (st : BookingStatus) : Booking.doc :=
  Booking.mk 2%nat 1%nat 11%nat 10%nat 2 160 st "AAAAAA" 1000 None None None.

Definition shop (avail : Z) (bs : list Booking.doc) : DB :=
  mkDB [bread avail] bs [Store.mk 20%nat 10%nat None] [] [] 3%nat.

(** A second offer of the same seller, and a database with both offers: a
    pending and a completed booking of [bread], a confirmed one of
    [cake]. *)
Definition cake : Offer.doc :=
  Offer.mk 7%nat 10%nat 20%nat "Cake" 50 30 4 3 1000 2000 true None.

Definition bakery : DB :=
  mkDB [bread 3; cake]
    [reservation pending;
     Booking.mk 4%nat 1%nat 12%nat 10%nat 1 80 completed "BBBBBB" 1000
       None None None;
     Booking.mk 5%nat 7%nat 11%nat 10%nat 1 30 confirmed "CCCCCC" 1000
       None None None]
    [Store.mk 20%nat 10%nat None] [] [] 8%nat.

Definition buyer : ReqUser := mkUser 11%nat "user".
Definition baker : ReqUser := mkUser 10%nat "seller".
Definition other_buyer : ReqUser := mkUser 12%nat "user".
Definition administrator : ReqUser := mkUser 1%nat "admin".

(** Twelve values of [Math.random()]: six times 0, then six times 1/2. *)
Definition draws : list Q :=
  [0; 0; 0; 0; 0; 0; 1#2; 1#2; 1#2; 1#2; 1#2; 1#2]%Q.

Definition empty_body : OfferBody :=
  mkOfferBody None None None None None None None None None None None.

(** ** The conditions under which [addBooking] rejects a request *)

Definition unavailable (o : Offer.doc) : Prop :=
  Offer.isActive o = false \/ Offer.availableQuantity o <= 0.

Definition pickup_passed (o : Offer.doc) (now : Date) : Prop :=
  Offer.pickupEnd o < now.

Definition own_offer (u : ReqUser) (o : Offer.doc) : Prop :=
  id u = Offer.seller o.

Definition already_booked (u : ReqUser) (offerId : ObjectId)
           (bs : list Booking.doc) : Prop :=
  exists b, In b bs /\ Booking.user b = id u /\ Booking.offer b = offerId
            /\ (Booking.status b = pending \/ Booking.status b = confirmed).

(** A body without further paths. *)
Definition nothing_else : BodyRest :=
  mkBodyRest None None None None None None.

(** The body fails the validators of the booking schema: no quantity, a
    quantity below 1, a status outside the enum, a rating below 1 or above
    5, a review of more than 500 characters, or a [cancelledBy],
    [paymentStatus] or [paymentMethod] outside its enum. *)
Definition invalid_body (req : AddBookingReq) : Prop :=
  add_quantity req = None
  \/ (exists q, add_quantity req = Some q /\ q < 1)
  \/ (exists s, add_status req = Some s /\ forall st, status_name st <> s)
  \/ (exists r, rest_rating (add_rest req) = Some r /\ (r < 1 \/ 5 < r))
  \/ (exists t, rest_review (add_rest req) = Some t
                /\ (500 < String.length t)%nat)
  \/ (exists c, rest_cancelledBy (add_rest req) = Some c
                /\ ~ In c ["user"; "seller"; "system"])
  \/ (exists p, rest_paymentStatus (add_rest req) = Some p
                /\ ~ In p ["pending"; "completed"; "refunded"; "failed"])
  \/ (exists m, rest_paymentMethod (add_rest req) = Some m
                /\ ~ In m ["cash"; "card"; "wallet"; "other"]).

(** ** Ratings *)

(** The rating stored for a store or an offer, if there is one. *)
Definition stored_rating (type : RatedType) (target : ObjectId) (db : DB)
  : option Q :=
  match type with
  | store_type =>
      match findById Store._id target (stores db) with
      | Some s => Store.rating s
      | None => None
      end
  | offer_type =>
      match findById Offer._id target (offers db) with
      | Some o => Offer.rating o
      | None => None
      end
  end.



(** A review by user 11 of [bread] and of its store. *)
Definition opinion (rid : ObjectId) (rating : Q) (approved : bool) : Review.doc :=
  Review.mk rid 11%nat 20%nat 1%nat rating approved false.

Definition shop_reviewed (rs : list Review.doc) : DB :=
  mkDB [bread 3] [] [Store.mk 20%nat 10%nat None] rs [] 9%nat.

(** ** Further collection operations *)

Section Queries.
Context {doc : Type}.

(** [doc.remove()] and [findOneAndDelete]: the first match is deleted. *)
Fixpoint findOneAndDelete (filter : doc -> bool) (c : list doc) : list doc :=
  match c with
  | [] => []
  | d :: c' => if filter d then c' else d :: findOneAndDelete filter c'
  end.

Definition countDocuments (filter : doc -> bool) (c : list doc) : Z :=
  Z.of_nat (List.length (List.filter filter c)).
End Queries.

(** ** Further handlers of the booking controller *)

Record BookingReq := mkBookingReq { bk_id : ObjectId; bk_user : ReqUser }.

(** [getBooking]. *)
Definition getBooking (req : BookingReq) (db : DB) : Response Booking.doc :=
  match findById Booking._id (bk_id req) (bookings db) with
  | None => ErrorResponse "No booking with the id" 404%nat
  | Some booking =>
      if negb (authorized (bk_user req) booking)
      then ErrorResponse "User is not authorized to view this booking" 401%nat
      else Json 200%nat booking
  end.

(** [deleteBooking]; the booking schema has no hook on [remove]. *)
Definition deleteBooking (req : BookingReq) (db : DB) : DB * Response unit :=
  match findById Booking._id (bk_id req) (bookings db) with
  | None => (db, ErrorResponse "No booking with the id" 404%nat)
  | Some booking =>
      if negb (authorized (bk_user req) booking)
      then (db, ErrorResponse "User is not authorized to delete this booking" 401%nat)
      else if negb (includes ["pending"; "cancelled"]
                      (status_name (Booking.status booking)))
      then (db, ErrorResponse "Cannot delete a booking with status" 400%nat)
      else
        (with_bookings
           (findOneAndDelete
              (fun b => Nat.eqb (Booking._id b) (Booking._id booking))
              (bookings db))
           db,
         Json 200%nat tt)
  end.

(** [verifyPickupCode]; the guard is
    [booking.seller._id.toString() !== req.user.id]. *)
Definition verifyPickupCode (req : CompleteReq) (db : DB) : Response Booking.doc :=
  match
    findOne
      (fun b => String.eqb (Booking.pickupCode b) (cmp_code req)
                && open_status (Booking.status b))
      (bookings db)
  with
  | None => ErrorResponse "Invalid or expired pickup code" 404%nat
  | Some stored =>
      let booking := populateReferences stored in
      if negb (Nat.eqb (Ref_id (Found.seller booking)) (id (cmp_user req)))
      then ErrorResponse "You are not authorized to verify this code" 401%nat
      else Json 200%nat stored
  end.

(** *** Booking statistics

    The first two aggregations of [getBookingStats].  The third one,
    [monthly], groups by [createdAt], which the embedding does not carry. *)

(** [$match]: for a seller it is [{ seller: req.user.id }], with the string
    [req.user.id]; an aggregation pipeline is not cast, and the [seller] of
    a stored booking, an [ObjectId], equals no string.  For any other role
    it is [{}]. *)
Definition stats_match (u : ReqUser) (b : Booking.doc) : bool :=
  if String.eqb (role u) "seller" then false else true.

Definition sum_Z (l : list Z) : Z := fold_right Z.add 0 l.

Module ByStatus.
Record doc := mk {
  _id : BookingStatus;
  count : Z;
  totalRevenue : Z;
  avgQuantity : Q;
  minPrice : Z;
  maxPrice : Z
}.
End ByStatus.

(** The statuses in the order of [$sort: { _id: 1 }] on their names. *)
Definition status_sorted : list BookingStatus :=
  [cancelled; completed; confirmed; expired; pending; rejected].

(** [$group: { _id: '$status', ... }]: one group for each status that
    occurs. *)
Definition group_by_status (s : BookingStatus) (bs : list Booking.doc)
  : list ByStatus.doc :=
  match List.filter (fun b => status_eqb (Booking.status b) s) bs with
  | [] => []
  | b :: g =>
      [ByStatus.mk s
         (Z.of_nat (List.length (b :: g)))
         (sum_Z (List.map Booking.totalPrice (b :: g)))
         (average (List.map Booking.quantity (b :: g)))
         (fold_right Z.min (Booking.totalPrice b) (List.map Booking.totalPrice g))
         (fold_right Z.max (Booking.totalPrice b) (List.map Booking.totalPrice g))]
  end.

Definition byStatus (u : ReqUser) (db : DB) : list ByStatus.doc :=
  let matched := List.filter (stats_match u) (bookings db) in
  flat_map (fun s => group_by_status s matched) status_sorted.

Module Totals.
Record doc := mk {
  totalBookings : Z;
  totalRevenue : Z;
  completedBookings : Z;
  cancelledBookings : Z;
  avgRating : option Q
}.
End Totals.

(** [$avg: '$rating']: the bookings without a rating are skipped, and the
    result is [null] when none is rated. *)
Definition avg_present (l : list (option Z)) : option Q :=
  match flat_map (fun r => match r with Some v => [v] | None => [] end) l with
  | [] => None
  | rated => Some (average rated)
  end.

(** [totalStats[0]]: the single group of [$group: { _id: null, ... }], absent
    when no booking matches. *)
Definition totals (u : ReqUser) (db : DB) : option Totals.doc :=
  match List.filter (stats_match u) (bookings db) with
  | [] => None
  | matched =>
      Some (Totals.mk
              (Z.of_nat (List.length matched))
              (sum_Z (List.map Booking.totalPrice matched))
              (sum_Z (List.map
                      (fun b => if status_eqb (Booking.status b) completed
                                then 1 else 0) matched))
              (sum_Z (List.map
                      (fun b => if status_eqb (Booking.status b) cancelled
                                then 1 else 0) matched))
              (avg_present (List.map Booking.rating matched)))
  end.

(** The paths of a booking that no handler is meant to change once the
    booking exists. *)
Definition protected_paths (b : Booking.doc)
  : ObjectId * ObjectId * ObjectId * ObjectId * Z * Z * string * Date :=
  (Booking._id b, Booking.offer b, Booking.user b, Booking.seller b,
   Booking.quantity b, Booking.totalPrice b, Booking.pickupCode b,
   Booking.pickupTime b).

(** *** Sequences of booking requests *)

Inductive BookingOp :=
| AddBooking (fuel : nat) (rnd : list Q) (req : AddBookingReq)
| UpdateBooking (req : UpdateBookingReq)
| DeleteBooking (req : BookingReq)
| CompleteBookingWithCode (req : CompleteReq).

(** The database a request leaves behind; an [addBooking] that does not
    return has written nothing. *)
Definition apply_op (db : DB) (op : BookingOp) : DB :=
  match op with
  | AddBooking fuel rnd req =>
      match addBooking fuel rnd req db with
      | Some (db', _) => db'
      | None => db
      end
  | UpdateBooking req => fst (updateBooking req db)
  | DeleteBooking req => fst (deleteBooking req db)
  | CompleteBookingWithCode req => fst (completeBookingWithCode req db)
  end.

Definition run (ops : list BookingOp) (db : DB) : DB :=
  fold_left apply_op ops db.

(** The open bookings that a user holds of an offer. *)
Definition open_bookings (userId offerId : ObjectId) (bs : list Booking.doc)
  : list Booking.doc :=
  List.filter
    (fun b =>
       Nat.eqb (Booking.user b) userId && Nat.eqb (Booking.offer b) offerId
       && open_status (Booking.status b))
    bs.

Definition one_open_booking (db : DB) : Prop :=
  forall userId offerId,
    (List.length (open_bookings userId offerId (bookings db)) <= 1)%nat.

(** What the unique indexes on [_id] and [pickupCode] guarantee, together
    with the freshness of the identifiers still to be handed out. *)
Definition unique_bookings (db : DB) : Prop :=
  NoDup (List.map Booking._id (bookings db))
  /\ NoDup (List.map Booking.pickupCode (bookings db))
  /\ (forall b, In b (bookings db) -> (Booking._id b < nextId db)%nat).

(** A status that no request leaves. *)
Definition closed_status (s : BookingStatus) : Prop :=
  s <> pending /\ s <> confirmed.

(** ** Listings *)

(** The condition on an offer shared by the queries of [getNearbyOffers],
    [getFeaturedOffers], [searchOffers] and [getSimilarOffers]:
    [{ isActive: true, availableQuantity: { $gt: 0 },
       pickupEnd: { $gt: Date.now() } }]. *)
Definition listed (now : Date) (o : Offer.doc) : bool :=
  Offer.isActive o && (0 <? Offer.availableQuantity o)
  && (now <? Offer.pickupEnd o).

(** ** Notifications as stored (models/Notification)

    The controllers hand [Notification.create] the paths of
    [Notification.doc]; the stored document adds the [_id], the [isRead]
    flag and the expiry.  [readAt] and [archived], which the notification
    controller also sets, are no paths of the schema. *)

Module Stored.
Record doc := mk {
  _id : ObjectId;
  notification : Notification.doc;
  isRead : bool;
  expiresAt : option Date
}.

Definition user (d : doc) : ObjectId := Notification.user (notification d).

Definition set_isRead (v : bool) (d : doc) : doc :=
  mk (_id d) (notification d) v (expiresAt d).
End Stored.

(** [{ $or: [{ expiresAt: { $exists: false } }, { expiresAt: { $gt: now } }] }],
    the condition that [notificationSchema.pre(/^find/)] adds to every query
    whose name starts with [find]. *)
Definition unexpired (now : Date) (d : Stored.doc) : bool :=
  match Stored.expiresAt d with
  | None => true
  | Some expiry => now <? expiry
  end.

(** [{ user: req.user.id, isRead: false }] *)
Definition unread_of (userId : ObjectId) (d : Stored.doc) : bool :=
  Nat.eqb (Stored.user d) userId && negb (Stored.isRead d).

Record MarkAsReadReq := mkMarkAsReadReq {
  mark_user : ReqUser;
  mark_notificationIds : option (list ObjectId)
}.

(** [markAsRead] of the notification controller; the body carries
    [notificationIds] only when it is an array.  The data of the answer are
    [modifiedCount] and [unreadCount]; [result.nModified] is the number of
    documents the update changed, and every match changes since the filter
    asks for [isRead: false]. *)
Definition markAsRead (req : MarkAsReadReq) (c : list Stored.doc)
  : list Stored.doc * Response (Z * Z) :=
  match mark_notificationIds req with
  | None => (c, ErrorResponse "Please provide an array of notification IDs" 400%nat)
  | Some notificationIds =>
      let filter d :=
        existsb (Nat.eqb (Stored._id d)) notificationIds
        && unread_of (id (mark_user req)) d in
      let nModified := countDocuments filter c in
      let c1 := updateMany filter (Stored.set_isRead true) c in
      (c1, Json 200%nat
             (nModified, countDocuments (unread_of (id (mark_user req))) c1))
  end.

(** [markAllAsRead]; the answer carries [unreadCount: 0] as a constant. *)
Definition markAllAsRead (u : ReqUser) (c : list Stored.doc)
  : list Stored.doc * Response (Z * Z) :=
  let filter := unread_of (id u) in
  (updateMany filter (Stored.set_isRead true) c,
   Json 200%nat (countDocuments filter c, 0)).

Record NotificationReq := mkNotificationReq {
  note_id : ObjectId;
  note_user : ReqUser;
  note_now : Date
}.

(** [deleteNotification]: [findOneAndDelete] runs under the [pre(/^find/)]
    hook.  The data of the answer is the [unreadCount]. *)
Definition deleteNotification (req : NotificationReq) (c : list Stored.doc)
  : list Stored.doc * Response Z :=
  let filter d :=
    Nat.eqb (Stored._id d) (note_id req)
    && Nat.eqb (Stored.user d) (id (note_user req))
    && unexpired (note_now req) d in
  match findOne filter c with
  | None => (c, ErrorResponse "No notification found with id" 404%nat)
  | Some _ =>
      let c1 := findOneAndDelete filter c in
      (c1, Json 200%nat (countDocuments (unread_of (id (note_user req))) c1))
  end.

(** [getUnreadCount] of the controller, and [Notification.getUnreadCount]. *)
Definition getUnreadCount (u : ReqUser) (now : Date) (c : list Stored.doc) : Z :=
  countDocuments (fun d => unread_of (id u) d && unexpired now d) c.

(** ** Reviews and stores once more *)

(** [Review.getReviewStats(storeId)], on the accumulators that read paths
    of the embedding; [withComments] and [withImages] read [comment] and
    [images]. *)
Module ReviewStats.
Record doc := mk {
  total : Z;
  avgRating : Q;
  fiveStar : Z;
  fourStar : Z;
  threeStar : Z;
  twoStar : Z;
  oneStar : Z
}.
End ReviewStats.




(** [store.remove()]: [storeSchema.pre('remove')] deletes the offers and the
    reviews of the store with [deleteMany], which runs no hook of the offer
    schema; the store is removed, and [post('remove')] calls
    [getAverageRating] on the removed store. *)
Definition Store_remove (this : Store.doc) (db : DB) : DB :=
  let db1 :=
    with_offers
      (deleteMany (fun o => Nat.eqb (Offer.store o) (Store._id this)) (offers db))
      db in
  let db2 :=
    with_reviews
      (deleteMany (fun r => Nat.eqb (Review.store r) (Store._id this)) (reviews db1))
      db1 in
  let db3 :=
    with_stores
      (findOneAndDelete (fun s => Nat.eqb (Store._id s) (Store._id this)) (stores db2))
      db2 in
  Store_getAverageRating (Store._id this) db3.

Record ReviewReq := mkReviewReq { rev_id : ObjectId; rev_user : ReqUser }.

(** [deleteReview].  [reviewSchema.pre(/^find/)] populates the [user] of
    the review that [Review.findById] returns, and the guard is
    [review.user.toString() !== req.user.id && req.user.role !== 'admin'].
    The review schema has no hook on [remove]; [store] and [offer] are not
    populated, and the references kept before the removal are object ids,
    which are truthy. *)
Definition deleteReview (req : ReviewReq) (db : DB) : DB * Response unit :=
  match findById Review._id (rev_id req) (reviews db) with
  | None => (db, ErrorResponse "No review with the id" 404%nat)
  | Some review =>
      let review_user := Populated (Review.user review) in
      if negb (toString_is review_user (id (rev_user req)))
         && negb (String.eqb (role (rev_user req)) "admin")
      then (db, ErrorResponse "User is not authorized to delete this review" 401%nat)
      else
        let storeId := Review.store review in
        let offerId := Review.offer review in
        let db1 :=
          with_reviews
            (findOneAndDelete
               (fun r => Nat.eqb (Review._id r) (Review._id review))
               (reviews db))
            db in
        let db2 := calculateAverageRating storeId store_type db1 in
        (calculateAverageRating offerId offer_type db2, Json 200%nat tt)
  end.

(** * Properties *)

(** ** Collections *)

Section CollectionFacts.
Context {doc : Type}.
Variable key : doc -> ObjectId.

Lemma findById_update_same (id0 : ObjectId) (f : doc -> doc) (c : list doc) :
  (forall d, key d = id0 -> key (f d) = id0) ->
  findById key id0 (findByIdAndUpdate key id0 f c)
  = option_map f (findById key id0 c).
Proof.
  intros Hkey. unfold findById, findByIdAndUpdate, findOne.
  induction c as [|d c IH]; simpl; [reflexivity|].
  destruct (Nat.eqb (key d) id0) eqn:E; simpl.
  - apply Nat.eqb_eq in E. rewrite (Hkey d E), Nat.eqb_refl. reflexivity.
  - rewrite E. exact IH.
Qed.

Lemma findById_update_other (id0 id1 : ObjectId) (f : doc -> doc) (c : list doc) :
  (forall d, key d = id0 -> key (f d) = id0) -> id1 <> id0 ->
  findById key id1 (findByIdAndUpdate key id0 f c) = findById key id1 c.
Proof.
  intros Hkey Hne. unfold findById, findByIdAndUpdate, findOne.
  induction c as [|d c IH]; simpl; [reflexivity|].
  destruct (Nat.eqb (key d) id0) eqn:E; simpl.
  - apply Nat.eqb_eq in E. rewrite (Hkey d E).
    destruct (Nat.eqb id0 id1) eqn:E0;
      [apply Nat.eqb_eq in E0; congruence|].
    destruct (Nat.eqb (key d) id1) eqn:E1; [|reflexivity].
    apply Nat.eqb_eq in E1. congruence.
  - destruct (Nat.eqb (key d) id1); [reflexivity | exact IH].
Qed.

Lemma findById_key (id0 : ObjectId) (c : list doc) (d : doc) :
  findById key id0 c = Some d -> key d = id0 /\ In d c.
Proof.
  unfold findById, findOne. intros H. apply find_some in H.
  destruct H as [Hin E]. apply Nat.eqb_eq in E. auto.
Qed.

End CollectionFacts.

Lemma In_deleteMany {doc : Type} (p : doc -> bool) (c : list doc) (d : doc) :
  In d (deleteMany p c) <-> In d c /\ p d = false.
Proof.
  unfold deleteMany. rewrite filter_In.
  destruct (p d); simpl; intuition congruence.
Qed.

(** ** Pickup codes *)

Lemma length_append (s t : string) :
  String.length (s ++ t) = (String.length s + String.length t)%nat.
Proof. induction s as [|c s IH]; simpl; [reflexivity | now rewrite IH]. Qed.

Lemma list_ascii_append (s t : string) :
  list_ascii_of_string (s ++ t)
  = (list_ascii_of_string s ++ list_ascii_of_string t)%list.
Proof. induction s as [|c s IH]; simpl; [reflexivity | now rewrite IH]. Qed.

Lemma random_index_range (r : Q) :
  unit_interval r -> 0 <= random_index r < 32.
Proof.
  intros [Hlo Hhi]. unfold random_index.
  change (Z.of_nat (String.length characters)) with 32.
  split.
  - rewrite <- (Qfloor_Z 0). apply Qfloor_resp_le.
    change (inject_Z 0) with (0 * inject_Z 32)%Q.
    apply Qmult_le_compat_r; [exact Hlo | discriminate].
  - rewrite Zlt_Qlt.
    apply Qle_lt_trans with (r * inject_Z 32)%Q; [apply Qfloor_le|].
    setoid_replace (inject_Z 32) with (1 * inject_Z 32)%Q at 2 by ring.
    apply Qmult_lt_compat_r; [reflexivity | exact Hhi].
Qed.

Lemma charAt_characters (i : Z) :
  0 <= i < 32 ->
  exists c, charAt characters i = String c EmptyString
            /\ In c (list_ascii_of_string characters).
Proof.
  intros Hi. unfold charAt.
  destruct (i <? 0) eqn:E; [apply Z.ltb_lt in E; lia|].
  assert (Hn : (Z.to_nat i < 32)%nat) by lia.
  generalize dependent (Z.to_nat i). intros n Hn.
  do 32 (destruct n as [|n]; [eexists; split; [reflexivity | simpl; tauto]|]).
  lia.
Qed.

Lemma draw_code_sound (n : nat) :
  forall rnd code code' rnd',
    Forall unit_interval rnd ->
    alphabet_only code ->
    draw_code n rnd code = Some (code', rnd') ->
    String.length code' = (String.length code + n)%nat
    /\ alphabet_only code' /\ Forall unit_interval rnd'.
Proof.
  induction n as [|n IH]; simpl; intros rnd code code' rnd' Hrnd Hcode H.
  - inversion H; subst. rewrite Nat.add_0_r. auto.
  - destruct rnd as [|r rnd]; [discriminate|].
    inversion Hrnd as [|? ? Hr Hrest]; subst.
    destruct (charAt_characters _ (random_index_range r Hr)) as (c & Hc & Hin).
    rewrite Hc in H.
    apply IH in H; [| exact Hrest |].
    + rewrite length_append in H. simpl in H.
      destruct H as (Hlen & Hal & Hr'). repeat split; [lia | exact Hal | exact Hr'].
    + intros a Ha. rewrite list_ascii_append in Ha. apply in_app_or in Ha.
      destruct Ha as [Ha | Ha]; [auto|].
      simpl in Ha. destruct Ha as [<- | []]. exact Hin.
Qed.

(** C6.  A code returned by [generatePickupCode] has six characters, all of
    the alphabet [characters], and is the pickup code of no booking present
    at the call, whenever the draws are values of [Math.random()]. *)
Theorem generatePickupCode_fresh_code :
  forall fuel rnd bs code rnd',
    Forall unit_interval rnd ->
    generatePickupCode fuel rnd bs = Some (code, rnd') ->
    String.length code = 6%nat
    /\ alphabet_only code
    /\ (forall b, In b bs -> Booking.pickupCode b <> code).
Proof.
  induction fuel as [|fuel IH]; intros rnd bs code rnd' Hrnd H;
    [discriminate|].
  cbn [generatePickupCode] in H.
  destruct (draw_code 6 rnd "") as [[code0 rnd0]|] eqn:Hdraw; [|discriminate].
  apply draw_code_sound in Hdraw; [| exact Hrnd | intros c []].
  destruct Hdraw as (Hlen & Hal & Hrnd0).
  destruct (findOne _ bs) eqn:Hfind.
  - eapply IH; eassumption.
  - inversion H; subst. repeat split; [exact Hlen | exact Hal |].
    intros b Hb Heq. unfold findOne in Hfind.
    apply (find_none _ _ Hfind) in Hb. simpl in Hb.
    rewrite Heq, String.eqb_refl in Hb. discriminate.
Qed.

(** The call returns as soon as a draw of six characters is no pickup code
    of a booking: with the first six draws fresh, one iteration suffices. *)
Lemma generatePickupCode_returns :
  forall fuel rnd bs code rnd',
    draw_code 6 rnd "" = Some (code, rnd') ->
    findOne (fun b => String.eqb (Booking.pickupCode b) code) bs = None ->
    generatePickupCode (S fuel) rnd bs = Some (code, rnd').
Proof.
  intros fuel rnd bs code rnd' Hd Hf. cbn [generatePickupCode].
  rewrite Hd, Hf. reflexivity.
Qed.

Lemma generatePickupCode_fresh_code_witness :
  String.length "SSSSSS" = 6%nat
  /\ alphabet_only "SSSSSS"
  /\ (forall b, In b [reservation pending] -> Booking.pickupCode b <> "SSSSSS").
Proof.
  apply (generatePickupCode_fresh_code 2%nat draws [reservation pending]
           "SSSSSS" []).
  - unfold draws.
    repeat (constructor;
            [split; [unfold Qle; simpl; lia | unfold Qlt; simpl; lia]|]).
    constructor.
  - reflexivity.
Defined.

(** ** Validation *)

Lemma first_error_None (checks : list (bool * string)) (c : bool * string) :
  first_error checks = None -> In c checks -> fst c = true.
Proof.
  unfold first_error. intros H Hin.
  destruct (find _ checks) eqn:E; [discriminate|].
  apply (find_none _ _ E) in Hin. now apply negb_false_iff in Hin.
Qed.

Ltac passed H msg :=
  match type of H with
  | first_error ?l = None =>
      match l with
      | context [(?b, msg)] =>
          let P := fresh "Hpass" in
          assert (P : b = true)
            by (apply (first_error_None l (b, msg) H); simpl; tauto)
      end
  end.

Lemma first_error_Some (checks : list (bool * string)) :
  first_error checks <> None <-> exists c, In c checks /\ fst c = false.
Proof.
  unfold first_error. split.
  - destruct (find _ checks) as [c|] eqn:E; [intros _ | intros H; now elim H].
    apply find_some in E. destruct E as [Hin E].
    exists c. split; [exact Hin | now apply negb_true_iff in E].
  - intros (c & Hin & Hc) H.
    destruct (find _ checks) eqn:E; [discriminate|].
    apply (find_none _ _ E) in Hin. rewrite Hc in Hin. discriminate.
Qed.

Lemma includes_In (l : list string) (s : string) :
  includes l s = true <-> In s l.
Proof.
  unfold includes. rewrite existsb_exists. split.
  - intros (x & Hin & Hx). apply String.eqb_eq in Hx. now subst x.
  - intros Hin. exists s. split; [exact Hin | apply String.eqb_refl].
Qed.

Lemma includes_not_In (l : list string) (s : string) :
  includes l s = false <-> ~ In s l.
Proof.
  rewrite <- includes_In. destruct (includes l s).
  - split; [discriminate | intros H; now elim H].
  - split; [intros _ H; discriminate | reflexivity].
Qed.

(** The bodies that the validators of the further paths reject. *)
Lemma BodyRest_validate_Some (rest : BodyRest) :
  BodyRest_validate rest <> None
  <-> (exists r, rest_rating rest = Some r /\ (r < 1 \/ 5 < r))
      \/ (exists t, rest_review rest = Some t /\ (500 < String.length t)%nat)
      \/ (exists c, rest_cancelledBy rest = Some c
                    /\ ~ In c ["user"; "seller"; "system"])
      \/ (exists p, rest_paymentStatus rest = Some p
                    /\ ~ In p ["pending"; "completed"; "refunded"; "failed"])
      \/ (exists m, rest_paymentMethod rest = Some m
                    /\ ~ In m ["cash"; "card"; "wallet"; "other"]).
Proof.
  unfold BodyRest_validate. rewrite first_error_Some. split.
  - intros (c & Hin & Hc). cbn [In] in Hin.
    destruct Hin as [<- | [<- | [<- | [<- | [<- | [<- | []]]]]]];
      cbn [fst] in Hc; unfold check in Hc.
    + destruct (rest_rating rest) as [r|]; [|discriminate].
      apply Z.leb_gt in Hc. left. exists r. split; [reflexivity | lia].
    + destruct (rest_rating rest) as [r|]; [|discriminate].
      apply Z.leb_gt in Hc. left. exists r. split; [reflexivity | lia].
    + destruct (rest_review rest) as [t|]; [|discriminate].
      apply Nat.leb_gt in Hc. right; left. exists t. split; [reflexivity | lia].
    + destruct (rest_cancelledBy rest) as [x|]; [|discriminate].
      apply includes_not_In in Hc. right; right; left. now exists x.
    + destruct (rest_paymentStatus rest) as [x|]; [|discriminate].
      apply includes_not_In in Hc. right; right; right; left. now exists x.
    + destruct (rest_paymentMethod rest) as [x|]; [|discriminate].
      apply includes_not_In in Hc. right; right; right; right. now exists x.
  - intros [(r & Hr & Hb) | [(t & Ht & Hb) | [(x & Hx & Hb) | [(x & Hx & Hb)
           | (x & Hx & Hb)]]]].
    + destruct (Z_lt_dec r 1) as [Hlt | Hge].
      * eexists. split; [left; reflexivity|]. cbn [fst]. rewrite Hr.
        cbn [check]. apply Z.leb_gt. lia.
      * eexists. split; [right; left; reflexivity|]. cbn [fst]. rewrite Hr.
        cbn [check]. apply Z.leb_gt. lia.
    + eexists. split; [do 2 right; left; reflexivity|]. cbn [fst]. rewrite Ht.
      cbn [check]. apply Nat.leb_gt. lia.
    + eexists. split; [do 3 right; left; reflexivity|]. cbn [fst]. rewrite Hx.
      cbn [check]. now apply includes_not_In.
    + eexists. split; [do 4 right; left; reflexivity|]. cbn [fst]. rewrite Hx.
      cbn [check]. now apply includes_not_In.
    + eexists. split; [do 5 right; left; reflexivity|]. cbn [fst]. rewrite Hx.
      cbn [check]. now apply includes_not_In.
Qed.

(** ** Creating a booking *)

Lemma status_eqb_eq (a b : BookingStatus) : status_eqb a b = true <-> a = b.
Proof. destruct a, b; simpl; split; intros H; try reflexivity; discriminate. Qed.

Lemma status_of_string_name (st : BookingStatus) :
  status_of_string (status_name st) = Some st.
Proof. destruct st; reflexivity. Qed.

Lemma status_of_string_Some (s : string) (st : BookingStatus) :
  status_of_string s = Some st -> status_name st = s.
Proof.
  unfold status_of_string. intros H. apply find_some in H.
  destruct H as [_ H]. now apply String.eqb_eq in H.
Qed.

Lemma status_of_string_None (s : string) :
  status_of_string s = None <-> forall st, status_name st <> s.
Proof.
  split.
  - intros H st E. subst s. rewrite status_of_string_name in H. discriminate.
  - intros H. destruct (status_of_string s) as [st|] eqn:E; [|reflexivity].
    apply status_of_string_Some in E. now apply H in E.
Qed.

Lemma open_status_iff (s : BookingStatus) :
  open_status s = true <-> s = pending \/ s = confirmed.
Proof.
  destruct s; simpl; split; intros H; auto; try discriminate;
    destruct H; discriminate.
Qed.

Lemma unavailable_iff (o : Offer.doc) :
  negb (Offer.isActive o) || (Offer.availableQuantity o <=? 0) = true
  <-> unavailable o.
Proof.
  unfold unavailable. rewrite orb_true_iff, negb_true_iff, Z.leb_le. tauto.
Qed.

Lemma existingBooking_iff (u : ReqUser) (offerId : ObjectId)
      (bs : list Booking.doc) :
  existingBooking (id u) offerId bs <> None <-> already_booked u offerId bs.
Proof.
  unfold existingBooking, findOne, already_booked. split.
  - destruct (find _ bs) as [b|] eqn:E; [intros _ | congruence].
    apply find_some in E. destruct E as [Hin E].
    rewrite !andb_true_iff, !Nat.eqb_eq, open_status_iff in E.
    exists b. tauto.
  - intros (b & Hin & Hu & Ho & Hs) E.
    apply (find_none _ _ E) in Hin. simpl in Hin.
    rewrite Hu, Ho, !Nat.eqb_refl in Hin. simpl in Hin.
    apply open_status_iff in Hs. congruence.
Qed.

Lemma Booking_validate_inl (req : AddBookingReq) :
  (exists message,
      Booking_validate (add_quantity req) (add_status req) (add_rest req)
      = inl message)
  <-> invalid_body req.
Proof.
  unfold Booking_validate, invalid_body.
  pose proof (BodyRest_validate_Some (add_rest req)) as HR.
  destruct (add_quantity req) as [q|]; [|split; eauto].
  destruct (q <? 1) eqn:Eq.
  - apply Z.ltb_lt in Eq. split; [eauto 6 | eauto].
  - apply Z.ltb_ge in Eq.
    assert (Hrest : forall st : BookingStatus,
               (exists message,
                   match BodyRest_validate (add_rest req) with
                   | Some message0 => inl message0
                   | None => inr (q, st)
                   end = inl message)
               <-> BodyRest_validate (add_rest req) <> None).
    { intros st. destruct (BodyRest_validate (add_rest req)).
      - split; [discriminate | eauto].
      - split; [intros [m H]; discriminate | intros H; now elim H]. }
    destruct (add_status req) as [s|].
    + destruct (status_of_string s) as [st|] eqn:Es.
      * rewrite Hrest, HR. split; [tauto|].
        intros [H | [(q' & H & Hq) | [(s' & H & Hs) | H]]];
          [discriminate | inversion H; lia | | exact H].
        inversion H; subst s'. apply status_of_string_None in Hs. congruence.
      * split; [intros _ | eauto].
        right; right; left. exists s. split; [reflexivity|].
        now apply status_of_string_None.
    + rewrite Hrest, HR. split; [tauto|].
      intros [H | [(q' & H & Hq) | [(s' & H & _) | H]]];
        [discriminate | inversion H; lia | discriminate | exact H].
Qed.

Lemma Booking_validate_inr (quantity : option Z) (status : option string)
      (rest : BodyRest) (q : Z) (st : BookingStatus) :
  Booking_validate quantity status rest = inr (q, st) ->
  quantity = Some q /\ 1 <= q
  /\ (status = None /\ st = pending \/ status = Some (status_name st)).
Proof.
  unfold Booking_validate. destruct quantity as [q0|]; [|discriminate].
  destruct (q0 <? 1) eqn:Eq; [discriminate|]. apply Z.ltb_ge in Eq.
  destruct status as [s|].
  - destruct (status_of_string s) as [st0|] eqn:Es; [|discriminate].
    destruct (BodyRest_validate rest); [discriminate|].
    intros H; inversion H; subst. apply status_of_string_Some in Es.
    subst s. auto.
  - destruct (BodyRest_validate rest); [discriminate|].
    intros H; inversion H; subst. auto.
Qed.

Lemma availableQuantity_of_inc (offerId : ObjectId) (d : Z) (db : DB) :
  availableQuantity_of offerId (inc_availableQuantity offerId d db)
  = option_map (fun a => a + d) (availableQuantity_of offerId db).
Proof.
  unfold availableQuantity_of, inc_availableQuantity. simpl.
  rewrite findById_update_same by (intros o Ho; exact Ho).
  destruct (findById Offer._id offerId (offers db)); reflexivity.
Qed.

(** The rating hooks leave the available quantities and the bookings as
    they are. *)
Lemma availableQuantity_of_getAverageRating (o x : ObjectId) (db : DB) :
  availableQuantity_of o (Offer_getAverageRating x db) = availableQuantity_of o db.
Proof.
  unfold availableQuantity_of, Offer_getAverageRating. cbn [offers with_offers].
  destruct (Nat.eq_dec o x) as [-> | Hne].
  - rewrite findById_update_same by (intros d Hd; exact Hd).
    destruct (findById Offer._id x (offers db)); reflexivity.
  - rewrite findById_update_other; [reflexivity | intros d Hd; exact Hd | exact Hne].
Qed.

Lemma availableQuantity_of_getAverageRating_of (o : ObjectId) (x : Ref) (db : DB) :
  availableQuantity_of o (Offer_getAverageRating_of x db) = availableQuantity_of o db.
Proof.
  destruct x as [x | x]; cbn [Offer_getAverageRating_of].
  - apply availableQuantity_of_getAverageRating.
  - unfold availableQuantity_of. cbn [offers with_offers].
    destruct (Nat.eq_dec o x) as [-> | Hne].
    + rewrite findById_update_same by (intros d Hd; exact Hd).
      destruct (findById Offer._id x (offers db)); reflexivity.
    + rewrite findById_update_other;
        [reflexivity | intros d Hd; exact Hd | exact Hne].
Qed.

Lemma availableQuantity_of_post_save (o : ObjectId) (x : Ref) (b : Booking.doc)
      (db : DB) :
  availableQuantity_of o (Booking_post_save x b db) = availableQuantity_of o db.
Proof.
  unfold Booking_post_save.
  destruct (status_eqb (Booking.status b) completed
            && truthy_number (Booking.rating b));
    [apply availableQuantity_of_getAverageRating_of | reflexivity].
Qed.

Lemma bookings_post_save (x : Ref) (b : Booking.doc) (db : DB) :
  bookings (Booking_post_save x b db) = bookings db.
Proof.
  unfold Booking_post_save.
  destruct (status_eqb (Booking.status b) completed
            && truthy_number (Booking.rating b)); [|reflexivity].
  destruct x; reflexivity.
Qed.

Lemma nextId_post_save (x : Ref) (b : Booking.doc) (db : DB) :
  nextId (Booking_post_save x b db) = nextId db.
Proof.
  unfold Booking_post_save.
  destruct (status_eqb (Booking.status b) completed
            && truthy_number (Booking.rating b)); [|reflexivity].
  destruct x; reflexivity.
Qed.

Lemma availableQuantity_of_Notification_create (o : ObjectId)
      (n : Notification.doc) (db : DB) :
  availableQuantity_of o (Notification_create n db) = availableQuantity_of o db.
Proof. reflexivity. Qed.

(** What a request that passes every check of [addBooking] leaves behind. *)
Lemma addBooking_created :
  forall fuel rnd req db db' b,
    addBooking fuel rnd req db = Some (db', Json 201%nat b) ->
    exists offer code rnd' q st,
      findById Offer._id (add_offerId req) (offers db) = Some offer
      /\ generatePickupCode fuel rnd (bookings db) = Some (code, rnd')
      /\ Booking_validate (add_quantity req) (add_status req) (add_rest req)
         = inr (q, st)
      /\ b = Booking.mk (nextId db) (add_offerId req) (id (add_user req))
               (Offer.seller offer) q
               (Offer.discountedPrice offer * or_default (add_quantity req) 1)
               st code (Offer.pickupStart offer)
               (rest_rating (add_rest req))
               (rest_cancellationReason (add_rest req))
               (rest_cancelledBy (add_rest req))
      /\ (forall o,
             availableQuantity_of o db'
             = availableQuantity_of o
                 (Booking_pre_save true
                    (match add_status req with Some _ => true | None => false end)
                    b db))
      /\ bookings db' = (bookings db ++ [b])%list.
Proof.
  intros fuel rnd req db db' b. unfold addBooking.
  destruct (findById Offer._id (add_offerId req) (offers db)) as [offer|];
    [|discriminate].
  destruct (negb (Offer.isActive offer) || (Offer.availableQuantity offer <=? 0));
    [discriminate|].
  destruct (Offer.pickupEnd offer <? add_now req); [discriminate|].
  destruct (Nat.eqb (id (add_user req)) (Offer.seller offer)); [discriminate|].
  destruct (existingBooking _ _ _); [discriminate|].
  destruct (generatePickupCode fuel rnd (bookings db)) as [[code rnd']|];
    [|discriminate].
  unfold Booking_create.
  destruct (Booking_validate (add_quantity req) (add_status req) (add_rest req))
    as [m | [q st]] eqn:Ev; [discriminate|].
  intros H. injection H as Hdb Hb. subst db' b.
  exists offer, code, rnd', q, st.
  split; [reflexivity|]. split; [reflexivity|]. split; [reflexivity|].
  split; [reflexivity|]. split.
  - intros o. rewrite availableQuantity_of_Notification_create.
    rewrite availableQuantity_of_post_save. reflexivity.
  - cbn [Notification_create bookings]. rewrite bookings_post_save.
    cbn [bookings]. f_equal.
    unfold Booking_pre_save, inc_availableQuantity. cbn [Booking.status].
    destruct (match add_status req with Some _ => true | None => false end
              && status_eqb st cancelled); reflexivity.
Qed.

Lemma availableQuantity_of_offers (offerId : ObjectId) (db db' : DB) :
  offers db' = offers db ->
  availableQuantity_of offerId db' = availableQuantity_of offerId db.
Proof. unfold availableQuantity_of. now intros ->. Qed.

(** C2 fails for a booking that the request creates as cancelled: the save
    hook takes the quantity off the offer and gives it back at once. *)
Lemma addBooking_created_cancelled_keeps_quantity :
  ~ (forall fuel rnd req db db' b available,
        addBooking fuel rnd req db = Some (db', Json 201%nat b) ->
        availableQuantity_of (Booking.offer b) db = Some available ->
        availableQuantity_of (Booking.offer b) db'
        = Some (available - Booking.quantity b)).
Proof.
  intros claim.
  pose (req := mkAddBookingReq 1%nat other_buyer (Some 2) (Some "cancelled")
                1500 nothing_else).
  destruct (addBooking 1 draws req (shop 3 [])) as [[db' [st b| |]]|] eqn:E;
    try (vm_compute in E; discriminate).
  assert (Hst : st = 201%nat) by (vm_compute in E; congruence).
  subst st.
  assert (Hb : Booking.offer b = 1%nat /\ Booking.quantity b = 2
               /\ availableQuantity_of 1%nat db' = Some 3).
  { vm_compute in E. inversion E; subst. repeat split. }
  destruct Hb as (Ho & Hq & Ha).
  specialize (claim 1%nat draws req (shop 3 []) db' b 3 E).
  rewrite Ho, Hq, Ha in claim.
  specialize (claim eq_refl). discriminate.
Qed.

(** C2, amended.  A booking created by [addBooking] in a status other than
    [cancelled] takes exactly its quantity off the available quantity of the
    offer it refers to. *)
Theorem addBooking_decrements_availableQuantity :
  forall fuel rnd req db db' b,
    addBooking fuel rnd req db = Some (db', Json 201%nat b) ->
    Booking.status b <> cancelled ->
    exists available,
      availableQuantity_of (Booking.offer b) db = Some available
      /\ availableQuantity_of (Booking.offer b) db'
         = Some (available - Booking.quantity b).
Proof.
  intros fuel rnd req db db' b H Hst.
  apply addBooking_created in H.
  destruct H as (offer & code & rnd' & q & st & Hf & _ & _ & Hb & Hoff & _).
  exists (Offer.availableQuantity offer).
  assert (Ho : Booking.offer b = add_offerId req) by (subst b; reflexivity).
  rewrite Ho. split.
  - unfold availableQuantity_of. rewrite Hf. reflexivity.
  - rewrite Hoff.
    unfold Booking_pre_save.
    assert (Hc : status_eqb (Booking.status b) cancelled = false).
    { destruct (status_eqb (Booking.status b) cancelled) eqn:E; [|reflexivity].
      apply status_eqb_eq in E. contradiction. }
    rewrite Hc, andb_false_r, Ho, availableQuantity_of_inc.
    unfold availableQuantity_of. rewrite Hf. simpl.
    f_equal; lia.
Qed.

Lemma addBooking_decrements_availableQuantity_witness :
  exists available,
    availableQuantity_of 1%nat (shop 3 []) = Some available
    /\ availableQuantity_of 1%nat
         (mkDB [bread 1]
            [Booking.mk 3%nat 1%nat 12%nat 10%nat 2 160 pending "AAAAAA" 1000
               None None None]
            [Store.mk 20%nat 10%nat None] []
            [Notification.mk 10%nat "New Booking!" "booking_created"] 4%nat)
       = Some (available - 2).
Proof.
  apply (addBooking_decrements_availableQuantity 1%nat draws
           (mkAddBookingReq 1%nat other_buyer (Some 2) None 1500 nothing_else)
           (shop 3 [])
           (mkDB [bread 1]
              [Booking.mk 3%nat 1%nat 12%nat 10%nat 2 160 pending "AAAAAA" 1000
                 None None None]
              [Store.mk 20%nat 10%nat None] []
              [Notification.mk 10%nat "New Booking!" "booking_created"] 4%nat)
           (Booking.mk 3%nat 1%nat 12%nat 10%nat 2 160 pending "AAAAAA" 1000
              None None None)).
  - vm_compute. reflexivity.
  - simpl. discriminate.
Defined.

(** C4, at the failing input: one request for 2 items of an offer with 1
    item left is accepted and leaves the available quantity at -1. *)
Theorem addBooking_overbooks_offer :
  exists db' b,
    addBooking 1%nat draws
      (mkAddBookingReq 1%nat other_buyer (Some 2) None 1500 nothing_else)
      (shop 1 [])
    = Some (db', Json 201%nat b)
    /\ Booking.quantity b = 2
    /\ availableQuantity_of 1%nat (shop 1 []) = Some 1
    /\ availableQuantity_of 1%nat db' = Some (-1).
Proof.
  eexists. eexists. split; [vm_compute; reflexivity|].
  repeat split.
Qed.

Lemma no_existingBooking (u : ReqUser) (offerId : ObjectId)
      (bs : list Booking.doc) :
  existingBooking (id u) offerId bs = None -> ~ already_booked u offerId bs.
Proof. intros E H. apply existingBooking_iff in H. contradiction. Qed.

Lemma or_default_positive (q : Z) : 1 <= q -> or_default (Some q) 1 = q.
Proof.
  intros H. simpl. destruct (q =? 0) eqn:E; [|reflexivity].
  apply Z.eqb_eq in E. lia.
Qed.

(** C5 fails as stated: a request without a quantity meets none of the five
    conditions and is rejected all the same, by the schema validators. *)
Lemma addBooking_rejects_missing_quantity :
  ~ (forall fuel rnd req db db' resp offer,
        addBooking fuel rnd req db = Some (db', resp) ->
        findById Offer._id (add_offerId req) (offers db) = Some offer ->
        isError resp = true ->
        unavailable offer \/ pickup_passed offer (add_now req)
        \/ own_offer (add_user req) offer
        \/ already_booked (add_user req) (add_offerId req) (bookings db)).
Proof.
  intros claim.
  specialize (claim 1%nat draws
                (mkAddBookingReq 1%nat other_buyer None None 1500 nothing_else)
                (shop 3 [])
                (shop 3 []) (ValidationError "Please specify the quantity")
                (bread 3) eq_refl eq_refl eq_refl).
  destruct claim as [[H | H] | [H | [H | (b & [] & _)]]];
    [discriminate H | | | discriminate H].
  - simpl in H. lia.
  - unfold pickup_passed in H. simpl in H. lia.
Qed.

(** C5, amended.  [addBooking] answers 404 when the offer does not exist.
    When it exists, the request is rejected exactly when the offer is
    inactive or has no available quantity, its pickup end has passed, the
    user is its seller, the user holds a pending or confirmed booking of it,
    or the body fails a validator of the booking schema: no quantity or one
    below 1, a status, [cancelledBy], [paymentStatus] or [paymentMethod]
    outside its enum, a rating below 1 or above 5, a review of more than
    500 characters.  The checks are made in this order, the first four
    answer 400 and the last one a validation error, and every rejection
    leaves the database as it was.  Otherwise a booking is created for the
    requested quantity, with the seller and the pickup start of the offer,
    at the discounted price times the quantity, and the response is 201. *)
Theorem addBooking_rejections_and_result :
  forall fuel rnd req db code rnd',
    generatePickupCode fuel rnd (bookings db) = Some (code, rnd') ->
    exists db' resp,
      addBooking fuel rnd req db = Some (db', resp)
      /\ match findById Offer._id (add_offerId req) (offers db) with
         | None => resp = ErrorResponse "No offer with the id" 404%nat /\ db' = db
         | Some offer =>
             let A := unavailable offer in
             let B := pickup_passed offer (add_now req) in
             let C := own_offer (add_user req) offer in
             let D := already_booked (add_user req) (add_offerId req) (bookings db) in
             let E := invalid_body req in
             (isError resp = true <-> A \/ B \/ C \/ D \/ E)
             /\ (A -> resp = ErrorResponse "This offer is no longer available" 400%nat)
             /\ (~ A -> B ->
                 resp = ErrorResponse "The pickup time for this offer has passed" 400%nat)
             /\ (~ A -> ~ B -> C ->
                 resp = ErrorResponse "You cannot book your own offer" 400%nat)
             /\ (~ A -> ~ B -> ~ C -> D ->
                 resp = ErrorResponse "You already have a booking for this offer" 400%nat)
             /\ (~ A -> ~ B -> ~ C -> ~ D -> E ->
                 exists message, resp = ValidationError message)
             /\ (isError resp = true -> db' = db)
             /\ (isError resp = false ->
                 exists b q,
                   resp = Json 201%nat b
                   /\ add_quantity req = Some q
                   /\ Booking.quantity b = q
                   /\ Booking.seller b = Offer.seller offer
                   /\ Booking.totalPrice b = Offer.discountedPrice offer * q
                   /\ Booking.pickupTime b = Offer.pickupStart offer
                   /\ Booking.pickupCode b = code
                   /\ In b (bookings db'))
         end.
Proof.
  intros fuel rnd req db code rnd' Hgen. unfold addBooking.
  destruct (findById Offer._id (add_offerId req) (offers db)) as [offer|];
    [|eexists; eexists; split; [reflexivity | split; reflexivity]].
  destruct (negb (Offer.isActive offer) || (Offer.availableQuantity offer <=? 0))
    eqn:EA.
  { apply unavailable_iff in EA.
    eexists; eexists; split; [reflexivity|]. cbv zeta. simpl isError.
    repeat split; intros; try tauto; try discriminate. }
  assert (NA : ~ unavailable offer)
    by (rewrite <- unavailable_iff; congruence).
  destruct (Offer.pickupEnd offer <? add_now req) eqn:EB.
  { apply Z.ltb_lt in EB.
    eexists; eexists; split; [reflexivity|]. cbv zeta. simpl isError.
    unfold pickup_passed.
    repeat split; intros; try tauto; try discriminate. }
  apply Z.ltb_ge in EB.
  assert (NB : ~ pickup_passed offer (add_now req))
    by (unfold pickup_passed; lia).
  destruct (Nat.eqb (id (add_user req)) (Offer.seller offer)) eqn:EC.
  { apply Nat.eqb_eq in EC.
    eexists; eexists; split; [reflexivity|]. cbv zeta. simpl isError.
    unfold own_offer.
    repeat split; intros; try tauto; try discriminate. }
  apply Nat.eqb_neq in EC.
  destruct (existingBooking (id (add_user req)) (add_offerId req) (bookings db))
    as [b0|] eqn:ED.
  { assert (HD : already_booked (add_user req) (add_offerId req) (bookings db))
      by (apply existingBooking_iff; congruence).
    eexists; eexists; split; [reflexivity|]. cbv zeta. simpl isError.
    unfold own_offer.
    repeat split; intros; try tauto; try discriminate. }
  apply no_existingBooking in ED.
  rewrite Hgen. unfold Booking_create.
  destruct (Booking_validate (add_quantity req) (add_status req) (add_rest req))
    as [m | [q st]] eqn:EV.
  { assert (HE : invalid_body req)
      by (apply Booking_validate_inl; eauto).
    eexists; eexists; split; [reflexivity|]. cbv zeta. simpl isError.
    unfold own_offer.
    repeat split; intros; try tauto; try discriminate; eauto. }
  assert (NE : ~ invalid_body req).
  { intros HE. apply Booking_validate_inl in HE. destruct HE as [m HE].
    congruence. }
  apply Booking_validate_inr in EV. destruct EV as (Hq & Hq1 & _).
  eexists; eexists; split; [reflexivity|]. cbv zeta. simpl isError.
  unfold own_offer.
  repeat split; intros; try tauto; try discriminate.
  eexists; exists q. repeat split; try reflexivity; try assumption.
  - simpl. rewrite Hq, or_default_positive by assumption. reflexivity.
  - cbn [Notification_create bookings]. rewrite bookings_post_save.
    cbn [bookings]. apply in_or_app. right. left. reflexivity.
Qed.

Lemma addBooking_rejections_and_result_witness :
  exists db' resp,
    addBooking 1%nat draws
      (mkAddBookingReq 1%nat other_buyer (Some 2) None 1500 nothing_else)
      (shop 3 [])
    = Some (db', resp)
    /\ isError resp = false.
Proof.
  destruct (addBooking_rejections_and_result 1%nat draws
              (mkAddBookingReq 1%nat other_buyer (Some 2) None 1500 nothing_else)
              (shop 3 []) "AAAAAA" (skipn 6 draws) eq_refl)
    as (db' & resp & Hrun & _).
  exists db', resp. split; [exact Hrun|].
  vm_compute in Hrun. inversion Hrun. reflexivity.
Defined.

(** ** Changing the status of a booking *)

(** On the booking that [Booking.findById] returns, [user] and [seller] are
    populated, and the guard lets a requester pass exactly when their role
    is admin. *)
Lemma authorized_admin (u : ReqUser) (b : Booking.doc) :
  authorized u b = String.eqb (role u) "admin".
Proof. reflexivity. Qed.

Lemma updateBooking_write_offers (bid : ObjectId) (u : UpdateObj) (db : DB) :
  offers (fst (updateBooking_write bid u db)) = offers db.
Proof.
  unfold updateBooking_write.
  destruct (Booking_update_validate u); reflexivity.
Qed.

(** No path through [updateBooking] writes to the offers. *)
Lemma updateBooking_leaves_offers (req : UpdateBookingReq) (db : DB) :
  offers (fst (updateBooking req db)) = offers db.
Proof.
  unfold updateBooking.
  destruct (findById Booking._id (upd_id req) (bookings db)) as [booking|];
    [|reflexivity].
  destruct (negb (authorized (upd_user req) booking)); [reflexivity|].
  destruct (upd_status req) as [status|];
    [|apply updateBooking_write_offers].
  destruct (String.eqb status ""); [apply updateBooking_write_offers|].
  destruct (negb (includes (validTransitions (Booking.status booking)) status));
    [reflexivity|].
  destruct (String.eqb status "cancelled").
  - rewrite updateBooking_write_offers. reflexivity.
  - destruct (String.eqb status "completed");
      rewrite updateBooking_write_offers; reflexivity.
Qed.

(** The save hook does give the quantity back when a booking that passes
    its validators is saved with its status set to [cancelled]. *)
Lemma Booking_save_cancelled_restores (offer : Ref) (b : Booking.doc) (db : DB) :
  Booking_doc_validate b = None ->
  exists db',
    Booking_save true offer (Booking.set_status cancelled b) db = inr db'
    /\ availableQuantity_of (Booking.offer b) db'
       = option_map (fun a => a + Booking.quantity b)
           (availableQuantity_of (Booking.offer b) db).
Proof.
  intros Hv. unfold Booking_save.
  replace (Booking_doc_validate (Booking.set_status cancelled b))
    with (Booking_doc_validate b) by reflexivity.
  rewrite Hv. eexists. split; [reflexivity|].
  rewrite availableQuantity_of_post_save.
  unfold Booking_pre_save. cbn [Booking.set_status Booking.status status_eqb andb].
  rewrite <- availableQuantity_of_inc. reflexivity.
Qed.

Lemma findOneAndUpdate_id {A} (q : A -> bool) (c : list A) :
  findOneAndUpdate q (fun d => d) c = c.
Proof.
  induction c as [|d c IH]; simpl; [reflexivity|].
  destruct (q d); [reflexivity | now rewrite IH].
Qed.

Lemma updateBooking_write_nothing (bid : ObjectId) (db : DB) :
  fst (updateBooking_write bid (mkUpdateObj None None None) db) = db.
Proof.
  unfold updateBooking_write. simpl. unfold findByIdAndUpdate.
  rewrite findOneAndUpdate_id. destruct db; reflexivity.
Qed.

Lemma includes_transition (from : BookingStatus) (status : string) :
  includes (validTransitions from) status = true ->
  exists to, status_of_string status = Some to /\ allowed_transition from to.
Proof.
  unfold includes, allowed_transition.
  destruct from; simpl; rewrite ?orb_false_r, ?orb_true_iff, ?String.eqb_eq;
    try discriminate.
  - intros [-> | ->]; eexists; (split; [reflexivity|]); tauto.
  - intros [-> | ->]; eexists; (split; [reflexivity|]); tauto.
Qed.









(** [completeBookingWithCode] compares [booking.seller.toString()], the
    rendering of the populated seller, with [req.user.id]: a request whose
    code is that of an open booking is answered 401, any other 404, and
    the handler never gets to its [save()]. *)
Lemma completeBookingWithCode_refuses (req : CompleteReq) (db : DB) :
  completeBookingWithCode req db
  = (db,
     match
       findOne
         (fun b => String.eqb (Booking.pickupCode b) (cmp_code req)
                   && open_status (Booking.status b))
         (bookings db)
     with
     | Some _ =>
         ErrorResponse "You are not authorized to complete this booking" 401%nat
     | None => ErrorResponse "Invalid or expired pickup code" 404%nat
     end).
Proof.
  unfold completeBookingWithCode.
  destruct (findOne _ (bookings db)); reflexivity.
Qed.




(** ** Offers *)

(** The sibling path: an offer that [createOffer] accepts is discounted
    below its original price and ends its pickup after the start. *)
Lemma createOffer_enforces_invariants (req : OfferReq) (db db' : DB)
      (o : Offer.doc) :
  createOffer req db = (db', Json 201%nat o) ->
  Offer.discountedPrice o < Offer.originalPrice o
  /\ Offer.pickupStart o < Offer.pickupEnd o.
Proof.
  unfold createOffer.
  destruct (findOne _ (stores db)); [|discriminate].
  unfold Offer_create.
  match goal with
  | |- context [Offer_validate ?b] =>
      destruct (Offer_validate b) eqn:Hv; [discriminate|]
  end.
  intros H. inversion H; subst; clear H. simpl.
  unfold Offer_validate in Hv. simpl in Hv.
  passed Hv "Please add the discounted price".
  passed Hv "Discounted price must be less than original price".
  passed Hv "Please add a pickup end time".
  passed Hv "Pickup end time must be after pickup start time".
  destruct (body_discountedPrice (offer_body req)) as [dp|]; [|discriminate].
  destruct (body_pickupEnd (offer_body req)) as [pe|]; [|discriminate].
  simpl in *.
  destruct (body_originalPrice (offer_body req)) as [op|]; [|discriminate].
  destruct (body_pickupStart (offer_body req)) as [ps|]; [|discriminate].
  simpl in *. split; now apply Z.ltb_lt.
Qed.

(** C8, at the failing input: the seller lowers the original price of an
    offer (100, sold at 80) to 50; the update is accepted and the stored
    offer has a discounted price above its original price. *)
Theorem updateOffer_breaks_price_invariant :
  exists db' o',
    updateOffer
      (mkOfferReq 1%nat baker
         (mkOfferBody None None None (Some 50) None None None None None None None))
      (shop 3 [])
    = (db', Json 200%nat (Some o'))
    /\ findById Offer._id 1%nat (offers db') = Some o'
    /\ Offer.originalPrice o' = 50
    /\ Offer.discountedPrice o' = 80
    /\ discountedPrice_validator (Some (Offer.originalPrice o'))
         (Offer.discountedPrice o') = false.
Proof.
  eexists. eexists. split; [vm_compute; reflexivity|].
  repeat split.
Qed.

(** C9.  [deleteOffer], for the seller of the offer or an admin, makes two
    writes.  The first marks every pending or confirmed booking of the
    offer cancelled, with [cancelledBy] set to admin or seller and with a
    reason, so that no booking of the offer stays open; it removes nothing
    and leaves every other booking as it is.  The second removes every
    booking of the offer, and the offer; the bookings of other offers are
    kept.  The database after the second write is the one the request
    leaves behind. *)
Theorem deleteOffer_cancels_then_removes_bookings :
  forall req db offer,
    findById Offer._id (offer_param req) (offers db) = Some offer ->
    offer_owner_or_admin (offer_user req) offer = true ->
    exists db1 db2,
      deleteOffer_writes req db = ([db1; db2], Json 200%nat tt)
      /\ deleteOffer req db = (db2, Json 200%nat tt)
      /\ offers db1 = offers db
      /\ List.map Booking._id (bookings db1) = List.map Booking._id (bookings db)
      /\ (forall b,
             In b (bookings db) ->
             Booking.offer b = offer_param req ->
             Booking.status b = pending \/ Booking.status b = confirmed ->
             exists b',
               In b' (bookings db1)
               /\ Booking._id b' = Booking._id b
               /\ Booking.status b' = cancelled
               /\ (Booking.cancelledBy b' = Some "admin"
                   \/ Booking.cancelledBy b' = Some "seller")
               /\ Booking.cancellationReason b'
                  = Some "Offer was deleted by the seller")
      /\ (forall b',
             In b' (bookings db1) -> Booking.offer b' = offer_param req ->
             Booking.status b' <> pending /\ Booking.status b' <> confirmed)
      /\ (forall b,
             In b (bookings db) ->
             Booking.offer b <> offer_param req
             \/ (Booking.status b <> pending /\ Booking.status b <> confirmed) ->
             In b (bookings db1))
      /\ bookings db2
         = deleteMany (fun b => Nat.eqb (Booking.offer b) (offer_param req))
             (bookings db1)
      /\ (forall b, In b (bookings db2) -> Booking.offer b <> offer_param req)
      /\ (forall b,
             Booking.offer b <> offer_param req ->
             (In b (bookings db2) <-> In b (bookings db)))
      /\ findById Offer._id (offer_param req) (offers db2) = None.
Proof.
  intros req db offer Hf Hauth.
  destruct (findById_key _ _ _ _ Hf) as [Hid _].
  set (marked := cancelBookings (offer_param req) (offer_user req) (bookings db)).
  assert (Hmarked :
            forall b', In b' marked ->
                       exists b, In b (bookings db)
                                 /\ ((Booking.offer b = offer_param req
                                      /\ open_status (Booking.status b) = true
                                      /\ Booking.status b' = cancelled
                                      /\ Booking.offer b' = Booking.offer b)
                                     \/ ((Booking.offer b <> offer_param req
                                          \/ open_status (Booking.status b) = false)
                                         /\ b' = b))).
  { intros b' H. unfold marked, cancelBookings, updateMany in H.
    apply in_map_iff in H. destruct H as (b & Hb & Hin).
    exists b. split; [exact Hin|].
    destruct (Nat.eqb (Booking.offer b) (offer_param req)) eqn:E; simpl in Hb.
    - apply Nat.eqb_eq in E.
      destruct (open_status (Booking.status b)) eqn:Eo; subst b'.
      + left. repeat split; assumption.
      + right. split; [right; reflexivity | reflexivity].
    - apply Nat.eqb_neq in E. subst b'. right. split; [left; exact E | reflexivity]. }
  exists (with_bookings marked db), (Offer_remove offer (with_bookings marked db)).
  split; [|split].
  { unfold deleteOffer_writes. rewrite Hf, Hauth. cbn [negb]. rewrite Hid.
    reflexivity. }
  { unfold deleteOffer, deleteOffer_writes. rewrite Hf, Hauth. cbn [negb].
    rewrite Hid. reflexivity. }
  split; [reflexivity|]. split.
  { cbn [bookings with_bookings]. unfold marked, cancelBookings, updateMany.
    rewrite map_map. apply map_ext. intros b.
    destruct (Nat.eqb (Booking.offer b) (offer_param req)
              && open_status (Booking.status b)); reflexivity. }
  split.
  { intros b Hin Ho Hs. apply open_status_iff in Hs.
    eexists. split.
    - cbn [bookings with_bookings].
      unfold marked, cancelBookings, updateMany. apply in_map_iff.
      exists b. split; [|exact Hin].
      rewrite Ho, Nat.eqb_refl, Hs. reflexivity.
    - simpl. repeat split.
      destruct (String.eqb (role (offer_user req)) "admin"); auto. }
  split.
  { intros b' Hin Ho. cbn [bookings with_bookings] in Hin.
    destruct (Hmarked b' Hin) as (b & _ & [(_ & _ & Hc & _) | ([Hne | Hcl] & ->)]).
    - rewrite Hc. split; discriminate.
    - contradiction.
    - split; intros Hp; rewrite Hp in Hcl; discriminate. }
  split.
  { intros b Hin Hcase. cbn [bookings with_bookings].
    unfold marked, cancelBookings, updateMany. apply in_map_iff.
    exists b. split; [|exact Hin].
    destruct Hcase as [Hne | [Hp Hc]].
    - apply Nat.eqb_neq in Hne. rewrite Hne. reflexivity.
    - assert (Ho : open_status (Booking.status b) = false).
      { destruct (open_status (Booking.status b)) eqn:E; [|reflexivity].
        apply open_status_iff in E. tauto. }
      rewrite Ho, andb_false_r. reflexivity. }
  unfold Offer_remove, Offer_getAverageRating. simpl. rewrite Hid.
  split; [reflexivity|]. split; [|split].
  - intros b Hin. apply In_deleteMany in Hin. destruct Hin as [_ Hne].
    now apply Nat.eqb_neq in Hne.
  - intros b Hne. split.
    + intros Hin. apply In_deleteMany in Hin. destruct Hin as [Hin _].
      destruct (Hmarked b Hin) as (b0 & Hin0 & [(Ho0 & _ & _ & Ho) | (_ & ->)]);
        [|exact Hin0].
      exfalso. apply Hne. congruence.
    + intros Hin. apply In_deleteMany. split; [|now apply Nat.eqb_neq].
      unfold marked, cancelBookings, updateMany. apply in_map_iff.
      exists b. split; [|exact Hin].
      apply Nat.eqb_neq in Hne. rewrite Hne. reflexivity.
  - match goal with
    | |- findById _ _ (findByIdAndUpdate _ _ _ ?c) = None =>
        assert (Hgone : findById Offer._id (offer_param req) c = None)
    end.
    { unfold findById, findOne.
      match goal with |- find ?p ?l = None => destruct (find p l) eqn:E end;
        [|reflexivity].
      apply find_some in E. destruct E as [Hin E].
      apply In_deleteMany in Hin. destruct Hin as [_ Hne]. congruence. }
    rewrite findById_update_same by (intros o Ho; exact Ho).
    rewrite Hgone. reflexivity.
Qed.

Lemma deleteOffer_cancels_then_removes_bookings_witness :
  exists db1 db2,
    deleteOffer_writes (mkOfferReq 1%nat baker empty_body) bakery
    = ([db1; db2], Json 200%nat tt)
    /\ List.map Booking._id (bookings db1) = [2%nat; 4%nat; 5%nat]
    /\ (forall b', In b' (bookings db1) -> Booking.offer b' = 1%nat ->
                   Booking.status b' <> pending /\ Booking.status b' <> confirmed)
    /\ (forall b, In b (bookings db2) -> Booking.offer b <> 1%nat).
Proof.
  destruct (deleteOffer_cancels_then_removes_bookings
              (mkOfferReq 1%nat baker empty_body) bakery (bread 3)
              eq_refl eq_refl)
    as (db1 & db2 & Hrun & _ & _ & Hids & _ & Hclosed & _ & _ & Hnone & _).
  exists db1, db2. split; [exact Hrun|]. split; [exact Hids|].
  split; [exact Hclosed | exact Hnone].
Defined.



(** ** Ratings *)

(** [average] is the arithmetic mean: times the number of values it gives
    their sum. *)
Lemma average_mean (l : list Z) :
  l <> [] ->
  (average l * inject_Z (Z.of_nat (List.length l))
   == inject_Z (fold_right Z.add 0%Z l))%Q.
Proof.
  intros Hl. unfold average.
  assert (Hn : ~ (inject_Z (Z.of_nat (List.length l)) == 0)%Q).
  { destruct l as [|x l]; [contradiction|].
    unfold Qeq. simpl. lia. }
  field. exact Hn.
Qed.

Lemma length_positive {A} (l : list A) :
  l <> [] -> (0 < inject_Z (Z.of_nat (List.length l)))%Q.
Proof.
  intros Hl. destruct l as [|x l]; [contradiction|].
  unfold Qlt. simpl. lia.
Qed.


Lemma sum_Q_bounds (a b : Q) (l : list Q) :
  (forall x, In x l -> (a <= x)%Q /\ (x <= b)%Q) ->
  (inject_Z (Z.of_nat (List.length l)) * a <= sum_Q l)%Q
  /\ (sum_Q l <= inject_Z (Z.of_nat (List.length l)) * b)%Q.
Proof.
  induction l as [|x l IH]; intros H.
  - cbn. split; ring_simplify; apply Qle_refl.
  - destruct IH as [IHa IHb]; [intros y Hy; apply H; now right|].
    destruct (H x (or_introl eq_refl)) as [Ha Hb].
    cbn [List.length sum_Q fold_right]. fold (sum_Q l).
    rewrite Nat2Z.inj_succ. unfold Z.succ. rewrite inject_Z_plus.
    split.
    + setoid_replace ((inject_Z (Z.of_nat (List.length l)) + inject_Z 1) * a)%Q
        with (a + inject_Z (Z.of_nat (List.length l)) * a)%Q by ring.
      now apply Qplus_le_compat.
    + setoid_replace ((inject_Z (Z.of_nat (List.length l)) + inject_Z 1) * b)%Q
        with (b + inject_Z (Z.of_nat (List.length l)) * b)%Q by ring.
      now apply Qplus_le_compat.
Qed.

(** The mean of values between [a] and [b] lies between [a] and [b]. *)
Lemma avg_bounds (a b : Q) (l : list Q) :
  l <> [] ->
  (forall x, In x l -> (a <= x)%Q /\ (x <= b)%Q) ->
  (a <= avg l)%Q /\ (avg l <= b)%Q.
Proof.
  intros Hl H. destruct (sum_Q_bounds a b l H) as [Ha Hb].
  pose proof (length_positive l Hl) as Hp. unfold avg. split.
  - apply Qle_shift_div_l; [exact Hp|]. now rewrite Qmult_comm.
  - apply Qle_shift_div_r; [exact Hp|]. now rewrite Qmult_comm.
Qed.















(** * Further properties *)

(** ** Updating and deleting in a collection *)

Section QueryFacts.
Context {doc : Type}.

Lemma findOneAndUpdate_cases (q : doc -> bool) (f : doc -> doc) (c : list doc) :
  (find q c = None /\ findOneAndUpdate q f c = c)
  \/ (exists pre d0 post,
         find q c = Some d0 /\ c = (pre ++ d0 :: post)%list
         /\ findOneAndUpdate q f c = (pre ++ f d0 :: post)%list
         /\ (forall d, In d pre -> q d = false)).
Proof.
  induction c as [|d c IH]; simpl.
  - left. auto.
  - destruct (q d) eqn:E.
    + right. exists [], d, c. simpl. repeat split. intros ? [].
    + destruct IH as [[Hn Hc] | (pre & d0 & post & Hf & Hc & Hu & Hpre)].
      * left. rewrite Hc. auto.
      * right. exists (d :: pre), d0, post. simpl. rewrite Hu, <- Hc.
        repeat split; try assumption.
        intros d' [<- | Hin]; auto.
Qed.

Lemma findOneAndDelete_cases (q : doc -> bool) (c : list doc) :
  (find q c = None /\ findOneAndDelete q c = c)
  \/ (exists pre d0 post,
         find q c = Some d0 /\ c = (pre ++ d0 :: post)%list
         /\ findOneAndDelete q c = (pre ++ post)%list
         /\ (forall d, In d pre -> q d = false)).
Proof.
  induction c as [|d c IH]; simpl.
  - left. auto.
  - destruct (q d) eqn:E.
    + right. exists [], d, c. simpl. repeat split. intros ? [].
    + destruct IH as [[Hn Hc] | (pre & d0 & post & Hf & Hc & Hu & Hpre)].
      * left. rewrite Hc. auto.
      * right. exists (d :: pre), d0, post. simpl. rewrite Hu, <- Hc.
        repeat split; try assumption.
        intros d' [<- | Hin]; auto.
Qed.

Lemma find_unique {K : Type} (key : doc -> K) (q : doc -> bool)
      (c : list doc) (d d0 : doc) :
  NoDup (List.map key c) -> In d c -> find q c = Some d0 ->
  key d0 = key d -> d0 = d.
Proof.
  intros Hnd Hin Hf Hk. apply find_some in Hf. destruct Hf as [Hin0 _].
  induction c as [|x c IH]; [contradiction|].
  simpl in Hnd. inversion Hnd as [|? ? Hx Hnd']; subst.
  destruct Hin as [-> | Hin], Hin0 as [-> | Hin0]; auto.
  - exfalso. apply Hx. rewrite <- Hk. now apply in_map.
  - exfalso. apply Hx. rewrite Hk. now apply in_map.
Qed.
End QueryFacts.

Lemma filter_length_app {A} (p : A -> bool) (l1 l2 : list A) :
  List.length (List.filter p (l1 ++ l2))
  = (List.length (List.filter p l1) + List.length (List.filter p l2))%nat.
Proof. rewrite filter_app, length_app. reflexivity. Qed.

(** ** Reading and deleting a booking *)

Lemma includes_deletable (s : BookingStatus) :
  includes ["pending"; "cancelled"] (status_name s) = true
  <-> s = pending \/ s = cancelled.
Proof.
  destruct s; simpl; split; intros H; auto; try discriminate;
    destruct H; discriminate.
Qed.

(** X1.  A requester who is neither the user nor the seller of a booking nor
    an admin is answered 401 by [getBooking], [updateBooking] and
    [deleteBooking] alike, whatever the request asks for, and the database
    stays as it was. *)
Theorem outsider_cannot_touch_booking :
  forall bid u status reason db booking,
    findById Booking._id bid (bookings db) = Some booking ->
    id u <> Booking.user booking ->
    id u <> Booking.seller booking ->
    role u <> "admin" ->
    (exists m, getBooking (mkBookingReq bid u) db = ErrorResponse m 401%nat)
    /\ (exists m,
           updateBooking (mkUpdateBookingReq bid u status reason) db
           = (db, ErrorResponse m 401%nat))
    /\ (exists m,
           deleteBooking (mkBookingReq bid u) db = (db, ErrorResponse m 401%nat)).
Proof.
  intros bid u status reason db booking Hf Hu Hs Hr.
  assert (Ha : authorized u booking = false).
  { rewrite authorized_admin. now apply String.eqb_neq. }
  unfold getBooking, updateBooking, deleteBooking. simpl.
  rewrite Hf, Ha. simpl. repeat split; eexists; reflexivity.
Qed.

Lemma outsider_cannot_touch_booking_witness :
  exists m,
    deleteBooking (mkBookingReq 2%nat other_buyer) (shop 3 [reservation pending])
    = (shop 3 [reservation pending], ErrorResponse m 401%nat).
Proof.
  refine (proj2 (proj2 (outsider_cannot_touch_booking 2%nat other_buyer None None
                          (shop 3 [reservation pending]) (reservation pending)
                          eq_refl _ _ _)));
    simpl; discriminate.
Defined.

(** X2.  [deleteBooking] answers 200 exactly when the booking exists, the
    requester is an admin, and the status of the booking is pending or
    cancelled; the user and the seller of the booking do not pass the guard,
    which compares their id with the populated [user] and [seller].  On 200
    the booking is taken out of the collection and nothing else is written:
    the offers keep their available quantity, also when the booking deleted
    was pending.  In every other case the database stays as it was. *)
Theorem deleteBooking_result :
  forall req db db' resp,
    deleteBooking req db = (db', resp) ->
    (isError resp = false
     <-> exists booking,
         findById Booking._id (bk_id req) (bookings db) = Some booking
         /\ role (bk_user req) = "admin"
         /\ (Booking.status booking = pending
             \/ Booking.status booking = cancelled))
    /\ (isError resp = true -> db' = db)
    /\ (isError resp = false ->
        exists pre booking post,
          findById Booking._id (bk_id req) (bookings db) = Some booking
          /\ bookings db = (pre ++ booking :: post)%list
          /\ bookings db' = (pre ++ post)%list
          /\ (forall b, In b pre -> Booking._id b <> bk_id req))
    /\ offers db' = offers db.
Proof.
  intros req db db' resp. unfold deleteBooking.
  destruct (findById Booking._id (bk_id req) (bookings db)) as [booking|] eqn:Hf.
  2:{ intros H; inversion H; subst. simpl.
      split; [split; [discriminate | intros (b & Hb & _); discriminate]|].
      split; [reflexivity|]. split; [discriminate | reflexivity]. }
  rewrite authorized_admin.
  destruct (String.eqb (role (bk_user req)) "admin") eqn:Ha; cbn [negb].
  2:{ intros H; inversion H; subst. simpl. apply String.eqb_neq in Ha.
      split; [split; [discriminate | intros (b & Hb & Hab & _); contradiction]|].
      split; [reflexivity|]. split; [discriminate | reflexivity]. }
  apply String.eqb_eq in Ha.
  destruct (includes ["pending"; "cancelled"] (status_name (Booking.status booking)))
    eqn:Hs; cbn [negb].
  2:{ intros H; inversion H; subst. simpl.
      split; [split; [discriminate|]|].
      - intros (b & Hb & _ & Hst). inversion Hb; subst b.
        apply includes_deletable in Hst. congruence.
      - split; [reflexivity|]. split; [discriminate | reflexivity]. }
  intros H; inversion H; subst; clear H. simpl.
  apply includes_deletable in Hs.
  destruct (findById_key _ _ _ _ Hf) as [Hid _].
  split; [split; [intros _; eauto | reflexivity]|].
  split; [discriminate|]. split; [|reflexivity].
  intros _. rewrite Hid.
  destruct (findOneAndDelete_cases
              (fun b => Nat.eqb (Booking._id b) (bk_id req)) (bookings db))
    as [[Hn _] | (pre & d0 & post & Hd & Hc & Hu & Hpre)].
  - unfold findById, findOne in Hf. congruence.
  - unfold findById, findOne in Hf. rewrite Hf in Hd. inversion Hd; subst d0.
    exists pre, booking, post. repeat split; try assumption.
    intros b Hb. apply Hpre in Hb. now apply Nat.eqb_neq.
Qed.

Lemma deleteBooking_result_witness :
  isError (snd (deleteBooking (mkBookingReq 2%nat administrator)
                  (shop 3 [reservation pending]))) = false
  /\ isError (snd (deleteBooking (mkBookingReq 2%nat buyer)
                     (shop 3 [reservation pending]))) = true
  /\ offers (fst (deleteBooking (mkBookingReq 2%nat administrator)
                    (shop 3 [reservation pending])))
     = offers (shop 3 [reservation pending]).
Proof.
  pose proof (deleteBooking_result (mkBookingReq 2%nat administrator)
                (shop 3 [reservation pending]) _ _ (surjective_pairing _))
    as (Hiff & _ & _ & Hoffers).
  pose proof (deleteBooking_result (mkBookingReq 2%nat buyer)
                (shop 3 [reservation pending]) _ _ (surjective_pairing _))
    as (Hiff' & _).
  split; [|split; [|exact Hoffers]].
  - apply Hiff. exists (reservation pending).
    split; [reflexivity|]. split; [reflexivity | left; reflexivity].
  - destruct (isError (snd (deleteBooking (mkBookingReq 2%nat buyer)
                              (shop 3 [reservation pending])))) eqn:E;
      [reflexivity|].
    destruct (proj1 Hiff' eq_refl) as (b & _ & Hrole & _). discriminate Hrole.
Defined.

Lemma find_app_tail {A} (q : A -> bool) (l : list A) (b : A) :
  (forall x, In x l -> q x = false) -> q b = true ->
  find q (l ++ [b]) = Some b /\ findOneAndDelete q (l ++ [b]) = l.
Proof.
  intros Hl Hb. induction l as [|x l IH]; simpl.
  - rewrite Hb. auto.
  - rewrite (Hl x (or_introl eq_refl)).
    destruct IH as [IH1 IH2]; [intros y Hy; apply Hl; now right|].
    rewrite IH1, IH2. auto.
Qed.

(** X3.  A pending booking that an admin deletes right after it was
    created does not give its quantity back: the bookings are as before the
    two requests, and the offer has lost the quantity. *)
Theorem addBooking_then_deleteBooking_loses_quantity :
  forall fuel rnd req db db1 b u,
    addBooking fuel rnd req db = Some (db1, Json 201%nat b) ->
    Booking.status b = pending ->
    role u = "admin" ->
    (forall b0, In b0 (bookings db) -> Booking._id b0 <> nextId db) ->
    exists available db2,
      availableQuantity_of (add_offerId req) db = Some available
      /\ deleteBooking (mkBookingReq (Booking._id b) u) db1
         = (db2, Json 200%nat tt)
      /\ bookings db2 = bookings db
      /\ availableQuantity_of (add_offerId req) db2
         = Some (available - Booking.quantity b).
Proof.
  intros fuel rnd req db db1 b u Hadd Hst Hrole Hfresh.
  apply addBooking_created in Hadd.
  destruct Hadd as (offer & code & rnd' & q & st & Hf & _ & _ & Hb & Hoff & Hbs).
  assert (Hid : Booking._id b = nextId db) by (subst b; reflexivity).
  assert (Ho : Booking.offer b = add_offerId req) by (subst b; reflexivity).
  destruct (find_app_tail (fun b0 => Nat.eqb (Booking._id b0) (Booking._id b))
              (bookings db) b) as [Hfind Hdel].
  { intros x Hx. apply Nat.eqb_neq. rewrite Hid. now apply Hfresh. }
  { apply Nat.eqb_refl. }
  exists (Offer.availableQuantity offer).
  unfold deleteBooking. cbn [bk_id bk_user].
  unfold findById, findOne. rewrite Hbs, Hfind.
  rewrite authorized_admin, Hrole, Hst. cbn [negb status_name].
  change (String.eqb "admin" "admin") with true.
  change (includes ["pending"; "cancelled"] "pending") with true. cbn [negb].
  eexists. split; [|split; [reflexivity|split]].
  - unfold availableQuantity_of. rewrite Hf. reflexivity.
  - cbn [bookings with_bookings]. exact Hdel.
  - rewrite (availableQuantity_of_offers (add_offerId req) db1)
      by reflexivity.
    rewrite Hoff. unfold Booking_pre_save.
    rewrite Hst. cbn [status_eqb]. rewrite andb_false_r, Ho.
    rewrite availableQuantity_of_inc. unfold availableQuantity_of.
    rewrite Hf. simpl. f_equal; lia.
Qed.

Lemma addBooking_then_deleteBooking_loses_quantity_witness :
  exists available db2,
    availableQuantity_of 1%nat (shop 3 []) = Some available
    /\ bookings db2 = []
    /\ availableQuantity_of 1%nat db2 = Some (available - 2).
Proof.
  destruct (addBooking_then_deleteBooking_loses_quantity 1%nat draws
              (mkAddBookingReq 1%nat other_buyer (Some 2) None 1500 nothing_else)
              (shop 3 [])
              (mkDB [bread 1]
                 [Booking.mk 3%nat 1%nat 12%nat 10%nat 2 160 pending "AAAAAA"
                    1000 None None None]
                 [Store.mk 20%nat 10%nat None] []
                 [Notification.mk 10%nat "New Booking!" "booking_created"] 4%nat)
              (Booking.mk 3%nat 1%nat 12%nat 10%nat 2 160 pending "AAAAAA" 1000
                 None None None)
              administrator
              eq_refl eq_refl eq_refl (fun b0 H => match H with end))
    as (available & db2 & Ha & _ & Hb & Hq).
  exists available, db2. repeat split; assumption.
Defined.

(** ** What an update may change *)

Lemma findOneAndUpdate_map {A B} (g : A -> B) (q : A -> bool) (f : A -> A)
      (c : list A) :
  (forall d, g (f d) = g d) ->
  List.map g (findOneAndUpdate q f c) = List.map g c.
Proof.
  intros Hg. induction c as [|d c IH]; simpl; [reflexivity|].
  destruct (q d); simpl; [now rewrite Hg | now rewrite IH].
Qed.

Lemma Booking_update_validate_protects (u : UpdateObj)
      (f : Booking.doc -> Booking.doc) :
  Booking_update_validate u = inr f ->
  forall b, protected_paths (f b) = protected_paths b.
Proof.
  unfold Booking_update_validate. intros H b.
  destruct (set_status u) as [s|];
    [destruct (status_of_string s); [|discriminate]|];
    (destruct (set_cancelledBy u) as [c|];
     [destruct (includes cancelledBy_enum c); [|discriminate]|]);
    inversion H; subst; destruct (set_cancellationReason u); reflexivity.
Qed.

Lemma updateBooking_write_protects (bid : ObjectId) (u : UpdateObj) (db : DB) :
  List.map protected_paths (bookings (fst (updateBooking_write bid u db)))
  = List.map protected_paths (bookings db).
Proof.
  unfold updateBooking_write.
  destruct (Booking_update_validate u) as [m|f] eqn:E; [reflexivity|].
  simpl. apply findOneAndUpdate_map.
  exact (Booking_update_validate_protects u f E).
Qed.

(** X4.  Whatever the request, [updateBooking] adds and removes no booking
    and leaves on every booking the identifier, the offer, the user, the
    seller, the quantity, the total price, the pickup code and the pickup
    time as they were; it writes to no offer. *)
Theorem updateBooking_protects_paths :
  forall req db,
    List.map protected_paths (bookings (fst (updateBooking req db)))
    = List.map protected_paths (bookings db)
    /\ offers (fst (updateBooking req db)) = offers db.
Proof.
  intros req db. split; [|apply updateBooking_leaves_offers].
  unfold updateBooking.
  destruct (findById Booking._id (upd_id req) (bookings db)) as [booking|];
    [|reflexivity].
  destruct (negb (authorized (upd_user req) booking)); [reflexivity|].
  destruct (upd_status req) as [status|];
    [|apply updateBooking_write_protects].
  destruct (String.eqb status ""); [apply updateBooking_write_protects|].
  destruct (negb (includes (validTransitions (Booking.status booking)) status));
    [reflexivity|].
  destruct (String.eqb status "cancelled").
  - rewrite updateBooking_write_protects. reflexivity.
  - destruct (String.eqb status "completed");
      rewrite updateBooking_write_protects; reflexivity.
Qed.

(** X5.  An admin cannot cancel a booking through [updateBooking]: the
    value 'admin' that the handler puts into [cancelledBy] is not of the
    enum of that path, so the request ends in an error whatever the booking,
    and no booking and no offer is changed. *)
Theorem updateBooking_admin_cannot_cancel :
  forall req db,
    role (upd_user req) = "admin" ->
    upd_status req = Some "cancelled" ->
    isError (snd (updateBooking req db)) = true
    /\ bookings (fst (updateBooking req db)) = bookings db
    /\ offers (fst (updateBooking req db)) = offers db.
Proof.
  intros req db Hrole Hst.
  split; [|split; [|apply updateBooking_leaves_offers]];
    unfold updateBooking; rewrite Hst, Hrole;
    (destruct (findById Booking._id (upd_id req) (bookings db)) as [booking|];
     [|reflexivity]);
    (destruct (negb (authorized (upd_user req) booking)); [reflexivity|]);
    cbn [String.eqb Ascii.eqb Bool.eqb];
    (destruct (negb (includes (validTransitions (Booking.status booking))
                       "cancelled")); [reflexivity|]);
    unfold updateBooking_write, Booking_update_validate; simpl;
    reflexivity.
Qed.

Lemma updateBooking_admin_cannot_cancel_witness :
  isError (snd (updateBooking
                  (mkUpdateBookingReq 2%nat (mkUser 1%nat "admin")
                     (Some "cancelled") None)
                  (shop 3 [reservation pending]))) = true
  /\ bookings (fst (updateBooking
                      (mkUpdateBookingReq 2%nat (mkUser 1%nat "admin")
                         (Some "cancelled") None)
                      (shop 3 [reservation pending])))
     = [reservation pending].
Proof.
  destruct (updateBooking_admin_cannot_cancel
              (mkUpdateBookingReq 2%nat (mkUser 1%nat "admin")
                 (Some "cancelled") None)
              (shop 3 [reservation pending]) eq_refl eq_refl)
    as (He & Hb & _).
  split; [exact He | exact Hb].
Defined.

(** ** Completing with a pickup code *)


Lemma find_all_false {A} (q : A -> bool) (l : list A) :
  (forall x, In x l -> q x = false) -> find q l = None.
Proof.
  induction l as [|x l IH]; simpl; intros H; [reflexivity|].
  rewrite (H x (or_introl eq_refl)). apply IH. intros y Hy. apply H. now right.
Qed.

(** X7.  A pickup code verifies but never completes.  [verifyPickupCode]
    answers 200 exactly when an open booking carries the code and the
    requester is the seller of the first such booking, reading the [_id] of
    the populated seller.  [completeBookingWithCode] compares the populated
    seller itself with the id of the requester: it answers 401 whenever an
    open booking carries the code, also to the seller for whom the code has
    just verified, and 404 otherwise; it never writes. *)
Theorem pickupCode_verifies_but_never_completes :
  forall req db,
    (forall b,
        verifyPickupCode req db = Json 200%nat b
        <-> findOne
              (fun b0 => String.eqb (Booking.pickupCode b0) (cmp_code req)
                         && open_status (Booking.status b0))
              (bookings db) = Some b
            /\ Booking.seller b = id (cmp_user req))
    /\ (forall b,
           verifyPickupCode req db = Json 200%nat b ->
           In b (bookings db)
           /\ Booking.pickupCode b = cmp_code req
           /\ (Booking.status b = pending \/ Booking.status b = confirmed)
           /\ completeBookingWithCode req db
              = (db, ErrorResponse
                       "You are not authorized to complete this booking"
                       401%nat))
    /\ fst (completeBookingWithCode req db) = db
    /\ isError (snd (completeBookingWithCode req db)) = true.
Proof.
  intros req db.
  assert (Hverify :
            forall b,
              verifyPickupCode req db = Json 200%nat b
              <-> findOne
                    (fun b0 => String.eqb (Booking.pickupCode b0) (cmp_code req)
                               && open_status (Booking.status b0))
                    (bookings db) = Some b
                  /\ Booking.seller b = id (cmp_user req)).
  { intros b. unfold verifyPickupCode.
    destruct (findOne _ (bookings db)) as [stored|];
      [|split; [discriminate | intros [H _]; discriminate]].
    cbn [populateReferences Found.seller Ref_id].
    destruct (Nat.eqb (Booking.seller stored) (id (cmp_user req))) eqn:E;
      cbn [negb].
    - apply Nat.eqb_eq in E. split.
      + intros H. injection H as <-. auto.
      + intros [H _]. injection H as <-. reflexivity.
    - apply Nat.eqb_neq in E. split; [discriminate|].
      intros [H Hs]. injection H as <-. contradiction. }
  split; [exact Hverify|]. split; [|split].
  - intros b Hb. apply Hverify in Hb. destruct Hb as [Hf _].
    rewrite completeBookingWithCode_refuses, Hf.
    unfold findOne in Hf. apply find_some in Hf. destruct Hf as [Hin Hp].
    apply andb_true_iff in Hp. destruct Hp as [Hcode Hopen].
    apply String.eqb_eq in Hcode. apply open_status_iff in Hopen. auto.
  - now rewrite completeBookingWithCode_refuses.
  - rewrite completeBookingWithCode_refuses.
    destruct (findOne _ (bookings db)); reflexivity.
Qed.

Lemma pickupCode_verifies_but_never_completes_witness :
  verifyPickupCode (mkCompleteReq "AAAAAA" baker) (shop 3 [reservation pending])
  = Json 200%nat (reservation pending)
  /\ completeBookingWithCode (mkCompleteReq "AAAAAA" baker)
       (shop 3 [reservation pending])
     = (shop 3 [reservation pending],
        ErrorResponse "You are not authorized to complete this booking" 401%nat).
Proof.
  destruct (pickupCode_verifies_but_never_completes
              (mkCompleteReq "AAAAAA" baker) (shop 3 [reservation pending]))
    as (Hverify & Hcomplete & _).
  assert (H : verifyPickupCode (mkCompleteReq "AAAAAA" baker)
                (shop 3 [reservation pending])
              = Json 200%nat (reservation pending))
    by (apply Hverify; split; reflexivity).
  split; [exact H|]. exact (proj2 (proj2 (proj2 (Hcomplete _ H)))).
Defined.

(** ** Invariants of the booking requests *)

Lemma generatePickupCode_absent :
  forall fuel rnd bs code rnd',
    generatePickupCode fuel rnd bs = Some (code, rnd') ->
    forall b, In b bs -> Booking.pickupCode b <> code.
Proof.
  induction fuel as [|fuel IH]; intros rnd bs code rnd' H; [discriminate|].
  cbn [generatePickupCode] in H.
  destruct (draw_code 6 rnd "") as [[code0 rnd0]|]; [|discriminate].
  destruct (findOne _ bs) eqn:Hfind; [eapply IH; eassumption|].
  inversion H; subst. intros b Hb Heq. unfold findOne in Hfind.
  apply (find_none _ _ Hfind) in Hb. simpl in Hb.
  rewrite Heq, String.eqb_refl in Hb. discriminate.
Qed.

(** The bookings that a request of [addBooking] leaves: those before, with
    at most one new booking at the end. *)
Lemma addBooking_bookings :
  forall fuel rnd req db db' resp,
    addBooking fuel rnd req db = Some (db', resp) ->
    db' = db
    \/ exists b,
        bookings db' = (bookings db ++ [b])%list
        /\ nextId db' = S (nextId db)
        /\ Booking._id b = nextId db
        /\ existingBooking (Booking.user b) (Booking.offer b) (bookings db) = None
        /\ (forall b0, In b0 (bookings db) ->
                       Booking.pickupCode b0 <> Booking.pickupCode b).
Proof.
  intros fuel rnd req db db' resp. unfold addBooking.
  destruct (findById Offer._id (add_offerId req) (offers db)) as [offer|];
    [|intros H; inversion H; auto].
  destruct (negb (Offer.isActive offer) || (Offer.availableQuantity offer <=? 0));
    [intros H; inversion H; auto|].
  destruct (Offer.pickupEnd offer <? add_now req); [intros H; inversion H; auto|].
  destruct (Nat.eqb (id (add_user req)) (Offer.seller offer));
    [intros H; inversion H; auto|].
  destruct (existingBooking _ _ _) eqn:Hex; [intros H; inversion H; auto|].
  destruct (generatePickupCode fuel rnd (bookings db)) as [[code rnd']|] eqn:Hgen;
    [|discriminate].
  unfold Booking_create.
  destruct (Booking_validate (add_quantity req) (add_status req) (add_rest req))
    as [m | [q st]]; [intros H; inversion H; auto|].
  intros H; injection H as Hdb _; subst db'. right.
  exists (Booking.mk (nextId db) (add_offerId req) (id (add_user req))
            (Offer.seller offer) q
            (Offer.discountedPrice offer * or_default (add_quantity req) 1)
            st code (Offer.pickupStart offer)
            (rest_rating (add_rest req))
            (rest_cancellationReason (add_rest req))
            (rest_cancelledBy (add_rest req))).
  split; [|split; [|split; [reflexivity|split]]].
  - cbn [Notification_create bookings]. rewrite bookings_post_save.
    cbn [bookings]. f_equal.
    unfold Booking_pre_save, inc_availableQuantity. cbn [Booking.status].
    destruct (match add_status req with Some _ => true | None => false end
              && status_eqb st cancelled); reflexivity.
  - cbn [Notification_create nextId]. rewrite nextId_post_save.
    cbn [nextId]. f_equal.
    unfold Booking_pre_save, inc_availableQuantity. cbn [Booking.status].
    destruct (match add_status req with Some _ => true | None => false end
              && status_eqb st cancelled); reflexivity.
  - exact Hex.
  - exact (generatePickupCode_absent _ _ _ _ _ Hgen).
Qed.

(** The write of [updateBooking] for a status of the enum: nothing, or one
    booking moved to that status with every protected path kept. *)
Lemma updateBooking_write_bookings (bid : ObjectId) (u : UpdateObj) (db : DB)
      (s : string) (to : BookingStatus) :
  set_status u = Some s -> status_of_string s = Some to ->
  nextId (fst (updateBooking_write bid u db)) = nextId db
  /\ (bookings (fst (updateBooking_write bid u db)) = bookings db
      \/ exists f,
          bookings (fst (updateBooking_write bid u db))
          = findByIdAndUpdate Booking._id bid f (bookings db)
          /\ (forall x, Booking.status (f x) = to
                        /\ protected_paths (f x) = protected_paths x)).
Proof.
  intros Hs Hto. unfold updateBooking_write.
  destruct (Booking_update_validate u) as [m|f] eqn:E; [auto|].
  split; [reflexivity|]. cbn [fst bookings with_bookings].
  right. exists f. split; [reflexivity|].
  unfold Booking_update_validate in E. rewrite Hs, Hto in E.
  intros x.
  destruct (set_cancelledBy u) as [c|];
    [destruct (includes cancelledBy_enum c); [|discriminate]|];
    inversion E; subst; destruct (set_cancellationReason u); split; reflexivity.
Qed.

(** The bookings that a request of [updateBooking] leaves: those before, or
    those before with the booking addressed moved along a transition of the
    table. *)
Lemma updateBooking_bookings (req : UpdateBookingReq) (db : DB) :
  nextId (fst (updateBooking req db)) = nextId db
  /\ (bookings (fst (updateBooking req db)) = bookings db
      \/ exists booking f to,
          findById Booking._id (upd_id req) (bookings db) = Some booking
          /\ allowed_transition (Booking.status booking) to
          /\ bookings (fst (updateBooking req db))
             = findByIdAndUpdate Booking._id (upd_id req) f (bookings db)
          /\ (forall x, Booking.status (f x) = to
                        /\ protected_paths (f x) = protected_paths x)).
Proof.
  unfold updateBooking.
  destruct (findById Booking._id (upd_id req) (bookings db)) as [booking|] eqn:Hf;
    [|auto].
  destruct (negb (authorized (upd_user req) booking)); [auto|].
  destruct (upd_status req) as [status|];
    [|rewrite updateBooking_write_nothing; auto].
  destruct (String.eqb status ""); [rewrite updateBooking_write_nothing; auto|].
  destruct (includes (validTransitions (Booking.status booking)) status) eqn:Hin;
    cbn [negb]; [|auto].
  destruct (includes_transition _ _ Hin) as (to & Hto & Hallowed).
  assert (Hcase :
            forall u db1,
              nextId db1 = nextId db -> bookings db1 = bookings db ->
              set_status u = Some status ->
              nextId (fst (updateBooking_write (upd_id req) u db1)) = nextId db
              /\ (bookings (fst (updateBooking_write (upd_id req) u db1))
                  = bookings db
                  \/ exists booking0 f to0,
                      Some booking = Some booking0
                      /\ allowed_transition (Booking.status booking0) to0
                      /\ bookings (fst (updateBooking_write (upd_id req) u db1))
                         = findByIdAndUpdate Booking._id (upd_id req) f
                             (bookings db)
                      /\ (forall x, Booking.status (f x) = to0
                                    /\ protected_paths (f x) = protected_paths x))).
  { intros u db1 Hn Hb Hu.
    destruct (updateBooking_write_bookings (upd_id req) u db1 status to Hu Hto)
      as [Hn' [Hsame | (f & Hupd & Hfx)]].
    - split; [congruence|]. left. congruence.
    - split; [congruence|]. right. exists booking, f, to.
      rewrite <- Hb. auto. }
  destruct (String.eqb status "cancelled").
  - apply Hcase; reflexivity.
  - destruct (String.eqb status "completed"); apply Hcase; reflexivity.
Qed.

Lemma completeBookingWithCode_fst (req : CompleteReq) (db : DB) :
  fst (completeBookingWithCode req db) = db.
Proof. now rewrite completeBookingWithCode_refuses. Qed.

Lemma deleteBooking_bookings (req : BookingReq) (db : DB) :
  nextId (fst (deleteBooking req db)) = nextId db
  /\ (bookings (fst (deleteBooking req db)) = bookings db
      \/ exists pre booking post,
          bookings db = (pre ++ booking :: post)%list
          /\ bookings (fst (deleteBooking req db)) = (pre ++ post)%list
          /\ Booking._id booking = bk_id req).
Proof.
  unfold deleteBooking.
  destruct (findById Booking._id (bk_id req) (bookings db)) as [booking|] eqn:Hf;
    [|auto].
  destruct (negb (authorized (bk_user req) booking)); [auto|].
  destruct (negb (includes ["pending"; "cancelled"]
                    (status_name (Booking.status booking)))); [auto|].
  split; [reflexivity|]. cbn [fst bookings with_bookings].
  destruct (findById_key _ _ _ _ Hf) as [Hid _]. rewrite Hid.
  destruct (findOneAndDelete_cases
              (fun b => Nat.eqb (Booking._id b) (bk_id req)) (bookings db))
    as [[_ Hc] | (pre & d0 & post & Hd & Hc & Hu & _)]; [auto|].
  right. exists pre, d0, post. repeat split; try assumption.
  apply find_some in Hd. destruct Hd as [_ Hd]. now apply Nat.eqb_eq in Hd.
Qed.

Lemma find_app {A} (q : A -> bool) (l1 l2 : list A) :
  find q (l1 ++ l2)
  = match find q l1 with Some x => Some x | None => find q l2 end.
Proof.
  induction l1 as [|x l1 IH]; simpl; [reflexivity|].
  destruct (q x); [reflexivity | exact IH].
Qed.

Lemma filter_find_None {A} (q : A -> bool) (l : list A) :
  find q l = None -> List.filter q l = [].
Proof.
  induction l as [|x l IH]; simpl; [reflexivity|].
  destruct (q x); [discriminate | exact IH].
Qed.

Lemma filter_length_update {A} (p q : A -> bool) (f : A -> A) (c : list A) :
  (forall d0, find q c = Some d0 -> p (f d0) = true -> p d0 = true) ->
  (List.length (List.filter p (findOneAndUpdate q f c))
   <= List.length (List.filter p c))%nat.
Proof.
  intros H.
  destruct (findOneAndUpdate_cases q f c)
    as [[_ ->] | (pre & d0 & post & Hf & Hc & -> & _)]; [lia|].
  specialize (H d0 Hf). rewrite Hc, !filter_length_app. simpl.
  destruct (p (f d0)) eqn:E; [rewrite (H eq_refl); simpl; lia|].
  destruct (p d0); simpl; lia.
Qed.

Lemma open_bookings_step (db : DB) (op : BookingOp) (userId offerId : ObjectId) :
  (List.length (open_bookings userId offerId (bookings db)) <= 1)%nat ->
  (List.length (open_bookings userId offerId (bookings (apply_op db op))) <= 1)%nat.
Proof.
  intros Hinv. destruct op as [fuel rnd req | req | req | req]; cbn [apply_op].
  - destruct (addBooking fuel rnd req db) as [[db' resp]|] eqn:Hadd; [|exact Hinv].
    destruct (addBooking_bookings _ _ _ _ _ _ Hadd)
      as [-> | (b & Hb & _ & _ & Hex & _)]; [exact Hinv|].
    rewrite Hb. unfold open_bookings in *. rewrite filter_length_app. simpl.
    destruct (Nat.eqb (Booking.user b) userId && Nat.eqb (Booking.offer b) offerId
              && open_status (Booking.status b)) eqn:E; [|simpl; lia].
    rewrite !andb_true_iff, !Nat.eqb_eq in E. destruct E as [[<- <-] _].
    unfold existingBooking, findOne in Hex.
    rewrite (filter_find_None _ _ Hex). simpl. lia.
  - destruct (updateBooking_bookings req db)
      as [_ [-> | (booking & f & to & Hf & Hallowed & -> & Hfx)]]; [exact Hinv|].
    etransitivity; [|exact Hinv]. unfold open_bookings, findByIdAndUpdate.
    apply filter_length_update. intros d0 Hd0 Hp.
    unfold findById, findOne in Hf. rewrite Hf in Hd0. inversion Hd0; subst d0.
    destruct (Hfx booking) as [Hst Hprot]. unfold protected_paths in Hprot.
    assert (Hu : Booking.user (f booking) = Booking.user booking)
      by congruence.
    assert (Ho : Booking.offer (f booking) = Booking.offer booking)
      by congruence.
    clear Hprot. rewrite Hu, Ho, Hst in Hp. apply andb_true_iff in Hp.
    destruct Hp as [Huo Hopen]. cbv beta. rewrite Huo. cbn [andb].
    apply open_status_iff in Hopen. apply open_status_iff.
    destruct Hallowed as [[Hfrom _] | [Hfrom Hto]]; [auto|].
    destruct Hopen as [-> | ->]; destruct Hto; discriminate.
  - destruct (deleteBooking_bookings req db)
      as [_ [-> | (pre & booking & post & Hc & -> & _)]]; [exact Hinv|].
    etransitivity; [|exact Hinv]. unfold open_bookings.
    rewrite Hc, !filter_length_app. simpl.
    match goal with |- context [if ?c then _ else _] => destruct c end;
      simpl; lia.
  - rewrite completeBookingWithCode_fst. exact Hinv.
Qed.

(** X8.  No user ever holds two open bookings of one offer: if no user holds
    two pending or confirmed bookings of the same offer, then this is still
    so after any sequence of requests to [addBooking], [updateBooking],
    [deleteBooking] and [completeBookingWithCode]. *)
Theorem one_open_booking_kept :
  forall ops db, one_open_booking db -> one_open_booking (run ops db).
Proof.
  unfold run. induction ops as [|op ops IH]; intros db Hinv; [exact Hinv|].
  simpl. apply IH. intros userId offerId.
  apply open_bookings_step, Hinv.
Qed.

Lemma one_open_booking_kept_witness :
  one_open_booking
    (run [AddBooking 1%nat draws
            (mkAddBookingReq 1%nat other_buyer (Some 1) None 1500 nothing_else);
          AddBooking 1%nat (skipn 6 draws)
            (mkAddBookingReq 1%nat other_buyer (Some 1) None 1500 nothing_else);
          UpdateBooking
            (mkUpdateBookingReq 3%nat baker (Some "confirmed") None)]
       (shop 3 [])).
Proof.
  apply one_open_booking_kept.
  intros userId offerId. simpl. lia.
Defined.

Lemma protected_id (f : Booking.doc -> Booking.doc) :
  (forall x, protected_paths (f x) = protected_paths x) ->
  (forall x, Booking._id (f x) = Booking._id x)
  /\ (forall x, Booking.pickupCode (f x) = Booking.pickupCode x).
Proof.
  intros H. split; intros x; specialize (H x); unfold protected_paths in H;
    congruence.
Qed.

Lemma unique_bookings_step (db : DB) (op : BookingOp) :
  unique_bookings db -> unique_bookings (apply_op db op).
Proof.
  intros (Hid & Hcode & Hlt).
  destruct op as [fuel rnd req | req | req | req]; cbn [apply_op].
  - destruct (addBooking fuel rnd req db) as [[db' resp]|] eqn:Hadd;
      [|repeat split; assumption].
    destruct (addBooking_bookings _ _ _ _ _ _ Hadd)
      as [-> | (b & Hb & Hn & Hbid & _ & Hfresh)]; [repeat split; assumption|].
    unfold unique_bookings. rewrite Hb, Hn, !map_app. simpl.
    split; [|split].
    + apply NoDup_app; [exact Hid | repeat constructor; intros [] |].
      intros a Ha [<- | []]. apply in_map_iff in Ha.
      destruct Ha as (x & Hx & Hin). apply Hlt in Hin. lia.
    + apply NoDup_app; [exact Hcode | repeat constructor; intros [] |].
      intros a Ha [<- | []]. apply in_map_iff in Ha.
      destruct Ha as (x & Hx & Hin). exact (Hfresh x Hin Hx).
    + intros x Hx. apply in_app_or in Hx. destruct Hx as [Hx | [<- | []]].
      * apply Hlt in Hx. lia.
      * lia.
  - destruct (updateBooking_bookings req db)
      as [Hn [Hb | (booking & f & to & _ & _ & Hb & Hfx)]];
      unfold unique_bookings; rewrite Hn, Hb; [repeat split; assumption|].
    destruct (protected_id f (fun x => proj2 (Hfx x))) as [Hfi Hfc].
    unfold findByIdAndUpdate.
    rewrite (findOneAndUpdate_map Booking._id _ f _ Hfi).
    rewrite (findOneAndUpdate_map Booking.pickupCode _ f _ Hfc).
    split; [exact Hid | split; [exact Hcode|]].
    intros x Hx. apply (in_map Booking._id) in Hx.
    rewrite (findOneAndUpdate_map Booking._id _ f _ Hfi) in Hx.
    apply in_map_iff in Hx. destruct Hx as (y & <- & Hy). now apply Hlt.
  - destruct (deleteBooking_bookings req db)
      as [Hn [Hb | (pre & booking & post & Hc & Hb & _)]];
      unfold unique_bookings; rewrite Hn, Hb; [repeat split; assumption|].
    rewrite Hc, !map_app in Hid, Hcode. simpl in Hid, Hcode.
    apply NoDup_remove_1 in Hid, Hcode. rewrite !map_app.
    split; [exact Hid | split; [exact Hcode|]].
    intros x Hx. apply Hlt. rewrite Hc.
    apply in_app_or in Hx. apply in_or_app. simpl. tauto.
  - rewrite completeBookingWithCode_fst. repeat split; assumption.
Qed.

(** X9.  Identifiers and pickup codes stay unique: if the bookings have
    pairwise distinct identifiers, all below the next identifier to hand
    out, and pairwise distinct pickup codes, then this is still so after any
    sequence of requests to [addBooking], [updateBooking], [deleteBooking]
    and [completeBookingWithCode]. *)
Theorem unique_bookings_kept :
  forall ops db, unique_bookings db -> unique_bookings (run ops db).
Proof.
  unfold run. induction ops as [|op ops IH]; intros db Hinv; [exact Hinv|].
  simpl. apply IH, unique_bookings_step, Hinv.
Qed.

Lemma unique_bookings_kept_witness :
  unique_bookings
    (run [AddBooking 2%nat draws
            (mkAddBookingReq 1%nat other_buyer (Some 1) None 1500 nothing_else);
          CompleteBookingWithCode (mkCompleteReq "AAAAAA" baker)]
       (shop 3 [reservation pending])).
Proof.
  apply unique_bookings_kept.
  unfold unique_bookings. simpl.
  repeat split; try (repeat constructor; simpl; tauto).
  intros b [<- | []]. simpl. lia.
Defined.

(** The status of the booking [bid] across one request, once it is closed
    or the booking is gone. *)
Lemma closed_status_step (db : DB) (op : BookingOp) (bid : ObjectId)
      (s : BookingStatus) :
  closed_status s ->
  unique_bookings db ->
  (bid < nextId db)%nat ->
  status_of bid db = Some s \/ status_of bid db = None ->
  (bid < nextId (apply_op db op))%nat
  /\ (status_of bid (apply_op db op) = Some s
      \/ status_of bid (apply_op db op) = None).
Proof.
  intros [Hs1 Hs2] (Hid & _ & Hlt) Hbid Hst.
  destruct op as [fuel rnd req | req | req | req]; cbn [apply_op].
  - destruct (addBooking fuel rnd req db) as [[db' resp]|] eqn:Hadd; [|auto].
    destruct (addBooking_bookings _ _ _ _ _ _ Hadd)
      as [-> | (b & Hb & Hn & Hbi & _)]; [auto|].
    rewrite Hn. split; [lia|].
    unfold status_of, findById, findOne in *. rewrite Hb, find_app.
    destruct (find _ (bookings db)); [exact Hst|].
    simpl. rewrite Hbi.
    destruct (Nat.eqb (nextId db) bid) eqn:E; [|auto].
    apply Nat.eqb_eq in E. lia.
  - destruct (updateBooking_bookings req db)
      as [Hn [Hb | (booking & f & to & Hf & Hallowed & Hb & Hfx)]];
      rewrite Hn; (split; [exact Hbid|]);
      unfold status_of in *; rewrite Hb; [exact Hst|].
    destruct (protected_id f (fun x => proj2 (Hfx x))) as [Hfi _].
    destruct (Nat.eq_dec bid (upd_id req)) as [-> | Hne].
    + exfalso. rewrite Hf in Hst. simpl in Hst.
      destruct Hst as [Hst | Hst]; [|discriminate].
      inversion Hst as [Hst']. rewrite Hst' in Hallowed.
      destruct Hallowed as [[? _] | [? _]]; contradiction.
    + rewrite findById_update_other;
        [exact Hst | intros d Hd; now rewrite Hfi | exact Hne].
  - destruct (deleteBooking_bookings req db)
      as [Hn [Hb | (pre & booking & post & Hc & Hb & Hbk)]];
      rewrite Hn; (split; [exact Hbid|]);
      unfold status_of, findById, findOne in *; rewrite Hb; [exact Hst|].
    rewrite Hc, find_app in Hst. simpl in Hst. rewrite find_app.
    destruct (find _ pre); [exact Hst|].
    rewrite Hbk in Hst.
    destruct (Nat.eqb (bk_id req) bid) eqn:E; [|exact Hst].
    right. apply Nat.eqb_eq in E.
    rewrite find_all_false; [reflexivity|].
    intros x Hx. apply Nat.eqb_neq. intros Hxid.
    rewrite Hc, map_app in Hid. simpl in Hid. apply NoDup_remove_2 in Hid.
    apply Hid. apply in_or_app. right.
    replace (Booking._id booking) with (Booking._id x) by congruence.
    now apply in_map.
  - rewrite completeBookingWithCode_fst. auto.
Qed.

(** X10.  A booking that is completed, cancelled, expired or rejected keeps
    that status for good: with unique identifiers and pickup codes, after
    any sequence of requests to [addBooking], [updateBooking],
    [deleteBooking] and [completeBookingWithCode] the booking still has that
    status, or it has been deleted. *)
Theorem closed_status_is_final :
  forall ops db bid s,
    unique_bookings db ->
    closed_status s ->
    status_of bid db = Some s ->
    status_of bid (run ops db) = Some s \/ status_of bid (run ops db) = None.
Proof.
  intros ops db bid s Hu Hs Hst.
  assert (Hbid : (bid < nextId db)%nat).
  { destruct Hu as (_ & _ & Hlt). unfold status_of in Hst.
    destruct (findById Booking._id bid (bookings db)) as [b|] eqn:E;
      [|discriminate].
    apply findById_key in E. destruct E as [<- Hin]. now apply Hlt. }
  assert (H : status_of bid db = Some s \/ status_of bid db = None) by auto.
  clear Hst. revert db Hu Hbid H. unfold run.
  induction ops as [|op ops IH]; intros db Hu Hbid H; [exact H|].
  simpl.
  destruct (closed_status_step db op bid s Hs Hu Hbid H) as [Hbid' H'].
  apply IH; [apply unique_bookings_step, Hu | exact Hbid' | exact H'].
Qed.

Lemma closed_status_is_final_witness :
  status_of 2%nat
    (run [UpdateBooking (mkUpdateBookingReq 2%nat baker (Some "confirmed") None);
          CompleteBookingWithCode (mkCompleteReq "AAAAAA" baker)]
       (shop 3 [reservation cancelled])) = Some cancelled
  \/ status_of 2%nat
       (run [UpdateBooking
               (mkUpdateBookingReq 2%nat baker (Some "confirmed") None);
             CompleteBookingWithCode (mkCompleteReq "AAAAAA" baker)]
          (shop 3 [reservation cancelled])) = None.
Proof.
  apply closed_status_is_final.
  - unfold unique_bookings. simpl.
    repeat split; try (repeat constructor; simpl; tauto).
    intros b [<- | []]. simpl. lia.
  - split; discriminate.
  - reflexivity.
Defined.

(** ** Listings and bookings *)

(** X11.  For a request that names an existing offer, comes from a user
    other than the seller who holds no open booking of it, carries a body
    that passes the validators of the booking schema, and for which a
    pickup code is found: [addBooking] answers 201 exactly when the offer
    is active, has a positive available quantity and the time of the
    request is not after its pickup end.  The listings show an offer when
    it is active, has a positive available quantity and the time is before
    its pickup end: so whatever is listed can be booked, and an offer can
    still be booked at the very instant of its pickup end, when it is
    listed no more. *)
Theorem listed_offer_can_be_booked :
  forall fuel rnd req db offer code rnd',
    findById Offer._id (add_offerId req) (offers db) = Some offer ->
    id (add_user req) <> Offer.seller offer ->
    existingBooking (id (add_user req)) (add_offerId req) (bookings db) = None ->
    ~ invalid_body req ->
    generatePickupCode fuel rnd (bookings db) = Some (code, rnd') ->
    let booked :=
      exists db' b,
        addBooking fuel rnd req db = Some (db', Json 201%nat b)
        /\ Booking.offer b = add_offerId req
        /\ Some (Booking.quantity b) = add_quantity req
        /\ In b (bookings db') in
    (booked
     <-> Offer.isActive offer = true /\ 0 < Offer.availableQuantity offer
         /\ add_now req <= Offer.pickupEnd offer)
    /\ (listed (add_now req) offer = true -> booked)
    /\ (Offer.isActive offer = true -> 0 < Offer.availableQuantity offer ->
        add_now req = Offer.pickupEnd offer ->
        listed (add_now req) offer = false /\ booked).
Proof.
  intros fuel rnd req db offer code rnd' Hf Hu Hex Hvalid Hgen booked.
  assert (Hiff : booked
                 <-> Offer.isActive offer = true
                     /\ 0 < Offer.availableQuantity offer
                     /\ add_now req <= Offer.pickupEnd offer).
  { unfold booked, addBooking. rewrite Hf.
    apply Nat.eqb_neq in Hu.
    destruct (Offer.isActive offer) eqn:Ea; cbn [negb orb].
    2:{ split; [intros (db' & b & H & _); discriminate | intros [H _]; discriminate]. }
    destruct (Offer.availableQuantity offer <=? 0) eqn:Eq.
    { apply Z.leb_le in Eq.
      split; [intros (db' & b & H & _); discriminate | intros (_ & H & _); lia]. }
    apply Z.leb_gt in Eq.
    destruct (Offer.pickupEnd offer <? add_now req) eqn:Ep.
    { apply Z.ltb_lt in Ep.
      split; [intros (db' & b & H & _); discriminate | intros (_ & _ & H); lia]. }
    apply Z.ltb_ge in Ep.
    rewrite Hu, Hex, Hgen. unfold Booking_create.
    destruct (Booking_validate (add_quantity req) (add_status req) (add_rest req))
      as [m | [q st]] eqn:Ev.
    { exfalso. apply Hvalid. apply Booking_validate_inl. eauto. }
    apply Booking_validate_inr in Ev. destruct Ev as (Hq & _ & _).
    split; [auto|]. intros _. eexists. eexists.
    split; [reflexivity|]. split; [reflexivity|]. split; [now rewrite Hq|].
    cbn [Notification_create bookings]. rewrite bookings_post_save.
    cbn [bookings]. apply in_or_app. right. now left. }
  split; [exact Hiff|]. split.
  - unfold listed. rewrite !andb_true_iff, !Z.ltb_lt.
    intros H. apply Hiff. intuition lia.
  - intros Ha Hq Hnow. split.
    + unfold listed. rewrite Hnow, Z.ltb_irrefl. apply andb_false_r.
    + apply Hiff. intuition lia.
Qed.

Lemma listed_offer_can_be_booked_witness :
  listed 2000 (bread 3) = false
  /\ exists db' b,
      addBooking 1%nat draws
        (mkAddBookingReq 1%nat other_buyer (Some 2) None 2000 nothing_else)
        (shop 3 [])
      = Some (db', Json 201%nat b)
      /\ Booking.offer b = 1%nat
      /\ Some (Booking.quantity b) = Some 2
      /\ In b (bookings db').
Proof.
  apply (proj2 (proj2 (listed_offer_can_be_booked 1%nat draws
                         (mkAddBookingReq 1%nat other_buyer (Some 2) None 2000
                            nothing_else)
                         (shop 3 []) (bread 3) "AAAAAA" (skipn 6 draws)
                         eq_refl ltac:(simpl; discriminate) eq_refl
                         ltac:(intros H; apply Booking_validate_inl in H;
                               destruct H as [m H]; discriminate H)
                         eq_refl)));
    [reflexivity | reflexivity | reflexivity].
Defined.

(** ** Booking statistics *)

Lemma sum_Z_app (l1 l2 : list Z) : sum_Z (l1 ++ l2) = sum_Z l1 + sum_Z l2.
Proof. unfold sum_Z. induction l1 as [|x l1 IH]; simpl; lia. Qed.

Lemma group_count (s : BookingStatus) (bs : list Booking.doc) :
  sum_Z (List.map ByStatus.count (group_by_status s bs))
  = Z.of_nat (List.length
                (List.filter (fun b => status_eqb (Booking.status b) s) bs)).
Proof.
  unfold group_by_status.
  destruct (List.filter _ bs) as [|b g]; [reflexivity|].
  unfold sum_Z. simpl. lia.
Qed.

Lemma group_revenue (s : BookingStatus) (bs : list Booking.doc) :
  sum_Z (List.map ByStatus.totalRevenue (group_by_status s bs))
  = sum_Z (List.map Booking.totalPrice
             (List.filter (fun b => status_eqb (Booking.status b) s) bs)).
Proof.
  unfold group_by_status.
  destruct (List.filter _ bs) as [|b g]; [reflexivity|].
  unfold sum_Z. simpl. lia.
Qed.

Lemma group_only (s t : BookingStatus) (bs : list Booking.doc) :
  List.filter (fun g => status_eqb (ByStatus._id g) t) (group_by_status s bs)
  = if status_eqb s t then group_by_status s bs else [].
Proof.
  unfold group_by_status.
  destruct (List.filter _ bs) as [|b g]; [destruct (status_eqb s t); reflexivity|].
  simpl. destruct (status_eqb s t); reflexivity.
Qed.

Lemma count_status (s : BookingStatus) (bs : list Booking.doc) :
  sum_Z (List.map (fun b => if status_eqb (Booking.status b) s then 1 else 0) bs)
  = Z.of_nat (List.length
                (List.filter (fun b => status_eqb (Booking.status b) s) bs)).
Proof.
  unfold sum_Z. induction bs as [|b bs IH]; [reflexivity|].
  cbn [List.map fold_right List.filter].
  destruct (status_eqb (Booking.status b) s); cbn [List.length];
    rewrite ?Nat2Z.inj_succ; lia.
Qed.

Lemma status_partition (bs : list Booking.doc) :
  sum_Z (List.map
           (fun s => Z.of_nat
                       (List.length
                          (List.filter
                             (fun b => status_eqb (Booking.status b) s) bs)))
           status_sorted)
  = Z.of_nat (List.length bs)
  /\ sum_Z (List.map
              (fun s => sum_Z
                          (List.map Booking.totalPrice
                             (List.filter
                                (fun b => status_eqb (Booking.status b) s) bs)))
              status_sorted)
     = sum_Z (List.map Booking.totalPrice bs).
Proof.
  unfold sum_Z. induction bs as [|b bs [IH1 IH2]]; [split; reflexivity|].
  cbn [status_sorted List.map fold_right List.filter List.length] in *.
  destruct (Booking.status b);
    cbn [status_eqb List.map fold_right List.length];
    rewrite ?Nat2Z.inj_succ; split; lia.
Qed.

Lemma fold_min_max (x : Z) (l : list Z) :
  fold_right Z.min x l <= fold_right Z.max x l
  /\ Z.of_nat (List.length (x :: l)) * fold_right Z.min x l
     <= sum_Z (x :: l)
     <= Z.of_nat (List.length (x :: l)) * fold_right Z.max x l.
Proof.
  unfold sum_Z. induction l as [|y l IH];
    cbn [fold_right List.length] in *; rewrite ?Nat2Z.inj_succ in *; [lia|].
  destruct (Z.min_spec y (fold_right Z.min x l)) as [[? ->] | [? ->]],
           (Z.max_spec y (fold_right Z.max x l)) as [[? ->] | [? ->]]; nia.
Qed.

Lemma group_bounds (s : BookingStatus) (bs : list Booking.doc) (g : ByStatus.doc) :
  In g (group_by_status s bs) ->
  ByStatus._id g = s
  /\ 0 < ByStatus.count g
  /\ ByStatus.minPrice g <= ByStatus.maxPrice g
  /\ ByStatus.count g * ByStatus.minPrice g
     <= ByStatus.totalRevenue g
     <= ByStatus.count g * ByStatus.maxPrice g.
Proof.
  unfold group_by_status.
  destruct (List.filter _ bs) as [|b l]; [intros []|].
  intros [<- | []]. cbn [ByStatus._id ByStatus.count ByStatus.minPrice
                           ByStatus.maxPrice ByStatus.totalRevenue].
  pose proof (fold_min_max (Booking.totalPrice b) (List.map Booking.totalPrice l))
    as H.
  cbn [List.map List.length] in *. rewrite length_map in H.
  rewrite Nat2Z.inj_succ in *. repeat split; lia.
Qed.

(** X12.  The two tables of the booking statistics agree.  The counts of the
    per-status groups add up to the total number of bookings and their
    revenues to the total revenue; the group of the completed and of the
    cancelled bookings has the count given in the totals; every group is
    non-empty and its revenue lies between its count times its lowest and
    its count times its highest price.  When no booking matches there are
    neither groups nor totals. *)
Theorem booking_stats_agree :
  forall u db,
    match totals u db with
    | None => byStatus u db = []
    | Some t =>
        sum_Z (List.map ByStatus.count (byStatus u db)) = Totals.totalBookings t
        /\ sum_Z (List.map ByStatus.totalRevenue (byStatus u db))
           = Totals.totalRevenue t
        /\ sum_Z (List.map ByStatus.count
                    (List.filter
                       (fun g => status_eqb (ByStatus._id g) completed)
                       (byStatus u db)))
           = Totals.completedBookings t
        /\ sum_Z (List.map ByStatus.count
                    (List.filter
                       (fun g => status_eqb (ByStatus._id g) cancelled)
                       (byStatus u db)))
           = Totals.cancelledBookings t
        /\ (forall g,
               In g (byStatus u db) ->
               0 < ByStatus.count g
               /\ ByStatus.minPrice g <= ByStatus.maxPrice g
               /\ ByStatus.count g * ByStatus.minPrice g
                  <= ByStatus.totalRevenue g
                  <= ByStatus.count g * ByStatus.maxPrice g)
    end.
Proof.
  intros u db. unfold totals, byStatus.
  set (m := List.filter (stats_match u) (bookings db)).
  destruct m as [|b0 m0] eqn:Em; [reflexivity|].
  rewrite <- Em. clear Em.
  cbn [Totals.totalBookings Totals.totalRevenue Totals.completedBookings
         Totals.cancelledBookings].
  destruct (status_partition m) as [Hcount Hrev].
  cbn [status_sorted List.map flat_map] in *.
  rewrite !app_nil_r.
  split; [|split; [|split; [|split]]].
  - rewrite !map_app, !sum_Z_app, !group_count.
    unfold sum_Z in Hcount. cbn [fold_right] in Hcount. lia.
  - rewrite !map_app, !sum_Z_app, !group_revenue.
    unfold sum_Z at 1 in Hrev. cbn [fold_right] in Hrev. lia.
  - rewrite !filter_app, !group_only. cbn [status_eqb app].
    rewrite ?app_nil_r, group_count. symmetry. apply count_status.
  - rewrite !filter_app, !group_only. cbn [status_eqb app].
    rewrite ?app_nil_r, group_count. symmetry. apply count_status.
  - intros g Hg.
    repeat (apply in_app_or in Hg; destruct Hg as [Hg | Hg];
            [apply group_bounds in Hg; tauto|]).
    apply group_bounds in Hg; tauto.
Qed.

(** ** Bounds of the ratings *)

Lemma sum_bounds (lo hi : Z) (l : list Z) :
  (forall x, In x l -> lo <= x <= hi) ->
  Z.of_nat (List.length l) * lo <= fold_right Z.add 0 l
  <= Z.of_nat (List.length l) * hi.
Proof.
  induction l as [|y l IH]; intros H; [simpl; lia|].
  cbn [fold_right List.length]. rewrite Nat2Z.inj_succ.
  pose proof (H y (or_introl eq_refl)).
  specialize (IH (fun x Hx => H x (or_intror Hx))). nia.
Qed.

Lemma average_bounds (lo hi : Z) (l : list Z) :
  l <> [] ->
  (forall x, In x l -> lo <= x <= hi) ->
  (inject_Z lo <= average l)%Q /\ (average l <= inject_Z hi)%Q.
Proof.
  intros Hne H. pose proof (sum_bounds lo hi l H) as [Hlo Hhi].
  assert (Hn : (0 < inject_Z (Z.of_nat (List.length l)))%Q).
  { rewrite <- (Zlt_Qlt 0). destruct l; [contradiction | simpl; lia]. }
  unfold average. split.
  - apply Qle_shift_div_l; [exact Hn|].
    rewrite <- inject_Z_mult, <- Zle_Qle. lia.
  - apply Qle_shift_div_r; [exact Hn|].
    rewrite <- inject_Z_mult, <- Zle_Qle. lia.
Qed.

Lemma booking_ratings_positive (offerId : ObjectId) (bs : list Booking.doc)
      (x : Z) :
  In x (booking_ratings offerId bs) ->
  0 < x /\ exists b, In b bs /\ Booking.rating b = Some x.
Proof.
  unfold booking_ratings. intros H. apply in_flat_map in H.
  destruct H as (b & Hb & Hx).
  destruct (Nat.eqb (Booking.offer b) offerId); [|contradiction].
  destruct (Booking.rating b) as [r|] eqn:Er; [|contradiction].
  destruct (0 <? r) eqn:E; [|contradiction].
  destruct Hx as [<- | []]. apply Z.ltb_lt in E. eauto.
Qed.

(** X13.  The ratings that the aggregations store are 0 or lie between 1
    and 5.  With every review rated from 1 to 5, [Review.calcAverageRatings]
    stores on an existing store 0 when it has no review that is not marked
    deleted, and otherwise a value from 1 to 5.  With no booking rated above
    5, [Offer.getAverageRating] stores on an existing offer 0 or a value
    from 1 to 5. *)
Theorem stored_rating_in_range :
  (forall storeId db s,
      findById Store._id storeId (stores db) = Some s ->
      (forall r, In r (reviews db) -> (1 <= Review.rating r <= 5)%Q) ->
      exists rating,
        stored_rating store_type storeId (calcAverageRatings storeId db)
        = Some rating
        /\ ((undeleted_reviews storeId (reviews db) = [] /\ rating = 0%Q)
            \/ (undeleted_reviews storeId (reviews db) <> []
                /\ (1 <= rating)%Q /\ (rating <= 5)%Q)))
  /\ (forall offerId db o,
         findById Offer._id offerId (offers db) = Some o ->
         (forall b r, In b (bookings db) -> Booking.rating b = Some r -> r <= 5) ->
         exists rating,
           stored_rating offer_type offerId (Offer_getAverageRating offerId db)
           = Some rating
           /\ (rating = 0%Q \/ ((1 <= rating)%Q /\ (rating <= 5)%Q))).
Proof.
  split.
  - intros storeId db s Hf Hr.
    unfold stored_rating, calcAverageRatings. cbn [stores with_stores].
    rewrite findById_update_same by (intros d Hd; exact Hd).
    rewrite Hf. cbn [option_map Store.rating Store.set_rating].
    eexists. split; [reflexivity|].
    unfold group_ratings.
    destruct (undeleted_reviews storeId (reviews db)) as [|r l] eqn:E;
      [left; auto|].
    right. split; [discriminate|].
    apply (avg_bounds 1 5); [discriminate|].
    intros x Hx. apply in_map_iff in Hx. destruct Hx as (r' & <- & Hin).
    apply Hr. rewrite <- E in Hin. unfold undeleted_reviews in Hin.
    now apply filter_In in Hin.
  - intros offerId db o Hf Hr.
    unfold stored_rating, Offer_getAverageRating. cbn [offers with_offers].
    rewrite findById_update_same by (intros d Hd; exact Hd).
    rewrite Hf. cbn [option_map Offer.rating Offer.set_rating].
    eexists. split; [reflexivity|].
    destruct (booking_ratings offerId (bookings db)) as [|x l] eqn:E;
      [left; reflexivity|].
    right. apply (average_bounds 1 5); [discriminate|].
    intros y Hy. rewrite <- E in Hy. apply booking_ratings_positive in Hy.
    destruct Hy as (Hpos & b & Hb & Hrb). specialize (Hr b y Hb Hrb). lia.
Qed.

Lemma stored_rating_in_range_witness :
  exists rating,
    stored_rating store_type 20%nat
      (calcAverageRatings 20%nat (shop_reviewed [opinion 5%nat 4 false]))
    = Some rating
    /\ ((undeleted_reviews 20%nat [opinion 5%nat 4 false] = [] /\ rating = 0%Q)
        \/ (undeleted_reviews 20%nat [opinion 5%nat 4 false] <> []
            /\ (1 <= rating)%Q /\ (rating <= 5)%Q)).
Proof.
  apply (proj1 stored_rating_in_range 20%nat
           (shop_reviewed [opinion 5%nat 4 false]) (Store.mk 20%nat 10%nat None)
           eq_refl).
  intros r [<- | []]. split; discriminate.
Defined.

(** ** Review statistics *)







(** ** Removing a store, removing a review *)

(** X15.  The remove hook of a store deletes the offers and the reviews of
    the store and nothing of the bookings: a booking of one of the deleted
    offers stays in the database, whereas removing the offer itself deletes
    that booking. *)
Theorem Store_remove_keeps_bookings :
  forall this db,
    bookings (Store_remove this db) = bookings db
    /\ (forall o, In o (offers (Store_remove this db)) <->
                  In o (offers db) /\ Offer.store o <> Store._id this)
    /\ (forall r, In r (reviews (Store_remove this db)) <->
                  In r (reviews db) /\ Review.store r <> Store._id this)
    /\ (forall o b,
           In o (offers db) -> Offer.store o = Store._id this ->
           In b (bookings db) -> Booking.offer b = Offer._id o ->
           In b (bookings (Store_remove this db))
           /\ ~ In o (offers (Store_remove this db))
           /\ ~ In b (bookings (Offer_remove o db))).
Proof.
  intros this db. unfold Store_remove, Store_getAverageRating.
  cbn [bookings offers reviews stores with_offers with_reviews with_stores].
  assert (Ho : forall o,
             In o (deleteMany (fun o => Nat.eqb (Offer.store o) (Store._id this))
                     (offers db))
             <-> In o (offers db) /\ Offer.store o <> Store._id this).
  { intros o. rewrite In_deleteMany, Nat.eqb_neq. tauto. }
  split; [reflexivity|]. split; [exact Ho|]. split.
  - intros r. rewrite In_deleteMany, Nat.eqb_neq. tauto.
  - intros o b Hin Hst Hb Hbo. split; [exact Hb|]. split.
    + intros H. apply Ho in H. tauto.
    + unfold Offer_remove, Offer_getAverageRating.
      cbn [bookings offers with_offers with_bookings].
      intros H. apply In_deleteMany in H. destruct H as [_ H].
      apply Nat.eqb_neq in H. contradiction.
Qed.

Lemma Store_remove_keeps_bookings_witness :
  In (reservation pending)
    (bookings (Store_remove (Store.mk 20%nat 10%nat None)
                 (shop 3 [reservation pending])))
  /\ ~ In (bread 3)
       (offers (Store_remove (Store.mk 20%nat 10%nat None)
                  (shop 3 [reservation pending])))
  /\ ~ In (reservation pending)
       (bookings (Offer_remove (bread 3) (shop 3 [reservation pending]))).
Proof.
  apply (proj2 (proj2 (proj2 (Store_remove_keeps_bookings
                                (Store.mk 20%nat 10%nat None)
                                (shop 3 [reservation pending]))))
           (bread 3) (reservation pending));
    simpl; auto.
Defined.

Lemma availableQuantity_of_set_rating (o x : ObjectId) (r : option Q) (db : DB) :
  availableQuantity_of o
    (with_offers (findByIdAndUpdate Offer._id x (Offer.set_rating r) (offers db)) db)
  = availableQuantity_of o db.
Proof.
  unfold availableQuantity_of. cbn [offers with_offers].
  destruct (Nat.eq_dec o x) as [-> | Hne].
  - rewrite findById_update_same by (intros d Hd; exact Hd).
    destruct (findById Offer._id x (offers db)); reflexivity.
  - rewrite findById_update_other; [reflexivity | intros d Hd; exact Hd | exact Hne].
Qed.

(** [calculateAverageRating] writes ratings and nothing else. *)
Lemma calculateAverageRating_keeps (target : ObjectId) (type : RatedType) (db : DB) :
  bookings (calculateAverageRating target type db) = bookings db
  /\ reviews (calculateAverageRating target type db) = reviews db
  /\ forall o, availableQuantity_of o (calculateAverageRating target type db)
               = availableQuantity_of o db.
Proof.
  unfold calculateAverageRating. destruct type.
  - destruct (findById Store._id target (stores db)); [|auto].
    unfold Store_save_rating.
    destruct (rating_in_range _); auto.
  - destruct (findById Offer._id target (offers db)); [|auto].
    unfold Offer_save_rating.
    destruct (Offer_doc_validate _); [auto|].
    repeat split. intros o.
    rewrite availableQuantity_of_getAverageRating.
    apply availableQuantity_of_set_rating.
Qed.

(** X16.  [deleteReview] answers 200 exactly when the review exists and the
    requester is an admin: the guard compares the id of the requester with
    the populated [user] of the review, so the author of the review is
    answered 401 like anybody else.  On 200 that review, and no other, is
    taken out; otherwise nothing is written.  In no case does it touch a
    booking or the available quantity of an offer. *)
Theorem deleteReview_result :
  forall req db db' resp,
    deleteReview req db = (db', resp) ->
    (isError resp = false
     <-> exists review,
         findById Review._id (rev_id req) (reviews db) = Some review
         /\ role (rev_user req) = "admin")
    /\ (findById Review._id (rev_id req) (reviews db) <> None ->
        role (rev_user req) <> "admin" ->
        resp = ErrorResponse "User is not authorized to delete this review"
                 401%nat)
    /\ (isError resp = true -> db' = db)
    /\ (isError resp = false ->
        exists pre review post,
          reviews db = (pre ++ review :: post)%list
          /\ reviews db' = (pre ++ post)%list
          /\ Review._id review = rev_id req
          /\ (forall r, In r pre -> Review._id r <> rev_id req))
    /\ bookings db' = bookings db
    /\ (forall o, availableQuantity_of o db' = availableQuantity_of o db).
Proof.
  intros req db db' resp. unfold deleteReview.
  destruct (findById Review._id (rev_id req) (reviews db)) as [review|] eqn:Hf.
  2:{ intros H; inversion H; subst. simpl.
      split; [split; [discriminate | intros (r & Hr & _); discriminate]|].
      split; [intros Hn; now elim Hn|].
      split; [reflexivity|]. split; [discriminate | auto]. }
  cbn [toString_is andb negb].
  destruct (String.eqb (role (rev_user req)) "admin") eqn:Ha; cbn [negb].
  2:{ intros H; inversion H; subst. simpl. apply String.eqb_neq in Ha.
      split; [split; [discriminate|]|].
      - intros (r & _ & Hrole). contradiction.
      - split; [reflexivity|]. split; [reflexivity|].
        split; [discriminate | auto]. }
  apply String.eqb_eq in Ha.
  cbv zeta.
  set (db1 := with_reviews
                (findOneAndDelete
                   (fun r => Nat.eqb (Review._id r) (Review._id review))
                   (reviews db)) db).
  destruct (calculateAverageRating_keeps (Review.store review) store_type db1)
    as (Hb1 & Hr1 & Hq1).
  destruct (calculateAverageRating_keeps (Review.offer review) offer_type
              (calculateAverageRating (Review.store review) store_type db1))
    as (Hb2 & Hr2 & Hq2).
  set (db2 := calculateAverageRating (Review.offer review) offer_type
                (calculateAverageRating (Review.store review) store_type db1))
    in *.
  intros H. injection H as Hdb Hresp. subst db' resp. cbn [isError].
  split; [split; [eauto | reflexivity]|].
  split; [intros _ Hn; contradiction|].
  split; [discriminate|]. split; [|split].
  - intros _. rewrite Hr2, Hr1. unfold db1. cbn [reviews with_reviews].
    destruct (findById_key _ _ _ _ Hf) as [Hid _]. rewrite Hid.
    destruct (findOneAndDelete_cases
                (fun r => Nat.eqb (Review._id r) (rev_id req)) (reviews db))
      as [[Hn _] | (pre & d0 & post & Hd & Hc & Hu & Hpre)].
    + unfold findById, findOne in Hf. congruence.
    + unfold findById, findOne in Hf. rewrite Hf in Hd. inversion Hd; subst d0.
      exists pre, review, post. repeat split; try assumption.
      intros r Hin. apply Hpre in Hin. now apply Nat.eqb_neq.
  - rewrite Hb2, Hb1. reflexivity.
  - intros o. rewrite Hq2, Hq1. reflexivity.
Qed.

Lemma deleteReview_result_witness :
  deleteReview (mkReviewReq 5%nat buyer) (shop_reviewed [opinion 5%nat 4 false])
  = (shop_reviewed [opinion 5%nat 4 false],
     ErrorResponse "User is not authorized to delete this review" 401%nat)
  /\ reviews (fst (deleteReview (mkReviewReq 5%nat administrator)
                     (shop_reviewed [opinion 5%nat 4 false])))
     = [].
Proof.
  pose proof (deleteReview_result (mkReviewReq 5%nat buyer)
                (shop_reviewed [opinion 5%nat 4 false]) _ _
                (surjective_pairing _)) as (_ & H401 & Hsame & _).
  pose proof (deleteReview_result (mkReviewReq 5%nat administrator)
                (shop_reviewed [opinion 5%nat 4 false]) _ _
                (surjective_pairing _)) as (Hiff & _ & _ & Hgone & _).
  split.
  - rewrite (surjective_pairing (deleteReview _ _)).
    assert (Hresp := H401 ltac:(discriminate) ltac:(discriminate)).
    rewrite Hresp in *. rewrite (Hsame eq_refl). reflexivity.
  - destruct Hgone as (pre & review & post & Hc & Hc' & _).
    + apply Hiff. exists (opinion 5%nat 4 false). split; reflexivity.
    + rewrite Hc'. cbn [reviews shop_reviewed] in Hc.
      destruct pre as [|x pre]; [|destruct pre; discriminate Hc].
      injection Hc as _ <-. reflexivity.
Defined.

(** X17.  The body of [createOffer] cannot choose the seller, the store or
    the available quantity: an offer is created only in a store that the
    requester owns, with the requester as seller, and with the whole
    quantity, which is at least 1, available; the offer is added to the
    offers and no booking is written. *)
Theorem createOffer_sets_owner_and_quantity :
  forall req db db' o,
    createOffer req db = (db', Json 201%nat o) ->
    Offer.seller o = id (offer_user req)
    /\ Offer.store o = offer_param req
    /\ Offer.availableQuantity o = Offer.quantity o
    /\ 1 <= Offer.quantity o
    /\ (exists s, In s (stores db) /\ Store._id s = offer_param req
                  /\ Store.owner s = id (offer_user req))
    /\ List.map Offer._id (offers db')
       = (List.map Offer._id (offers db) ++ [Offer._id o])%list
    /\ bookings db' = bookings db.
Proof.
  intros req db db' o. unfold createOffer.
  destruct (findOne _ (stores db)) as [s|] eqn:Hs; [|discriminate].
  unfold Offer_create.
  match goal with
  | |- context [Offer_validate ?b] =>
      destruct (Offer_validate b) eqn:Hv; [discriminate|]
  end.
  intros H. inversion H; subst; clear H.
  unfold Offer_validate in Hv. simpl in Hv.
  passed Hv "Please add the available quantity".
  passed Hv "Quantity must be at least 1".
  destruct (body_quantity (offer_body req)) as [q|]; [|discriminate].
  simpl in *.
  unfold findOne in Hs. apply find_some in Hs. destruct Hs as [Hin Hp].
  apply andb_true_iff in Hp. destruct Hp as [Hp1 Hp2].
  apply Nat.eqb_eq in Hp1, Hp2. apply Z.leb_le in Hpass0.
  repeat split; try assumption; try reflexivity.
  - exists s. auto.
  - unfold findByIdAndUpdate.
    rewrite findOneAndUpdate_map by reflexivity.
    now rewrite map_app.
Qed.

Lemma createOffer_sets_owner_and_quantity_witness :
  exists db' o,
    createOffer
      (mkOfferReq 20%nat baker
         (mkOfferBody (Some 99%nat) (Some 98%nat) (Some "Cake") (Some 50)
            (Some 30) (Some 4) (Some 100) (Some 10) (Some 20) None None))
      (shop 3 [])
    = (db', Json 201%nat o)
    /\ Offer.seller o = 10%nat /\ Offer.store o = 20%nat
    /\ Offer.availableQuantity o = Offer.quantity o.
Proof.
  assert (E : exists db' o,
             createOffer
               (mkOfferReq 20%nat baker
                  (mkOfferBody (Some 99%nat) (Some 98%nat) (Some "Cake")
                     (Some 50) (Some 30) (Some 4) (Some 100) (Some 10)
                     (Some 20) None None))
               (shop 3 [])
             = (db', Json 201%nat o))
    by (eexists; eexists; vm_compute; reflexivity).
  destruct E as (db' & o & E). exists db', o. split; [exact E|].
  destruct (createOffer_sets_owner_and_quantity _ _ _ _ E)
    as (Hs & Ht & Ha & _).
  split; [exact Hs | split; [exact Ht | exact Ha]].
Defined.

(** ** Notifications *)

Lemma countDocuments_nonneg {A} (q : A -> bool) (c : list A) :
  0 <= countDocuments q c.
Proof. unfold countDocuments. lia. Qed.

(** Marking the matches of [q], a condition that implies being unread for
    the user, lowers the number of the user's unread notifications by the
    number of matches. *)
Lemma unread_after_marking (userId : ObjectId) (q : Stored.doc -> bool)
      (c : list Stored.doc) :
  (forall d, q d = true -> unread_of userId d = true) ->
  countDocuments (unread_of userId) (updateMany q (Stored.set_isRead true) c)
  = countDocuments (unread_of userId) c - countDocuments q c.
Proof.
  intros Hq. unfold countDocuments, updateMany.
  induction c as [|d c IH]; [reflexivity|].
  cbn [List.map List.filter].
  destruct (q d) eqn:E.
  - rewrite (Hq d E).
    assert (Hr : unread_of userId (Stored.set_isRead true d) = false)
      by (unfold unread_of; simpl; apply andb_false_r).
    rewrite Hr. cbn [List.length]. rewrite !Nat2Z.inj_succ. lia.
  - destruct (unread_of userId d); cbn [List.length];
      rewrite ?Nat2Z.inj_succ; lia.
Qed.

Lemma updateMany_others {A} (q : A -> bool) (f : A -> A) (c : list A) (d : A) :
  In d c -> q d = false -> In d (updateMany q f c).
Proof.
  intros Hin Hq. unfold updateMany. apply in_map_iff. exists d.
  rewrite Hq. auto.
Qed.

(** X18.  [markAsRead] answers 400 and writes nothing when the body has no
    array of identifiers.  Otherwise the unread count it reports is the
    number of the requester's unread notifications before the request less
    the modified count, neither is negative, and no notification of
    another user and none outside the list is changed. *)
Theorem markAsRead_counts :
  forall req c c' resp,
    markAsRead req c = (c', resp) ->
    match mark_notificationIds req with
    | None =>
        resp = ErrorResponse "Please provide an array of notification IDs" 400%nat
        /\ c' = c
    | Some notificationIds =>
        exists modifiedCount unreadCount,
          resp = Json 200%nat (modifiedCount, unreadCount)
          /\ unreadCount
             = countDocuments (unread_of (id (mark_user req))) c - modifiedCount
          /\ unreadCount = countDocuments (unread_of (id (mark_user req))) c'
          /\ 0 <= modifiedCount /\ 0 <= unreadCount
          /\ (forall d, In d c ->
                        Stored.user d <> id (mark_user req)
                        \/ ~ In (Stored._id d) notificationIds
                        \/ Stored.isRead d = true ->
                        In d c')
          /\ List.map Stored._id c' = List.map Stored._id c
    end.
Proof.
  intros req c c' resp. unfold markAsRead.
  destruct (mark_notificationIds req) as [ids|];
    [|intros H; inversion H; auto].
  intros H. injection H as Hc Hresp. subst c' resp.
  set (q := fun d => existsb (Nat.eqb (Stored._id d)) ids
                     && unread_of (id (mark_user req)) d).
  assert (Hq : forall d, q d = true -> unread_of (id (mark_user req)) d = true).
  { intros d Hd. unfold q in Hd. now apply andb_true_iff in Hd. }
  eexists. eexists. split; [reflexivity|].
  split; [apply unread_after_marking; exact Hq|].
  split; [reflexivity|].
  split; [apply countDocuments_nonneg|].
  split; [apply countDocuments_nonneg|]. split.
  - intros d Hin Hcase. apply updateMany_others; [exact Hin|].
    unfold q, unread_of.
    destruct Hcase as [Hu | [Hi | Hr]].
    + apply Nat.eqb_neq in Hu. rewrite Hu. simpl. apply andb_false_r.
    + destruct (existsb (Nat.eqb (Stored._id d)) ids) eqn:E; [|reflexivity].
      exfalso. apply Hi. apply existsb_exists in E.
      destruct E as (x & Hx & Hxe). apply Nat.eqb_eq in Hxe. now subst x.
    + rewrite Hr. simpl. rewrite !andb_false_r. reflexivity.
  - unfold updateMany. rewrite map_map. apply map_ext.
    intros d. destruct (q d); reflexivity.
Qed.

Lemma markAsRead_counts_witness :
  exists modifiedCount unreadCount,
    snd (markAsRead (mkMarkAsReadReq buyer (Some [7%nat; 8%nat]))
           [Stored.mk 7%nat (Notification.mk 11%nat "a" "promotion") false None;
            Stored.mk 8%nat (Notification.mk 12%nat "b" "promotion") false None;
            Stored.mk 9%nat (Notification.mk 11%nat "c" "promotion") false None])
    = Json 200%nat (modifiedCount, unreadCount)
    /\ unreadCount = 2 - modifiedCount.
Proof.
  pose proof (markAsRead_counts
                (mkMarkAsReadReq buyer (Some [7%nat; 8%nat]))
                [Stored.mk 7%nat (Notification.mk 11%nat "a" "promotion") false None;
                 Stored.mk 8%nat (Notification.mk 12%nat "b" "promotion") false None;
                 Stored.mk 9%nat (Notification.mk 11%nat "c" "promotion") false None]
                _ _ (surjective_pairing _)) as H.
  cbn [mark_notificationIds] in H.
  destruct H as (m & u & Hresp & Hu & _).
  exists m, u. split; [exact Hresp | exact Hu].
Defined.

(** X19.  After [markAllAsRead] the requester has no unread notification,
    so the constant 0 that the handler reports is their unread count; the
    modified count is the number of notifications that were unread, and the
    notifications of the other users are as before. *)
Theorem markAllAsRead_leaves_none_unread :
  forall u c,
    let c' := fst (markAllAsRead u c) in
    snd (markAllAsRead u c)
    = Json 200%nat (countDocuments (unread_of (id u)) c,
                    countDocuments (unread_of (id u)) c')
    /\ countDocuments (unread_of (id u)) c' = 0
    /\ (forall d, In d c -> Stored.user d <> id u -> In d c')
    /\ List.map Stored._id c' = List.map Stored._id c.
Proof.
  intros u c c'. unfold c', markAllAsRead. cbn [fst snd].
  assert (H0 : countDocuments (unread_of (id u))
                 (updateMany (unread_of (id u)) (Stored.set_isRead true) c) = 0).
  { rewrite unread_after_marking by auto. lia. }
  rewrite H0. split; [reflexivity|]. split; [reflexivity|]. split.
  - intros d Hin Hu. apply updateMany_others; [exact Hin|].
    unfold unread_of. apply Nat.eqb_neq in Hu. now rewrite Hu.
  - unfold updateMany. rewrite map_map. apply map_ext.
    intros d. destruct (unread_of (id u) d); reflexivity.
Qed.

(** X20.  [deleteNotification] deletes only a notification of the requester
    that has not expired: on 200 exactly one such notification with the
    identifier asked for is gone and the unread count reported is the one
    after the deletion; when every notification with that identifier
    belongs to someone else or has expired, the answer is 404; and on 404
    nothing is written. *)
Theorem deleteNotification_result :
  forall req c c' resp,
    deleteNotification req c = (c', resp) ->
    (isError resp = true ->
     c' = c /\ resp = ErrorResponse "No notification found with id" 404%nat)
    /\ (isError resp = false ->
        exists pre d post,
          c = (pre ++ d :: post)%list /\ c' = (pre ++ post)%list
          /\ Stored._id d = note_id req
          /\ Stored.user d = id (note_user req)
          /\ unexpired (note_now req) d = true
          /\ resp = Json 200%nat
                      (countDocuments (unread_of (id (note_user req))) c'))
    /\ ((forall d, In d c -> Stored._id d = note_id req ->
                   Stored.user d <> id (note_user req)
                   \/ unexpired (note_now req) d = false) ->
        isError resp = true).
Proof.
  intros req c c' resp. unfold deleteNotification.
  set (q := fun d => Nat.eqb (Stored._id d) (note_id req)
                     && Nat.eqb (Stored.user d) (id (note_user req))
                     && unexpired (note_now req) d).
  destruct (findOne q c) as [d|] eqn:Hf.
  - intros H. injection H as Hc Hresp. subst c' resp. cbn [isError].
    unfold findOne in Hf.
    split; [discriminate|]. split.
    + intros _.
      destruct (findOneAndDelete_cases q c)
        as [[Hn _] | (pre & d0 & post & Hd & Hc & Hu & _)]; [congruence|].
      rewrite Hf in Hd. inversion Hd; subst d0.
      apply find_some in Hf. destruct Hf as [_ Hq]. unfold q in Hq.
      rewrite !andb_true_iff, !Nat.eqb_eq in Hq.
      exists pre, d, post. rewrite Hu. tauto.
    + intros Hall. apply find_some in Hf. destruct Hf as [Hin Hq].
      unfold q in Hq. rewrite !andb_true_iff, !Nat.eqb_eq in Hq.
      destruct (Hall d Hin) as [H | H]; [tauto | tauto | ].
      destruct Hq as [_ Hq]. congruence.
  - intros H. injection H as Hc Hresp. subst c' resp. cbn [isError].
    split; [auto|]. split; [discriminate | reflexivity].
Qed.

Lemma deleteNotification_result_witness :
  isError (snd (deleteNotification (mkNotificationReq 7%nat buyer 1500)
                  [Stored.mk 7%nat (Notification.mk 11%nat "a" "promotion")
                     false (Some 1000)])) = true.
Proof.
  apply (proj2 (proj2 (deleteNotification_result
                         (mkNotificationReq 7%nat buyer 1500)
                         [Stored.mk 7%nat (Notification.mk 11%nat "a" "promotion")
                            false (Some 1000)]
                         _ _ (surjective_pairing _)))).
  intros d [<- | []] _. right. reflexivity.
Defined.

Lemma filter_and_length {A} (p q : A -> bool) (c : list A) :
  (List.length (List.filter (fun d => p d && q d) c)
   <= List.length (List.filter p c))%nat.
Proof.
  induction c as [|d c IH]; [apply Nat.le_refl|].
  cbn [List.filter]. destruct (p d); cbn [andb].
  - destruct (q d); cbn [List.length]; lia.
  - exact IH.
Qed.

(** X21.  The count of [getUnreadCount] leaves expired notifications out,
    the [unreadCount] of [markAsRead] and [deleteNotification] does not:
    the former is never more than the latter, the two agree when none of
    the user's unread notifications has expired, and after
    [markAllAsRead] the former is 0 as well. *)
Theorem getUnreadCount_at_most_unread :
  forall u now c,
    0 <= getUnreadCount u now c <= countDocuments (unread_of (id u)) c
    /\ ((forall d, In d c -> unread_of (id u) d = true ->
                   unexpired now d = true) ->
        getUnreadCount u now c = countDocuments (unread_of (id u)) c)
    /\ getUnreadCount u now (fst (markAllAsRead u c)) = 0.
Proof.
  intros u now c.
  assert (Hle : forall c0,
             getUnreadCount u now c0 <= countDocuments (unread_of (id u)) c0).
  { intros c0. unfold getUnreadCount, countDocuments.
    apply inj_le. apply filter_and_length. }
  split; [split; [apply countDocuments_nonneg | apply Hle]|]. split.
  - intros Hall. unfold getUnreadCount, countDocuments. f_equal. f_equal.
    apply filter_ext_in. intros d Hin.
    destruct (unread_of (id u) d) eqn:E; [|reflexivity].
    now rewrite (Hall d Hin E).
  - pose proof (Hle (fst (markAllAsRead u c))) as H1.
    pose proof (countDocuments_nonneg
                  (fun d => unread_of (id u) d && unexpired now d)
                  (fst (markAllAsRead u c))) as H2.
    unfold markAllAsRead in *. cbn [fst] in *.
    rewrite unread_after_marking in H1 by auto.
    unfold getUnreadCount in *. lia.
Qed.
